(** * guile-xlib: the resource lifecycle of [xlib.c]

    A shallow embedding of the smob layer of [xlib.c]: the four smob
    structures, the state validators [valid_dsp], [valid_win] and
    [valid_gc], the free and mark hooks, the display, window, pixmap and
    graphics-context primitives, and the resource-id table behind
    [lookup_window].

    The Scheme heap is explicit: a smob is a cell (its 16-bit type tag and
    its data word) pointing at a block obtained from [scm_gc_malloc].  The
    C code runs in a state-and-error monad over that heap; every call into
    Xlib is appended to a trace, and what Xlib answers is read from an
    oracle. *)

From stdpp Require Import base gmap strings list.

Open Scope string_scope.
Open Scope list_scope.
Open Scope Z_scope.

(** ** Scheme values *)

Definition addr := positive.   (* address of a heap cell *)
Definition ptr := positive.    (* address of a scm_gc_malloc block *)

Inductive SCM :=
| SCM_BOOL_F
| SCM_BOOL_T
| SCM_UNDEFINED                (* an optional argument left out *)
| SCM_UNSPECIFIED
| SCM_INUM (n : Z)             (* an exact integer *)
| SCM_STRING (s : string)
| SCM_CELL (a : addr).         (* a smob: pointer to a heap cell *)

#[global] Instance SCM_eq_dec : EqDecision SCM.
Proof. solve_decision. Defined.

Definition SCM_UNBNDP (x : SCM) : bool := bool_decide (x = SCM_UNDEFINED).

(** [SCM_NIMP]: the value is a pointer into the heap.  Strings are heap
    objects too, with a type tag of their own. *)
Definition SCM_NIMP (x : SCM) : bool :=
  match x with
  | SCM_CELL _ | SCM_STRING _ => true
  | _ => false
  end.

(** ** Smob type tags *)

Inductive tc16 :=
| scm_tc_free_cell             (* what a sweep leaves in a freed cell *)
| scm_tc16_xdisplay
| scm_tc16_xscreen
| scm_tc16_xwindow
| scm_tc16_xgc
| scm_tc16_other.              (* any type that is not of this module *)

#[global] Instance tc16_eq_dec : EqDecision tc16.
Proof. solve_decision. Defined.

(** ** The smob structures *)

Definition XDISPLAY_STATE_OPEN : Z := 1.
Definition XDISPLAY_STATE_CLOSED : Z := 2.
Definition XDISPLAY_STATE_ANY : Z :=
  Z.lor XDISPLAY_STATE_OPEN XDISPLAY_STATE_CLOSED.

Record xdisplay_t := {
  xdisplay_dsp : Z;            (* Display *, 0 is NULL *)
  xdisplay_state : Z;
  xdisplay_gc : SCM            (* cached default gc smob, or #f *)
}.

Record xscreen_t := {
  xscreen_dsp : SCM;
  xscreen_scr : Z              (* Screen * *)
}.

Definition XWINDOW_STATE_UNMAPPED : Z := 1.
Definition XWINDOW_STATE_MAPPED : Z := 2.
Definition XWINDOW_STATE_DESTROYED : Z := 4.
Definition XWINDOW_STATE_THIRD_PARTY : Z := 8.
Definition XWINDOW_STATE_PIXMAP : Z := 16.

Record xwindow_t := {
  xwindow_dsp : SCM;
  xwindow_win : Z;             (* Window, an XID *)
  xwindow_state : Z
}.

Definition XGC_STATE_DEFAULT : Z := 1.
Definition XGC_STATE_CREATED : Z := 2.
Definition XGC_STATE_FREED : Z := 4.

Record xgc_t := {
  xgc_dsp : SCM;
  xgc_gc : Z;                  (* GC, a pointer *)
  xgc_state : Z
}.

#[global] Instance xdisplay_t_eq_dec : EqDecision xdisplay_t.
Proof. solve_decision. Defined.
#[global] Instance xscreen_t_eq_dec : EqDecision xscreen_t.
Proof. solve_decision. Defined.
#[global] Instance xwindow_t_eq_dec : EqDecision xwindow_t.
Proof. solve_decision. Defined.
#[global] Instance xgc_t_eq_dec : EqDecision xgc_t.
Proof. solve_decision. Defined.

(** ** The heap *)

Record cell := {
  cell_typ16 : tc16;
  cell_data : ptr              (* SCM_SMOB_DATA *)
}.

Inductive block :=
| B_xdisplay (d : xdisplay_t)
| B_xscreen (s : xscreen_t)
| B_xwindow (x : xwindow_t)
| B_xgc (g : xgc_t).

(** ** Calls into Xlib

    Function calls are recorded; the macros of Xlib.h that only read the
    Display structure ([ScreenCount], [DefaultScreen], [DefaultGC],
    [RootWindow], ...) are not. *)

Inductive xcall :=
| XOpenDisplay (name : option string)
| XCloseDisplay (d : Z)
| XScreenNumberOfScreen (s : Z)
| XDefaultScreen (d : Z)
| XWhitePixel (d scr : Z)
| XCreateWindow (d parent : Z)
| XSetNormalHints (d w : Z)
| XStoreName (d w : Z) (name : string)
| XMapWindow (d w : Z)
| XUnmapWindow (d w : Z)
| XDestroyWindow (d w : Z)
| XClearWindow (d w : Z)
| XCreatePixmap (d root width height depth : Z)
| XFreePixmap (d pix : Z)         (* of Xlib; xlib.c never calls it *)
| XCopyArea (d src dst g src_x src_y width height dst_x dst_y : Z)
| XCreateGC (d w mask : Z)
| XFreeGC (d g : Z)
| XDrawArcs (d w g n : Z)
| XDrawLines (d w g n : Z)
| XDrawPoints (d w g n : Z)
| XDrawSegments (d w g n : Z)
| XDrawRectangles (d w g n : Z).

#[global] Instance xcall_eq_dec : EqDecision xcall.
Proof. solve_decision. Defined.

Record world := {
  cells : gmap addr cell;
  blocks : gmap ptr block;
  resource_id_hash : gmap Z SCM;   (* hashq table keyed by the fixnum id *)
  trace : list xcall               (* oldest call first *)
}.

(** ** The state-and-error monad *)

Inductive scm_error :=
| wrong_type_arg (func : string) (pos : nat) (bad : SCM)
| out_of_range (func : string) (pos : nat) (bad : SCM)
| misc_error (func : string) (message : string) (args : list SCM)
| undefined_behaviour.         (* smob data read through an unchecked cast *)

#[global] Instance scm_error_eq_dec : EqDecision scm_error.
Proof. solve_decision. Defined.

Inductive result (A : Type) :=
| Ok (a : A)
| Throw (e : scm_error).
Arguments Ok {A} a.
Arguments Throw {A} e.

Definition M (A : Type) : Type := world -> result A * world.

Definition ret {A} (a : A) : M A := fun w => (Ok a, w).

Definition bind {A B} (c : M A) (k : A -> M B) : M B :=
  fun w =>
    match c w with
    | (Ok a, w') => k a w'
    | (Throw e, w') => (Throw e, w')
    end.

Definition throw {A} (e : scm_error) : M A := fun w => (Throw e, w).
Definition gets {A} (f : world -> A) : M A := fun w => (Ok (f w), w).
Definition modify (f : world -> world) : M unit := fun w => (Ok tt, f w).

Notation "'let*' x ':=' c 'in' k" := (bind c (fun x => k))
  (at level 10, x pattern, c at level 100, k at level 200).
Notation "c1 '>>' c2" := (bind c1 (fun _ => c2))
  (at level 100, c2 at level 200, right associativity).

(** ** Heap primitives of libguile *)

(** [SCM_TYP16]: the tag of a heap cell.  The C code applies it to
    pointers only; anything that is not a cell of this heap has a tag that
    is none of this module's. *)
Definition typ16_of (w : world) (x : SCM) : tc16 :=
  match x with
  | SCM_CELL a =>
      match cells w !! a with
      | Some c => cell_typ16 c
      | None => scm_tc16_other
      end
  | _ => scm_tc16_other
  end.

Definition SCM_TYP16 (x : SCM) : M tc16 := gets (fun w => typ16_of w x).

Definition smob_data_of (w : world) (x : SCM) : option ptr :=
  match x with
  | SCM_CELL a => cell_data <$> cells w !! a
  | _ => None
  end.

Definition SCM_SMOB_DATA (x : SCM) : M ptr :=
  fun w =>
    match smob_data_of w x with
    | Some p => (Ok p, w)
    | None => (Throw undefined_behaviour, w)
    end.

(** Reading a structure through a pointer: the C cast is unchecked, so a
    block of another type is undefined behaviour. *)
Definition load {A} (proj : block -> option A) (p : ptr) : M A :=
  fun w =>
    match blocks w !! p ≫= proj with
    | Some v => (Ok v, w)
    | None => (Throw undefined_behaviour, w)
    end.

Definition as_xdisplay (b : block) : option xdisplay_t :=
  match b with B_xdisplay d => Some d | _ => None end.
Definition as_xscreen (b : block) : option xscreen_t :=
  match b with B_xscreen s => Some s | _ => None end.
Definition as_xwindow (b : block) : option xwindow_t :=
  match b with B_xwindow x => Some x | _ => None end.
Definition as_xgc (b : block) : option xgc_t :=
  match b with B_xgc g => Some g | _ => None end.

Definition set_blocks (f : gmap ptr block -> gmap ptr block) (w : world)
  : world :=
  {| cells := cells w; blocks := f (blocks w);
     resource_id_hash := resource_id_hash w; trace := trace w |}.

Definition set_cells (f : gmap addr cell -> gmap addr cell) (w : world)
  : world :=
  {| cells := f (cells w); blocks := blocks w;
     resource_id_hash := resource_id_hash w; trace := trace w |}.

Definition set_hash (f : gmap Z SCM -> gmap Z SCM) (w : world) : world :=
  {| cells := cells w; blocks := blocks w;
     resource_id_hash := f (resource_id_hash w); trace := trace w |}.

Definition set_trace (f : list xcall -> list xcall) (w : world) : world :=
  {| cells := cells w; blocks := blocks w;
     resource_id_hash := resource_id_hash w; trace := f (trace w) |}.

(** Writing one field through a pointer. *)
Definition store {A} (proj : block -> option A) (inj : A -> block)
    (p : ptr) (f : A -> A) : M unit :=
  let* v := load proj p in
  modify (set_blocks <[p := inj (f v)]>).

Definition scm_gc_malloc (zeroed : block) : M ptr :=
  fun w =>
    let p := fresh (dom (blocks w)) in
    (Ok p, set_blocks <[p := zeroed]> w).

Definition scm_gc_free (p : ptr) : M unit :=
  modify (set_blocks (delete p)).

Definition SCM_NEWSMOB (tag : tc16) (data : ptr) : M SCM :=
  fun w =>
    let a := fresh (dom (cells w)) in
    (Ok (SCM_CELL a),
     set_cells <[a := {| cell_typ16 := tag; cell_data := data |}]> w).

(** The C [int] of an XID, as [scm_from_int (win->win)] converts it. *)
Definition int_of_XID (id : Z) : Z :=
  (id + 2 ^ 31) mod 2 ^ 32 - 2 ^ 31.

Definition scm_hashq_ref (key : Z) (dflt : SCM) : M SCM :=
  gets (fun w => default dflt (resource_id_hash w !! key)).

Definition scm_hashq_set_x (key : Z) (val : SCM) : M unit :=
  modify (set_hash <[key := val]>).

(** A call into Xlib. *)
Definition xlib_call (c : xcall) : M unit :=
  modify (set_trace (fun t => t ++ [c])).

Definition SCM_ASSERT (cond : bool) (arg : SCM) (pos : nat) (func : string)
  : M unit :=
  if cond then ret tt else throw (wrong_type_arg func pos arg).

Definition SCM_ASSERT_RANGE (pos : nat) (arg : SCM) (cond : bool)
    (func : string) : M unit :=
  if cond then ret tt else throw (out_of_range func pos arg).

Definition INT_MIN : Z := - 2 ^ 31.
Definition INT_MAX : Z := 2 ^ 31 - 1.
Definition UINT_MAX : Z := 2 ^ 32 - 1.

Definition scm_to_int (x : SCM) : M Z :=
  match x with
  | SCM_INUM n =>
      if (INT_MIN <=? n) && (n <=? INT_MAX) then ret n
      else throw (out_of_range "" 0 x)
  | _ => throw (wrong_type_arg "" 0 x)
  end.

Definition scm_to_uint (x : SCM) : M Z :=
  match x with
  | SCM_INUM n =>
      if (0 <=? n) && (n <=? UINT_MAX) then ret n
      else throw (out_of_range "" 0 x)
  | _ => throw (wrong_type_arg "" 0 x)
  end.

Definition SCM_ARG1 : nat := 1.
Definition SCM_ARG2 : nat := 2.
Definition SCM_ARG3 : nat := 3.
Definition SCM_ARG4 : nat := 4.
Definition SCM_ARG5 : nat := 5.
Definition SCM_ARG6 : nat := 6.
Definition SCM_ARG7 : nat := 7.

(** Field assignments [p->field = v]. *)
Definition with_xdisplay_dsp (v : Z) (d : xdisplay_t) : xdisplay_t :=
  {| xdisplay_dsp := v; xdisplay_state := xdisplay_state d;
     xdisplay_gc := xdisplay_gc d |}.
Definition with_xdisplay_state (v : Z) (d : xdisplay_t) : xdisplay_t :=
  {| xdisplay_dsp := xdisplay_dsp d; xdisplay_state := v;
     xdisplay_gc := xdisplay_gc d |}.
Definition with_xdisplay_gc (v : SCM) (d : xdisplay_t) : xdisplay_t :=
  {| xdisplay_dsp := xdisplay_dsp d; xdisplay_state := xdisplay_state d;
     xdisplay_gc := v |}.

Definition with_xscreen_dsp (v : SCM) (s : xscreen_t) : xscreen_t :=
  {| xscreen_dsp := v; xscreen_scr := xscreen_scr s |}.
Definition with_xscreen_scr (v : Z) (s : xscreen_t) : xscreen_t :=
  {| xscreen_dsp := xscreen_dsp s; xscreen_scr := v |}.

Definition with_xwindow_dsp (v : SCM) (x : xwindow_t) : xwindow_t :=
  {| xwindow_dsp := v; xwindow_win := xwindow_win x;
     xwindow_state := xwindow_state x |}.
Definition with_xwindow_win (v : Z) (x : xwindow_t) : xwindow_t :=
  {| xwindow_dsp := xwindow_dsp x; xwindow_win := v;
     xwindow_state := xwindow_state x |}.
Definition with_xwindow_state (v : Z) (x : xwindow_t) : xwindow_t :=
  {| xwindow_dsp := xwindow_dsp x; xwindow_win := xwindow_win x;
     xwindow_state := v |}.

Definition with_xgc_dsp (v : SCM) (g : xgc_t) : xgc_t :=
  {| xgc_dsp := v; xgc_gc := xgc_gc g; xgc_state := xgc_state g |}.
Definition with_xgc_gc (v : Z) (g : xgc_t) : xgc_t :=
  {| xgc_dsp := xgc_dsp g; xgc_gc := v; xgc_state := xgc_state g |}.
Definition with_xgc_state (v : Z) (g : xgc_t) : xgc_t :=
  {| xgc_dsp := xgc_dsp g; xgc_gc := xgc_gc g; xgc_state := v |}.

Definition load_xdisplay := load as_xdisplay.
Definition load_xscreen := load as_xscreen.
Definition load_xwindow := load as_xwindow.
Definition load_xgc := load as_xgc.
Definition store_xdisplay := store as_xdisplay B_xdisplay.
Definition store_xscreen := store as_xscreen B_xscreen.
Definition store_xwindow := store as_xwindow B_xwindow.
Definition store_xgc := store as_xgc B_xgc.

(** What [scm_gc_malloc (sizeof (...))] hands out before the fields are
    assigned. *)
Definition zeroed_xdisplay : block :=
  B_xdisplay {| xdisplay_dsp := 0; xdisplay_state := 0;
                xdisplay_gc := SCM_BOOL_F |}.
Definition zeroed_xscreen : block :=
  B_xscreen {| xscreen_dsp := SCM_BOOL_F; xscreen_scr := 0 |}.
Definition zeroed_xwindow : block :=
  B_xwindow {| xwindow_dsp := SCM_BOOL_F; xwindow_win := 0;
               xwindow_state := 0 |}.
Definition zeroed_xgc : block :=
  B_xgc {| xgc_dsp := SCM_BOOL_F; xgc_gc := 0; xgc_state := 0 |}.

(** [XDISPLAY (x)]: the smob data, cast to [xdisplay_t *]. *)
Definition XDISPLAY (x : SCM) : M ptr := SCM_SMOB_DATA x.

(** ** The state validators *)

Definition valid_dsp (arg : SCM) (pos : nat) (expected : Z) (func : string)
  : M SCM :=
  SCM_ASSERT (SCM_NIMP arg) arg pos func >>
  (* Allow obtention of a valid display value from other types that
     contain a display. *)
  let* t := SCM_TYP16 arg in
  let* arg1 :=
    (if decide (t = scm_tc16_xscreen) then
       let* p := SCM_SMOB_DATA arg in
       let* s := load_xscreen p in ret (xscreen_dsp s)
     else if decide (t = scm_tc16_xwindow) then
       let* p := SCM_SMOB_DATA arg in
       let* x := load_xwindow p in ret (xwindow_dsp x)
     else if decide (t = scm_tc16_xgc) then
       let* p := SCM_SMOB_DATA arg in
       let* g := load_xgc p in ret (xgc_dsp g)
     else ret arg) in
  let* t1 := SCM_TYP16 arg1 in
  if decide (t1 = scm_tc16_xdisplay) then
    let* dsp := XDISPLAY arg1 in
    let* d := load_xdisplay dsp in
    (* Check for valid display state. *)
    if Z.land (xdisplay_state d) expected =? 0 then
      (* Invalid - the message depends on what we were expecting. *)
      if expected =? XDISPLAY_STATE_OPEN then
        throw (misc_error func "Display ~S has been closed" [arg])
      else
        throw (misc_error func "Corrupt display state (~S)"
                 [SCM_INUM expected])
    else ret arg1
  else throw (wrong_type_arg func pos arg1).

Definition valid_win (arg : SCM) (pos : nat) (expected : Z) (func : string)
  : M ptr :=
  SCM_ASSERT (SCM_NIMP arg) arg pos func >>
  let* t := SCM_TYP16 arg in
  if decide (t = scm_tc16_xwindow) then
    let* win := SCM_SMOB_DATA arg in
    let* x := load_xwindow win in
    if Z.land (xwindow_state x) expected =? 0 then
      (* Invalid - the message depends on the actual window state. *)
      let s := xwindow_state x in
      if s =? XWINDOW_STATE_UNMAPPED then
        throw (misc_error func "Window ~S is already unmapped" [arg])
      else if s =? XWINDOW_STATE_MAPPED then
        throw (misc_error func "Window ~S is already mapped" [arg])
      else if s =? XWINDOW_STATE_DESTROYED then
        throw (misc_error func "Window ~S has been destroyed" [arg])
      else if s =? XWINDOW_STATE_THIRD_PARTY then
        throw (misc_error func "Window ~S belongs to a third party" [arg])
      else if s =? XWINDOW_STATE_PIXMAP then
        throw (misc_error func "Window ~S is a pixmap" [arg])
      else
        throw (misc_error func "Corrupt window state (~S)" [SCM_INUM s])
    else ret win
  else throw (wrong_type_arg func pos arg).

Definition valid_gc (arg : SCM) (pos : nat) (expected : Z) (func : string)
  : M ptr :=
  SCM_ASSERT (SCM_NIMP arg) arg pos func >>
  let* t := SCM_TYP16 arg in
  if decide (t = scm_tc16_xgc) then
    let* gc1 := SCM_SMOB_DATA arg in
    let* g := load_xgc gc1 in
    if Z.land (xgc_state g) expected =? 0 then
      (* Invalid - the message depends on the actual gc state. *)
      let s := xgc_state g in
      if s =? XGC_STATE_DEFAULT then
        throw (misc_error func "GC ~S is the default GC" [arg])
      else if s =? XGC_STATE_CREATED then
        throw (misc_error func "GC ~S is a created GC" [arg])
      else if s =? XGC_STATE_FREED then
        throw (misc_error func "GC ~S has been freed" [arg])
      else
        throw (misc_error func "Corrupt GC state (~S)" [SCM_INUM s])
    else ret gc1
  else throw (wrong_type_arg func pos arg).

(** ** What Xlib answers

    Xlib is a black box.  The answer of a call that creates something may
    depend on everything that was called before; the macros read the
    Display structure only. *)

Record xlib := {
  XOpenDisplay_ret : list xcall -> option string -> Z;
  XCreateWindow_ret : list xcall -> Z -> Z;
  XCreatePixmap_ret : list xcall -> Z -> Z;
  XCreateGC_ret : list xcall -> Z -> Z;
  XScreenNumberOfScreen_ret : Z -> Z;
  XScreenOfDisplay_ret : Z -> Z -> Z;
  ScreenCount : Z -> Z;
  DefaultScreen : Z -> Z;
  RootWindow : Z -> Z -> Z;
  DefaultGC : Z -> Z -> Z
}.

(** [None], the null XID of X.h. *)
Definition XID_None : Z := 0.

Section Primitives.

Variable X : xlib.

(** The drawing-data and GC-attribute encoders ([valid_data], the
    [gc_fields] handlers) are outside the lifecycle core: they are taken
    as they come, as any computation. *)
Variable valid_data : SCM -> nat -> Z -> string -> M (Z * Z).
Variable gc_changes : SCM -> string -> M Z.

(** A call into Xlib with an answer. *)
Definition xlib_ask {A} (c : xcall) (answer : list xcall -> A) : M A :=
  let* t := gets trace in
  xlib_call c >> ret (answer t).

(** *** Displays *)

Definition valid_scr (display screen : SCM) (pos : nat) (dsp : ptr)
    (func : string) : M Z :=
  let* t := SCM_TYP16 display in
  if decide (t = scm_tc16_xscreen) then
    let* p := SCM_SMOB_DATA display in
    let* s := load_xscreen p in
    xlib_ask (XScreenNumberOfScreen (xscreen_scr s))
      (fun _ => XScreenNumberOfScreen_ret X (xscreen_scr s))
  else if negb (SCM_UNBNDP screen) then
    (* SCM_ASSERT (scm_to_int (screen), screen, pos, func): the condition
       is the integer itself. *)
    let* n := scm_to_int screen in
    SCM_ASSERT (negb (n =? 0)) screen pos func >>
    let* scr := scm_to_int screen in
    let* d := load_xdisplay dsp in
    SCM_ASSERT_RANGE SCM_ARG2 screen
      ((0 <=? scr) && (scr <? ScreenCount X (xdisplay_dsp d))) func >>
    ret scr
  else
    let* d := load_xdisplay dsp in
    ret (DefaultScreen X (xdisplay_dsp d)).

Definition scm_to_utf8_stringn (x : SCM) : M string :=
  match x with
  | SCM_STRING s => ret s
  | _ => throw (wrong_type_arg "" 0 x)
  end.

Definition s_scm_x_open_display_x := "x-open-display!".

Definition scm_x_open_display_x (host : SCM) : M SCM :=
  let FUNC_NAME := s_scm_x_open_display_x in
  let* dsparg :=
    (if negb (SCM_UNBNDP host) then
       (* scm_string_p answers #t or #f, both non-zero words in C: the
          assertion on it never fires. *)
       SCM_ASSERT true host SCM_ARG1 FUNC_NAME >>
       let* s := scm_to_utf8_stringn host in ret (Some s)
     else ret None) in
  let* dsp := scm_gc_malloc zeroed_xdisplay in
  store_xdisplay dsp (with_xdisplay_state XDISPLAY_STATE_OPEN) >>
  store_xdisplay dsp (with_xdisplay_gc SCM_BOOL_F) >>
  let* h := xlib_ask (XOpenDisplay dsparg)
              (fun t => XOpenDisplay_ret X t dsparg) in
  store_xdisplay dsp (with_xdisplay_dsp h) >>
  let* d := load_xdisplay dsp in
  if xdisplay_dsp d =? 0 then
    scm_gc_free dsp >>
    throw (misc_error FUNC_NAME "Failed to open X display on ~S" [host])
  else SCM_NEWSMOB scm_tc16_xdisplay dsp.

Definition s_scm_x_close_display_x := "x-close-display!".

Definition scm_x_close_display_x (display : SCM) : M SCM :=
  let FUNC_NAME := s_scm_x_close_display_x in
  let* display1 := valid_dsp display SCM_ARG1 XDISPLAY_STATE_OPEN FUNC_NAME in
  let* dsp := XDISPLAY display1 in
  store_xdisplay dsp (with_xdisplay_state XDISPLAY_STATE_CLOSED) >>
  let* d := load_xdisplay dsp in
  xlib_call (XCloseDisplay (xdisplay_dsp d)) >>
  ret SCM_UNSPECIFIED.

(** Smob free hook for displays: close the display first. *)
Definition xdisplay_free (display : SCM) : M Z :=
  let* dsp := SCM_SMOB_DATA display in
  let* d := load_xdisplay dsp in
  (if xdisplay_state d =? XDISPLAY_STATE_OPEN then
     scm_x_close_display_x display >> ret tt
   else ret tt) >>
  ret 0.

(** Smob mark hook for displays: mark the default GC. *)
Definition xdisplay_mark (display : SCM) : M SCM :=
  let* dsp := SCM_SMOB_DATA display in
  let* d := load_xdisplay dsp in
  ret (xdisplay_gc d).

(** Smob mark hook for screens: need to mark the display as well. *)
Definition xscreen_mark (screen : SCM) : M SCM :=
  let* scr := SCM_SMOB_DATA screen in
  let* s := load_xscreen scr in
  ret (xscreen_dsp s).

Definition s_scm_x_display_of := "x-display-of".

Definition scm_x_display_of (whatever : SCM) : M SCM :=
  valid_dsp whatever SCM_ARG1 XDISPLAY_STATE_ANY s_scm_x_display_of.

Definition s_scm_x_screen_of_display := "x-screen-of-display".

Definition scm_x_screen_of_display (display screen : SCM) : M SCM :=
  let FUNC_NAME := s_scm_x_screen_of_display in
  let* display1 := valid_dsp display SCM_ARG1 XDISPLAY_STATE_OPEN FUNC_NAME in
  let* dsp := XDISPLAY display1 in
  let* scr := valid_scr display screen SCM_ARG2 dsp FUNC_NAME in
  let* scr1 := scm_gc_malloc zeroed_xscreen in
  let* d := load_xdisplay dsp in
  store_xscreen scr1
    (with_xscreen_scr (XScreenOfDisplay_ret X (xdisplay_dsp d) scr)) >>
  store_xscreen scr1 (with_xscreen_dsp display1) >>
  SCM_NEWSMOB scm_tc16_xscreen scr1.

(** *** Windows *)

Definition s_scm_x_create_window_x := "x-create-window!".

Definition scm_x_create_window_x (display : SCM) : M SCM :=
  let FUNC_NAME := s_scm_x_create_window_x in
  let* display1 := valid_dsp display SCM_ARG1 XDISPLAY_STATE_OPEN FUNC_NAME in
  let* dsp := XDISPLAY display1 in
  let* d := load_xdisplay dsp in
  let h := xdisplay_dsp d in
  let* screen := xlib_ask (XDefaultScreen h) (fun _ => DefaultScreen X h) in
  xlib_call (XWhitePixel h screen) >>
  (* Now create the window. *)
  let* win := scm_gc_malloc zeroed_xwindow in
  store_xwindow win (with_xwindow_state XWINDOW_STATE_UNMAPPED) >>
  store_xwindow win (with_xwindow_dsp display1) >>
  let* id := xlib_ask (XCreateWindow h (RootWindow X h (DefaultScreen X h)))
               (fun t => XCreateWindow_ret X t h) in
  store_xwindow win (with_xwindow_win id) >>
  let* x := load_xwindow win in
  if xwindow_win x =? 0 then
    scm_gc_free win >>
    throw (misc_error FUNC_NAME "Failed to create X window on ~S" [display])
  else
    (* Provide window manager hints. *)
    xlib_call (XSetNormalHints h (xwindow_win x)) >>
    xlib_call (XStoreName h (xwindow_win x) "Guile/X") >>
    let* window := SCM_NEWSMOB scm_tc16_xwindow win in
    (* Add this resource and smob to the resource ID hash. *)
    scm_hashq_set_x (int_of_XID (xwindow_win x)) window >>
    ret window.

Definition s_scm_x_map_window_x := "x-map-window!".

Definition scm_x_map_window_x (window : SCM) : M SCM :=
  let FUNC_NAME := s_scm_x_map_window_x in
  let* display1 := valid_dsp window SCM_ARG1 XDISPLAY_STATE_OPEN FUNC_NAME in
  let* dsp := XDISPLAY display1 in
  let* win := valid_win window SCM_ARG1 XWINDOW_STATE_UNMAPPED FUNC_NAME in
  store_xwindow win (with_xwindow_state XWINDOW_STATE_MAPPED) >>
  let* d := load_xdisplay dsp in
  let* x := load_xwindow win in
  xlib_call (XMapWindow (xdisplay_dsp d) (xwindow_win x)) >>
  ret SCM_UNSPECIFIED.

Definition s_scm_x_unmap_window_x := "x-unmap-window!".

Definition scm_x_unmap_window_x (window : SCM) : M SCM :=
  let FUNC_NAME := s_scm_x_unmap_window_x in
  let* display1 := valid_dsp window SCM_ARG1 XDISPLAY_STATE_OPEN FUNC_NAME in
  let* dsp := XDISPLAY display1 in
  let* win := valid_win window SCM_ARG1 XWINDOW_STATE_MAPPED FUNC_NAME in
  store_xwindow win (with_xwindow_state XWINDOW_STATE_UNMAPPED) >>
  let* d := load_xdisplay dsp in
  let* x := load_xwindow win in
  xlib_call (XUnmapWindow (xdisplay_dsp d) (xwindow_win x)) >>
  ret SCM_UNSPECIFIED.

Definition s_scm_x_destroy_window_x := "x-destroy-window!".

Definition scm_x_destroy_window_x (window : SCM) : M SCM :=
  let FUNC_NAME := s_scm_x_destroy_window_x in
  let* display1 := valid_dsp window SCM_ARG1 XDISPLAY_STATE_OPEN FUNC_NAME in
  let* dsp := XDISPLAY display1 in
  let* win := valid_win window SCM_ARG1
                (Z.lnot (Z.lor XWINDOW_STATE_DESTROYED
                           (Z.lor XWINDOW_STATE_THIRD_PARTY
                              XWINDOW_STATE_PIXMAP))) FUNC_NAME in
  store_xwindow win (with_xwindow_state XWINDOW_STATE_DESTROYED) >>
  let* d := load_xdisplay dsp in
  let* x := load_xwindow win in
  xlib_call (XDestroyWindow (xdisplay_dsp d) (xwindow_win x)) >>
  ret SCM_UNSPECIFIED.

Definition s_scm_x_clear_window_x := "x-clear-window!".

Definition scm_x_clear_window_x (window : SCM) : M SCM :=
  let FUNC_NAME := s_scm_x_clear_window_x in
  let* display1 := valid_dsp window SCM_ARG1 XDISPLAY_STATE_OPEN FUNC_NAME in
  let* dsp := XDISPLAY display1 in
  let* win := valid_win window SCM_ARG1
                (Z.lnot (Z.lor XWINDOW_STATE_DESTROYED XWINDOW_STATE_PIXMAP))
                FUNC_NAME in
  let* d := load_xdisplay dsp in
  let* x := load_xwindow win in
  xlib_call (XClearWindow (xdisplay_dsp d) (xwindow_win x)) >>
  ret SCM_UNSPECIFIED.

(** Smob free hook for windows: destroy the window first. *)
Definition xwindow_free (window : SCM) : M Z :=
  let* win := SCM_SMOB_DATA window in
  let* x := load_xwindow win in
  (* Only destroy this window if the display is still valid. *)
  let* t := SCM_TYP16 (xwindow_dsp x) in
  (if bool_decide (t = scm_tc16_xdisplay)
      && negb (xwindow_state x =? XWINDOW_STATE_DESTROYED)
      && negb (xwindow_state x =? XWINDOW_STATE_THIRD_PARTY)
   then scm_x_destroy_window_x window >> ret tt
   else ret tt) >>
  ret 0.

(** Smob mark hook for windows: need to mark the display as well. *)
Definition xwindow_mark (window : SCM) : M SCM :=
  let* win := SCM_SMOB_DATA window in
  let* x := load_xwindow win in
  ret (xwindow_dsp x).

(** *** Pixmaps

    As pixmaps and windows together form "drawables", the smob for a
    pixmap wraps an [xwindow_t]. *)

Definition s_scm_x_create_pixmap_x := "x-create-pixmap!".

Definition scm_x_create_pixmap_x (display screen width height depth : SCM)
  : M SCM :=
  let FUNC_NAME := s_scm_x_create_pixmap_x in
  let* display1 := valid_dsp display SCM_ARG1 XDISPLAY_STATE_OPEN FUNC_NAME in
  let* dsp := XDISPLAY display1 in
  let* scr := valid_scr display screen SCM_ARG2 dsp FUNC_NAME in
  let* width1 := scm_to_int width in
  let* height1 := scm_to_int height in
  let* depth1 := scm_to_int depth in
  (* Allocate space for SMOB data. *)
  let* pix := scm_gc_malloc zeroed_xwindow in
  store_xwindow pix (with_xwindow_state XWINDOW_STATE_PIXMAP) >>
  store_xwindow pix (with_xwindow_dsp display1) >>
  let* d := load_xdisplay dsp in
  let h := xdisplay_dsp d in
  let* id := xlib_ask
               (XCreatePixmap h (RootWindow X h scr) width1 height1 depth1)
               (fun t => XCreatePixmap_ret X t h) in
  store_xwindow pix (with_xwindow_win id) >>
  let* x := load_xwindow pix in
  if xwindow_win x =? 0 then
    scm_gc_free pix >>
    throw (misc_error FUNC_NAME "Failed to create X pixmap on ~S" [display])
  else
    let* pixmap := SCM_NEWSMOB scm_tc16_xwindow pix in
    (* Add this resource and smob to the resource ID hash. *)
    scm_hashq_set_x (int_of_XID (xwindow_win x)) pixmap >>
    ret pixmap.

Definition s_scm_x_copy_area_x := "x-copy-area!".

Definition scm_x_copy_area_x
    (source destination gc src_x src_y width height dst_x dst_y : SCM)
  : M SCM :=
  let FUNC_NAME := s_scm_x_copy_area_x in
  let drawable := Z.lor XWINDOW_STATE_MAPPED
                    (Z.lor XWINDOW_STATE_PIXMAP XWINDOW_STATE_THIRD_PARTY) in
  let* src := valid_win source SCM_ARG1 drawable FUNC_NAME in
  let* dst := valid_win destination SCM_ARG2 drawable FUNC_NAME in
  let* gc1 := valid_gc gc SCM_ARG3
                (Z.lor XGC_STATE_CREATED XGC_STATE_DEFAULT) FUNC_NAME in
  let* src_x1 := scm_to_int src_x in
  let* src_y1 := scm_to_int src_y in
  let* width1 := scm_to_uint width in
  let* height1 := scm_to_uint height in
  let* dst_x1 := scm_to_int dst_x in
  let* dst_y1 := scm_to_int dst_y in
  (* XDISPLAY (src->dsp)->dsp *)
  let* s := load_xwindow src in
  let* dsp := XDISPLAY (xwindow_dsp s) in
  let* d := load_xdisplay dsp in
  let* t := load_xwindow dst in
  let* g := load_xgc gc1 in
  xlib_call (XCopyArea (xdisplay_dsp d) (xwindow_win s) (xwindow_win t)
               (xgc_gc g) src_x1 src_y1 width1 height1 dst_x1 dst_y1) >>
  ret SCM_UNSPECIFIED.

(** *** GCs *)

Definition s_scm_x_default_gc := "x-default-gc".

Definition scm_x_default_gc (display screen : SCM) : M SCM :=
  let FUNC_NAME := s_scm_x_default_gc in
  let* display1 := valid_dsp display SCM_ARG1 XDISPLAY_STATE_OPEN FUNC_NAME in
  let* dsp := XDISPLAY display1 in
  let* scr := valid_scr display screen SCM_ARG2 dsp FUNC_NAME in
  let* d := load_xdisplay dsp in
  (if decide (xdisplay_gc d = SCM_BOOL_F) then
     (* Create and cache default GC smob. *)
     let* gc1 := scm_gc_malloc zeroed_xgc in
     store_xgc gc1 (with_xgc_gc (DefaultGC X (xdisplay_dsp d) scr)) >>
     store_xgc gc1 (with_xgc_dsp display1) >>
     store_xgc gc1 (with_xgc_state XGC_STATE_DEFAULT) >>
     let* smob := SCM_NEWSMOB scm_tc16_xgc gc1 in
     store_xdisplay dsp (with_xdisplay_gc smob)
   else ret tt) >>
  let* d' := load_xdisplay dsp in
  ret (xdisplay_gc d').

Definition s_scm_x_free_gc_x := "x-free-gc!".

Definition scm_x_free_gc_x (gc : SCM) : M SCM :=
  let FUNC_NAME := s_scm_x_free_gc_x in
  let* display1 := valid_dsp gc SCM_ARG1 XDISPLAY_STATE_OPEN FUNC_NAME in
  let* dsp := XDISPLAY display1 in
  let* gc1 := valid_gc gc SCM_ARG1 XGC_STATE_CREATED FUNC_NAME in
  let* d := load_xdisplay dsp in
  let* g := load_xgc gc1 in
  xlib_call (XFreeGC (xdisplay_dsp d) (xgc_gc g)) >>
  store_xgc gc1 (with_xgc_state XGC_STATE_FREED) >>
  ret SCM_UNSPECIFIED.

Definition s_scm_x_create_gc_x := "x-create-gc!".

Definition scm_x_create_gc_x (drawable changes : SCM) : M SCM :=
  let FUNC_NAME := s_scm_x_create_gc_x in
  let* display1 := valid_dsp drawable SCM_ARG1 XDISPLAY_STATE_OPEN FUNC_NAME in
  let* dsp := XDISPLAY display1 in
  let* win := valid_win drawable SCM_ARG1 (Z.lnot XWINDOW_STATE_DESTROYED)
                FUNC_NAME in
  let* mask := gc_changes changes FUNC_NAME in
  let* gc1 := scm_gc_malloc zeroed_xgc in
  let* d := load_xdisplay dsp in
  let* x := load_xwindow win in
  let* g := xlib_ask (XCreateGC (xdisplay_dsp d) (xwindow_win x) mask)
              (fun t => XCreateGC_ret X t (xdisplay_dsp d)) in
  store_xgc gc1 (with_xgc_gc g) >>
  store_xgc gc1 (with_xgc_dsp display1) >>
  store_xgc gc1 (with_xgc_state XGC_STATE_CREATED) >>
  SCM_NEWSMOB scm_tc16_xgc gc1.

(** Smob free hook for gcs: free the gc first. *)
Definition xgc_free (gc : SCM) : M Z :=
  let* gc1 := SCM_SMOB_DATA gc in
  let* g := load_xgc gc1 in
  (* Only free this gc if the display is still valid. *)
  let* t := SCM_TYP16 (xgc_dsp g) in
  (if bool_decide (t = scm_tc16_xdisplay)
      && (xgc_state g =? XGC_STATE_CREATED)
   then scm_x_free_gc_x gc >> ret tt
   else ret tt) >>
  ret 0.

(** Smob mark hook for gcs: need to mark the display as well. *)
Definition xgc_mark (gc : SCM) : M SCM :=
  let* gc1 := SCM_SMOB_DATA gc in
  let* g := load_xgc gc1 in
  ret (xgc_dsp g).

(** *** Drawing *)

Definition XDATA_ARCS : Z := 0.
Definition XDATA_LINES : Z := 1.
Definition XDATA_POINTS : Z := 2.
Definition XDATA_SEGMENTS : Z := 3.
Definition XDATA_RECTANGLES : Z := 4.

(** The copy of the data that [valid_data] may have made is no smob
    structure; its release at the end of [draw] is left out. *)
Definition draw (window gc data : SCM) (type : Z) (func : string) : M SCM :=
  let* display1 := valid_dsp window SCM_ARG1 XDISPLAY_STATE_OPEN func in
  let* dsp := XDISPLAY display1 in
  let* win := valid_win window SCM_ARG1 (Z.lnot XWINDOW_STATE_DESTROYED)
                func in
  let* gc1 := valid_gc gc SCM_ARG2 (Z.lnot XGC_STATE_FREED) func in
  let* dat := valid_data data SCM_ARG3 type func in
  let num_data := snd dat in
  let* d := load_xdisplay dsp in
  let* x := load_xwindow win in
  let* g := load_xgc gc1 in
  let h := xdisplay_dsp d in
  (if type =? XDATA_ARCS then
     xlib_call (XDrawArcs h (xwindow_win x) (xgc_gc g) num_data)
   else if type =? XDATA_LINES then
     xlib_call (XDrawLines h (xwindow_win x) (xgc_gc g) num_data)
   else if type =? XDATA_POINTS then
     xlib_call (XDrawPoints h (xwindow_win x) (xgc_gc g) num_data)
   else if type =? XDATA_SEGMENTS then
     xlib_call (XDrawSegments h (xwindow_win x) (xgc_gc g) num_data)
   else if type =? XDATA_RECTANGLES then
     xlib_call (XDrawRectangles h (xwindow_win x) (xgc_gc g) num_data)
   else
     throw (misc_error func "Internal X data type error (~S)"
              [SCM_INUM type])) >>
  ret SCM_UNSPECIFIED.

Definition scm_x_draw_arcs_x (window gc arcs : SCM) : M SCM :=
  draw window gc arcs XDATA_ARCS "x-draw-arcs!".
Definition scm_x_draw_lines_x (window gc points : SCM) : M SCM :=
  draw window gc points XDATA_LINES "x-draw-lines!".
Definition scm_x_draw_points_x (window gc points : SCM) : M SCM :=
  draw window gc points XDATA_POINTS "x-draw-points!".
Definition scm_x_draw_segments_x (window gc segments : SCM) : M SCM :=
  draw window gc segments XDATA_SEGMENTS "x-draw-segments!".
Definition scm_x_draw_rectangles_x (window gc rectangles : SCM) : M SCM :=
  draw window gc rectangles XDATA_RECTANGLES "x-draw-rectangles!".

(** *** The resource-id table *)

Definition lookup_window (display : SCM) (id : Z) (func : string) : M SCM :=
  if id =? XID_None then ret SCM_BOOL_F
  else
    let* window := scm_hashq_ref (int_of_XID id) SCM_BOOL_F in
    let* t := SCM_TYP16 window in
    (* If no existing entry, or if an old entry has been garbage
       collected... *)
    if bool_decide (window = SCM_BOOL_F)
       || negb (bool_decide (t = scm_tc16_xwindow))
    then
      let* win := scm_gc_malloc zeroed_xwindow in
      store_xwindow win (with_xwindow_state XWINDOW_STATE_THIRD_PARTY) >>
      store_xwindow win (with_xwindow_dsp display) >>
      store_xwindow win (with_xwindow_win id) >>
      let* window' := SCM_NEWSMOB scm_tc16_xwindow win in
      scm_hashq_set_x (int_of_XID id) window' >>
      ret window'
    else ret window.

Definition s_scm_x_root_window := "x-root-window".

Definition scm_x_root_window (display screen : SCM) : M SCM :=
  let FUNC_NAME := s_scm_x_root_window in
  let* display1 := valid_dsp display SCM_ARG1 XDISPLAY_STATE_OPEN FUNC_NAME in
  let* dsp := XDISPLAY display1 in
  let* scr := valid_scr display screen SCM_ARG2 dsp FUNC_NAME in
  let* d := load_xdisplay dsp in
  lookup_window display (RootWindow X (xdisplay_dsp d) scr) FUNC_NAME.

(** *** The collector

    The sweep, as the note on garbage collection at the head of the file
    has it: every unreachable cell gets the free hook of its smob type,
    then its tag becomes [scm_tc_free_cell].  Screens have no free hook.
    An error raised inside a hook is dropped and the sweep goes on, so
    that whatever a sweep can call is in the trace. *)

Definition smob_free (x : SCM) : M unit :=
  let* t := SCM_TYP16 x in
  match t with
  | scm_tc16_xdisplay => xdisplay_free x >> ret tt
  | scm_tc16_xwindow => xwindow_free x >> ret tt
  | scm_tc16_xgc => xgc_free x >> ret tt
  | _ => ret tt
  end.

Definition free_cell (a : addr) (w : world) : world :=
  set_cells (alter (fun c => {| cell_typ16 := scm_tc_free_cell;
                                cell_data := cell_data c |}) a) w.

Definition sweep_cell (w : world) (a : addr) : world :=
  free_cell a (snd (smob_free (SCM_CELL a) w)).

Definition gc_sweep (garbage : list addr) (w : world) : world :=
  foldl sweep_cell w garbage.

(** The mark hook of a smob, by its type. *)
Definition smob_mark (x : SCM) : M SCM :=
  let* t := SCM_TYP16 x in
  match t with
  | scm_tc16_xdisplay => xdisplay_mark x
  | scm_tc16_xscreen => xscreen_mark x
  | scm_tc16_xwindow => xwindow_mark x
  | scm_tc16_xgc => xgc_mark x
  | _ => ret SCM_BOOL_F
  end.

End Primitives.

Definition init_world : world :=
  {| cells := ∅; blocks := ∅; resource_id_hash := ∅; trace := [] |}.

(** * Specification vocabulary *)

(** What a smob pointer points at: the tag of its cell, its data word, and
    the structure behind it. *)
Definition is_xdisplay (w : world) (x : SCM) (p : ptr) (d : xdisplay_t)
  : Prop :=
  typ16_of w x = scm_tc16_xdisplay /\ smob_data_of w x = Some p /\
  blocks w !! p = Some (B_xdisplay d).

Definition is_xwindow (w : world) (x : SCM) (p : ptr) (xw : xwindow_t)
  : Prop :=
  typ16_of w x = scm_tc16_xwindow /\ smob_data_of w x = Some p /\
  blocks w !! p = Some (B_xwindow xw).

Definition is_xgc (w : world) (x : SCM) (p : ptr) (g : xgc_t) : Prop :=
  typ16_of w x = scm_tc16_xgc /\ smob_data_of w x = Some p /\
  blocks w !! p = Some (B_xgc g).

Definition is_xscreen (w : world) (x : SCM) (p : ptr) (s : xscreen_t)
  : Prop :=
  typ16_of w x = scm_tc16_xscreen /\ smob_data_of w x = Some p /\
  blocks w !! p = Some (B_xscreen s).

(** The message of a failed display check, by the mask that was asked. *)
Definition dsp_state_error (func : string) (arg : SCM) (expected : Z)
  : scm_error :=
  if expected =? XDISPLAY_STATE_OPEN
  then misc_error func "Display ~S has been closed" [arg]
  else misc_error func "Corrupt display state (~S)" [SCM_INUM expected].

(** The message of a failed window check, by the state the window is in. *)
Definition win_state_error (func : string) (arg : SCM) (s : Z) : scm_error :=
  if s =? XWINDOW_STATE_UNMAPPED then
    misc_error func "Window ~S is already unmapped" [arg]
  else if s =? XWINDOW_STATE_MAPPED then
    misc_error func "Window ~S is already mapped" [arg]
  else if s =? XWINDOW_STATE_DESTROYED then
    misc_error func "Window ~S has been destroyed" [arg]
  else if s =? XWINDOW_STATE_THIRD_PARTY then
    misc_error func "Window ~S belongs to a third party" [arg]
  else if s =? XWINDOW_STATE_PIXMAP then
    misc_error func "Window ~S is a pixmap" [arg]
  else misc_error func "Corrupt window state (~S)" [SCM_INUM s].

(** The message of a failed GC check, by the state the GC is in. *)
Definition gc_state_error (func : string) (arg : SCM) (s : Z) : scm_error :=
  if s =? XGC_STATE_DEFAULT then
    misc_error func "GC ~S is the default GC" [arg]
  else if s =? XGC_STATE_CREATED then
    misc_error func "GC ~S is a created GC" [arg]
  else if s =? XGC_STATE_FREED then
    misc_error func "GC ~S has been freed" [arg]
  else misc_error func "Corrupt GC state (~S)" [SCM_INUM s].

(** The calls a computation adds to the trace. *)
Definition calls_of {A} (c : M A) (w : world) : list xcall :=
  drop (length (trace w)) (trace (snd (c w))).

(** The third-party window structure [lookup_window] makes up. *)
Definition third_party (display : SCM) (id : Z) : xwindow_t :=
  {| xwindow_dsp := display; xwindow_win := id;
     xwindow_state := XWINDOW_STATE_THIRD_PARTY |}.

Definition xwindow_states : list Z :=
  [XWINDOW_STATE_UNMAPPED; XWINDOW_STATE_MAPPED; XWINDOW_STATE_DESTROYED;
   XWINDOW_STATE_THIRD_PARTY; XWINDOW_STATE_PIXMAP].

Definition xgc_states : list Z :=
  [XGC_STATE_DEFAULT; XGC_STATE_CREATED; XGC_STATE_FREED].

(** [w1] is [w] but for the state field of the window structure at [p],
    which holds [s]. *)
Definition window_state_set (w w1 : world) (p : ptr) (s : Z) : Prop :=
  cells w1 = cells w /\
  resource_id_hash w1 = resource_id_hash w /\
  (forall q, q <> p -> blocks w1 !! q = blocks w !! q) /\
  exists x x1,
    blocks w !! p = Some (B_xwindow x) /\
    blocks w1 !! p = Some (B_xwindow x1) /\
    xwindow_dsp x1 = xwindow_dsp x /\
    xwindow_win x1 = xwindow_win x /\
    xwindow_state x1 = s.

(** The screen arguments [valid_scr] lets through on a display with
    handle [h], and the screen number it makes of them. *)
Definition screen_accepted (X : xlib) (h : Z) (screen : SCM) (scr : Z)
  : Prop :=
  screen = SCM_UNDEFINED /\ scr = DefaultScreen X h \/
  screen = SCM_INUM scr /\ scr <> 0 /\ 0 <= scr < ScreenCount X h /\
  scr <= INT_MAX.

(** The default-GC structure x-default-gc makes for screen [scr]. *)
Definition default_xgc (X : xlib) (display : SCM) (h scr : Z) : xgc_t :=
  {| xgc_dsp := display; xgc_gc := DefaultGC X h scr;
     xgc_state := XGC_STATE_DEFAULT |}.

(** The world after x-default-gc has made and cached the default GC of
    the display structure [d] at [p], for screen [scr]. *)
Definition with_default_gc (X : xlib) (w : world) (display : SCM) (p : ptr)
    (d : xdisplay_t) (scr : Z) : world :=
  {| cells :=
       <[fresh (dom (cells w)) :=
           {| cell_typ16 := scm_tc16_xgc;
              cell_data := fresh (dom (blocks w)) |}]> (cells w);
     blocks :=
       <[p := B_xdisplay
                (with_xdisplay_gc (SCM_CELL (fresh (dom (cells w)))) d)]>
         (<[fresh (dom (blocks w)) :=
              B_xgc (default_xgc X display (xdisplay_dsp d) scr)]>
            (blocks w));
     resource_id_hash := resource_id_hash w;
     trace := trace w |}.

(** ** Releases and closes in a trace *)

(** A display structure that passes the Open check, with its handle. *)
Definition open_display_block (w : world) (p : ptr) (h : Z) : Prop :=
  exists d,
    blocks w !! p = Some (B_xdisplay d) /\
    Z.land (xdisplay_state d) XDISPLAY_STATE_OPEN <> 0 /\
    xdisplay_dsp d = h.

(** Xlib hands out one handle per open display: no two open display
    structures hold the same one. *)
Definition handles_distinct (w : world) : Prop :=
  forall p1 p2 h,
    open_display_block w p1 h -> open_display_block w p2 h -> p1 = p2.

(** A call that releases a resource of the display [h]. *)
Definition is_release (h : Z) (c : xcall) : Prop :=
  exists id, c = XDestroyWindow h id \/ c = XFreeGC h id.

(** Some release on a display comes after the XCloseDisplay of that
    display. *)
Definition release_after_close (ev : list xcall) : Prop :=
  exists (i j : nat) h c,
    (i < j)%nat /\ ev !! i = Some (XCloseDisplay h) /\
    ev !! j = Some c /\ is_release h c.

(** What running one free hook can do to the world. *)
Inductive hook_step (w : world) : world -> Prop :=
| hook_nothing : hook_step w w
| hook_close p d :
    blocks w !! p = Some (B_xdisplay d) ->
    xdisplay_state d = XDISPLAY_STATE_OPEN ->
    hook_step w
      (set_trace (fun t => t ++ [XCloseDisplay (xdisplay_dsp d)])
         (set_blocks
            <[p := B_xdisplay
                     (with_xdisplay_state XDISPLAY_STATE_CLOSED d)]> w))
| hook_destroy pd d pw x :
    blocks w !! pd = Some (B_xdisplay d) ->
    Z.land (xdisplay_state d) XDISPLAY_STATE_OPEN <> 0 ->
    blocks w !! pw = Some (B_xwindow x) ->
    hook_step w
      (set_trace
         (fun t => t ++ [XDestroyWindow (xdisplay_dsp d) (xwindow_win x)])
         (set_blocks
            <[pw := B_xwindow
                      (with_xwindow_state XWINDOW_STATE_DESTROYED x)]> w))
| hook_free_gc pd d pg g :
    blocks w !! pd = Some (B_xdisplay d) ->
    Z.land (xdisplay_state d) XDISPLAY_STATE_OPEN <> 0 ->
    blocks w !! pg = Some (B_xgc g) ->
    hook_step w
      (set_blocks <[pg := B_xgc (with_xgc_state XGC_STATE_FREED g)]>
         (set_trace
            (fun t => t ++ [XFreeGC (xdisplay_dsp d) (xgc_gc g)]) w)).

(** The invariant of a sweep that started with the trace [t0] and has
    called [ev] since: handles are distinct, a display closed in this
    sweep has no open structure left, and no release came after its
    close. *)
Definition sweep_inv (t0 : list xcall) (w : world) (ev : list xcall)
  : Prop :=
  trace w = t0 ++ ev /\
  handles_distinct w /\
  (forall h, XCloseDisplay h ∈ ev -> forall p, ~ open_display_block w p h) /\
  ~ release_after_close ev.

(** ** A session to try things on *)

Definition demo_xlib : xlib :=
  {| XOpenDisplay_ret := fun t _ => 1000 + Z.of_nat (length t);
     XCreateWindow_ret := fun t _ => 40 + Z.of_nat (length t);
     XCreatePixmap_ret := fun t _ => 70 + Z.of_nat (length t);
     XCreateGC_ret := fun t _ => 600 + Z.of_nat (length t);
     XScreenNumberOfScreen_ret := fun s => s - 9000;
     XScreenOfDisplay_ret := fun _ s => 9000 + s;
     ScreenCount := fun _ => 2;
     DefaultScreen := fun _ => 0;
     RootWindow := fun _ s => 1 + s;
     DefaultGC := fun _ s => 500 + s |}.

Definition demo_valid_data : SCM -> nat -> Z -> string -> M (Z * Z) :=
  fun _ _ _ _ => ret (0, 3).

Definition demo_gc_changes : SCM -> string -> M Z := fun _ _ => ret 0.

(** Open a display; create a window, a pixmap and a GC on it. *)
Definition demo_session : M unit :=
  let* d := scm_x_open_display_x demo_xlib SCM_UNDEFINED in
  let* win := scm_x_create_window_x demo_xlib d in
  let* pix := scm_x_create_pixmap_x demo_xlib d SCM_UNDEFINED
                (SCM_INUM 16) (SCM_INUM 16) (SCM_INUM 1) in
  let* gc := scm_x_create_gc_x demo_xlib demo_gc_changes win SCM_BOOL_F in
  ret tt.

Definition demo_world : world := snd (demo_session init_world).
Definition demo_display : SCM := SCM_CELL 1%positive.
Definition demo_window : SCM := SCM_CELL 2%positive.
Definition demo_pixmap : SCM := SCM_CELL 3%positive.
Definition demo_gc : SCM := SCM_CELL 4%positive.

Definition demo_xdisplay : xdisplay_t :=
  {| xdisplay_dsp := 1000; xdisplay_state := XDISPLAY_STATE_OPEN;
     xdisplay_gc := SCM_BOOL_F |}.
Definition demo_xwindow : xwindow_t :=
  {| xwindow_dsp := demo_display; xwindow_win := 43;
     xwindow_state := XWINDOW_STATE_UNMAPPED |}.
Definition demo_xpixmap : xwindow_t :=
  {| xwindow_dsp := demo_display; xwindow_win := 76;
     xwindow_state := XWINDOW_STATE_PIXMAP |}.
Definition demo_xgc : xgc_t :=
  {| xgc_dsp := demo_display; xgc_gc := 607;
     xgc_state := XGC_STATE_CREATED |}.

(** The same session with the window mapped. *)
Definition demo_world_mapped : world :=
  snd (scm_x_map_window_x demo_window demo_world).

(** An Xlib that cannot open a display. *)
Definition failing_xlib : xlib :=
  {| XOpenDisplay_ret := fun _ _ => 0;
     XCreateWindow_ret := XCreateWindow_ret demo_xlib;
     XCreatePixmap_ret := XCreatePixmap_ret demo_xlib;
     XCreateGC_ret := XCreateGC_ret demo_xlib;
     XScreenNumberOfScreen_ret := XScreenNumberOfScreen_ret demo_xlib;
     XScreenOfDisplay_ret := XScreenOfDisplay_ret demo_xlib;
     ScreenCount := ScreenCount demo_xlib;
     DefaultScreen := DefaultScreen demo_xlib;
     RootWindow := RootWindow demo_xlib;
     DefaultGC := DefaultGC demo_xlib |}.

(** The same session with the display closed. *)
Definition demo_world_closed : world :=
  snd (scm_x_close_display_x demo_display demo_world).

(** The same session with the window mapped and the display then closed
    by x-close-display!. *)
Definition demo_world_mapped_closed : world :=
  snd (scm_x_close_display_x demo_display demo_world_mapped).

(** The demo session, all of it garbage: display, window, pixmap, GC. *)
Definition demo_garbage : list addr :=
  [1%positive; 2%positive; 3%positive; 4%positive].

(** ** Screens, continued *)

Definition scm_from_int (n : Z) : SCM := SCM_INUM n.

Section Screens.

Variable X : xlib.

Definition s_scm_x_screen_number_of_screen := "x-screen-number-of-screen".

Definition scm_x_screen_number_of_screen (screen : SCM) : M SCM :=
  let FUNC_NAME := s_scm_x_screen_number_of_screen in
  (* Check that the associated display is still open. *)
  let* display1 := valid_dsp screen SCM_ARG1 XDISPLAY_STATE_OPEN FUNC_NAME in
  let* dsp := XDISPLAY display1 in
  let* scr := valid_scr X screen screen SCM_ARG1 dsp FUNC_NAME in
  ret (scm_from_int scr).

End Screens.

(** ** The primitives, as Scheme calls them *)


Section Apply.

Variable X : xlib.
Variable valid_data : SCM -> nat -> Z -> string -> M (Z * Z).
Variable gc_changes : SCM -> string -> M Z.


End Apply.


(** ** The heap the primitives keep *)

(** The structure a smob of each type points at. *)
Definition block_of_type (t : tc16) (b : option block) : Prop :=
  match t with
  | scm_tc16_xdisplay => exists d, b = Some (B_xdisplay d)
  | scm_tc16_xscreen => exists s, b = Some (B_xscreen s)
  | scm_tc16_xwindow => exists x, b = Some (B_xwindow x)
  | scm_tc16_xgc => exists g, b = Some (B_xgc g)
  | _ => True
  end.

Definition heap_typed (w : world) : Prop :=
  forall a c,
    cells w !! a = Some c ->
    block_of_type (cell_typ16 c) (blocks w !! cell_data c).

(** State fields hold one of the state constants. *)
Definition legal_block (b : block) : Prop :=
  match b with
  | B_xdisplay d =>
      xdisplay_state d = XDISPLAY_STATE_OPEN \/
      xdisplay_state d = XDISPLAY_STATE_CLOSED
  | B_xscreen _ => True
  | B_xwindow x => xwindow_state x ∈ xwindow_states
  | B_xgc g => xgc_state g ∈ xgc_states
  end.

Definition legal_states (w : world) : Prop :=
  forall p b, blocks w !! p = Some b -> legal_block b.

Definition wf_heap (w : world) : Prop := heap_typed w /\ legal_states w.

(** The display a call into Xlib works on. *)
Definition call_display (c : xcall) : option Z :=
  match c with
  | XOpenDisplay _ => None
  | XScreenNumberOfScreen _ => None
  | XCloseDisplay d => Some d
  | XDefaultScreen d => Some d
  | XWhitePixel d _ => Some d
  | XCreateWindow d _ => Some d
  | XSetNormalHints d _ => Some d
  | XStoreName d _ _ => Some d
  | XMapWindow d _ => Some d
  | XUnmapWindow d _ => Some d
  | XDestroyWindow d _ => Some d
  | XClearWindow d _ => Some d
  | XCreatePixmap d _ _ _ _ => Some d
  | XFreePixmap d _ => Some d
  | XCopyArea d _ _ _ _ _ _ _ _ _ => Some d
  | XCreateGC d _ _ => Some d
  | XFreeGC d _ => Some d
  | XDrawArcs d _ _ _ => Some d
  | XDrawLines d _ _ _ => Some d
  | XDrawPoints d _ _ _ => Some d
  | XDrawSegments d _ _ _ => Some d
  | XDrawRectangles d _ _ _ => Some d
  end.

(** Every call of [ev] that works on a display works on the handle of a
    display structure that is Open in [w]. *)
Definition calls_on_open (w : world) (ev : list xcall) : Prop :=
  forall c h,
    c ∈ ev -> call_display c = Some h -> exists p, open_display_block w p h.

(** The errors that tell of a broken heap: a structure read through the
    wrong cast, a state field that holds no state, a drawing type that is
    none. *)
Definition internal_error (e : scm_error) : Prop :=
  match e with
  | undefined_behaviour => True
  | misc_error _ m _ =>
      m ∈ ["Corrupt display state (~S)"; "Corrupt window state (~S)";
           "Corrupt GC state (~S)"; "Internal X data type error (~S)"]
  | _ => False
  end.

(** What [valid_data] and the GC-attribute encoder are taken to be: they
    read their argument and leave heap, table and trace alone, and they
    raise no internal error. *)
Definition reads_only {A} (c : M A) : Prop :=
  forall w, snd (c w) = w /\ forall e, fst (c w) = Throw e -> ~ internal_error e.

(** What a primitive, run in [w], has to come out with: the heap in
    order, nothing called but on displays that were open in [w], and no
    internal error. *)
Definition sound {A} (w : world) (o : result A * world) : Prop :=
  wf_heap (snd o) /\
  (exists ev, trace (snd o) = trace w ++ ev /\ calls_on_open w ev) /\
  (forall e, fst o = Throw e -> ~ internal_error e).




(** The calls a free hook can make. *)
Definition is_hook_call (c : xcall) : Prop :=
  match c with
  | XCloseDisplay _ | XDestroyWindow _ _ | XFreeGC _ _ => True
  | _ => False
  end.

(** No display is closed twice in [ev]. *)
Definition closes_once (ev : list xcall) : Prop :=
  forall h (i j : nat),
    ev !! i = Some (XCloseDisplay h) -> ev !! j = Some (XCloseDisplay h) ->
    i = j.

(** The invariant of a sweep that started in [w0] and has called [ev]
    since, as to what it calls: hook calls only, each on a display that
    was open in [w0]; and a display open now was open in [w0]. *)
Definition sweep_calls (w0 w : world) (ev : list xcall) : Prop :=
  trace w = trace w0 ++ ev /\
  calls_on_open w0 ev /\
  Forall is_hook_call ev /\
  (forall q h, open_display_block w q h -> open_display_block w0 q h).

#[global] Instance block_of_type_dec t b : Decision (block_of_type t b).
Proof.
  destruct t; simpl; try (left; exact I);
    destruct b as [[d|s|x|g]|];
    first [ left; by eexists | right; intros [? ?]; discriminate ].
Defined.

#[global] Instance legal_block_dec b : Decision (legal_block b).
Proof. destruct b; simpl; apply _. Defined.

(** ** More of the session *)

(** An Xlib that creates neither windows nor pixmaps. *)
Definition barren_xlib : xlib :=
  {| XOpenDisplay_ret := XOpenDisplay_ret demo_xlib;
     XCreateWindow_ret := fun _ _ => 0;
     XCreatePixmap_ret := fun _ _ => 0;
     XCreateGC_ret := XCreateGC_ret demo_xlib;
     XScreenNumberOfScreen_ret := XScreenNumberOfScreen_ret demo_xlib;
     XScreenOfDisplay_ret := XScreenOfDisplay_ret demo_xlib;
     ScreenCount := ScreenCount demo_xlib;
     DefaultScreen := DefaultScreen demo_xlib;
     RootWindow := RootWindow demo_xlib;
     DefaultGC := DefaultGC demo_xlib |}.

(** The session with a screen smob for the default screen. *)
Definition demo_world_screen : world :=
  snd (scm_x_screen_of_display demo_xlib demo_display SCM_UNDEFINED
         demo_world).
Definition demo_screen : SCM := SCM_CELL 5%positive.
Definition demo_xscreen : xscreen_t :=
  {| xscreen_dsp := demo_display; xscreen_scr := 9000 |}.

(** The window of the session, once mapped. *)
Definition demo_xwindow_mapped : xwindow_t :=
  with_xwindow_state XWINDOW_STATE_MAPPED demo_xwindow.

(** ** Events

    An X event is presented as a vector; event data with the same
    conceptual information has the same slot index for all event types
    to which it is relevant. *)

(* XAnyEvent *)
Definition XEVENT_SLOT_TYPE : nat := 0.
Definition XEVENT_SLOT_SERIAL : nat := 1.
Definition XEVENT_SLOT_SEND_EVENT : nat := 2.
Definition XEVENT_SLOT_DISPLAY : nat := 3.

(* XKeyEvent *)
Definition XEVENT_SLOT_WINDOW : nat := 4.
Definition XEVENT_SLOT_ROOT : nat := 5.
Definition XEVENT_SLOT_SUBWINDOW : nat := 6.
Definition XEVENT_SLOT_TIME : nat := 7.
Definition XEVENT_SLOT_X : nat := 8.
Definition XEVENT_SLOT_Y : nat := 9.
Definition XEVENT_SLOT_X_ROOT : nat := 10.
Definition XEVENT_SLOT_Y_ROOT : nat := 11.
Definition XEVENT_SLOT_STATE : nat := 12.
Definition XEVENT_SLOT_KEYCODE : nat := 13.
Definition XEVENT_SLOT_SAME_SCREEN : nat := 14.

(* XButtonEvent *)
Definition XEVENT_SLOT_BUTTON : nat := XEVENT_SLOT_KEYCODE.

(* XMotionEvent *)
Definition XEVENT_SLOT_IS_HINT : nat := XEVENT_SLOT_KEYCODE.

(* XCrossingEvent *)
Definition XEVENT_SLOT_MODE : nat := XEVENT_SLOT_KEYCODE.
Definition XEVENT_SLOT_DETAIL : nat := 15.
Definition XEVENT_SLOT_FOCUS : nat := 16.

(* XKeymapEvent *)
Definition XEVENT_SLOT_KEY_VECTOR : nat := XEVENT_SLOT_KEYCODE.

(* XExposeEvent *)
Definition XEVENT_SLOT_WIDTH : nat := XEVENT_SLOT_X_ROOT.
Definition XEVENT_SLOT_HEIGHT : nat := XEVENT_SLOT_Y_ROOT.
Definition XEVENT_SLOT_COUNT : nat := XEVENT_SLOT_KEYCODE.

(* XGraphicsExposeEvent *)
Definition XEVENT_SLOT_MAJOR_CODE : nat := XEVENT_SLOT_DETAIL.
Definition XEVENT_SLOT_MINOR_CODE : nat := XEVENT_SLOT_FOCUS.

(* XNoExposeEvent *)
Definition XEVENT_SLOT_DRAWABLE : nat := XEVENT_SLOT_WINDOW.

(* XCreateWindowEvent *)
Definition XEVENT_SLOT_PARENT : nat := XEVENT_SLOT_ROOT.
Definition XEVENT_SLOT_BORDER_WIDTH : nat := XEVENT_SLOT_FOCUS.
Definition XEVENT_SLOT_OVERRIDE_REDIRECT : nat := XEVENT_SLOT_DETAIL.

(* XDestroyWindowEvent *)
Definition XEVENT_SLOT_EVENT : nat := XEVENT_SLOT_TIME.

(* XUnmapEvent *)
Definition XEVENT_SLOT_FROM_CONFIGURE : nat := XEVENT_SLOT_KEYCODE.

(* XConfigureEvent *)
Definition XEVENT_SLOT_ABOVE : nat := XEVENT_SLOT_SUBWINDOW.

(* XConfigureRequestEvent *)
Definition XEVENT_SLOT_VALUE_MASK : nat := XEVENT_SLOT_SAME_SCREEN.

(* XCirculateEvent *)
Definition XEVENT_SLOT_PLACE : nat := XEVENT_SLOT_KEYCODE.

(* XPropertyEvent *)
Definition XEVENT_SLOT_ATOM : nat := XEVENT_SLOT_KEYCODE.

(* XSelectionClearEvent *)
Definition XEVENT_SLOT_SELECTION : nat := XEVENT_SLOT_KEYCODE.

(* XSelectionRequestEvent *)
Definition XEVENT_SLOT_OWNER : nat := XEVENT_SLOT_WINDOW.
Definition XEVENT_SLOT_REQUESTOR : nat := XEVENT_SLOT_ROOT.
Definition XEVENT_SLOT_TARGET : nat := XEVENT_SLOT_SUBWINDOW.
Definition XEVENT_SLOT_PROPERTY : nat := XEVENT_SLOT_SAME_SCREEN.

(* XColormapEvent *)
Definition XEVENT_SLOT_COLORMAP : nat := XEVENT_SLOT_KEYCODE.
Definition XEVENT_SLOT_NEW : nat := XEVENT_SLOT_DETAIL.

(* XClientMessageEvent *)
Definition XEVENT_SLOT_MESSAGE_TYPE : nat := XEVENT_SLOT_DETAIL.
Definition XEVENT_SLOT_DATA : nat := XEVENT_SLOT_KEYCODE.
Definition XEVENT_SLOT_FORMAT : nat := XEVENT_SLOT_FOCUS.

(* XMappingEvent *)
Definition XEVENT_SLOT_REQUEST : nat := XEVENT_SLOT_DETAIL.
Definition XEVENT_SLOT_FIRST_KEYCODE : nat := XEVENT_SLOT_FOCUS.

(* XErrorEvent *)
Definition XEVENT_SLOT_RESOURCEID : nat := XEVENT_SLOT_WINDOW.
Definition XEVENT_SLOT_ERROR_CODE : nat := XEVENT_SLOT_X.
Definition XEVENT_SLOT_REQUEST_CODE : nat := XEVENT_SLOT_Y.

(* Total number of slots. *)
Definition XEVENT_NUM_SLOTS : nat := 17.

(** The event types, as X.h numbers them. *)
Definition KeyPress : Z := 2.
Definition KeyRelease : Z := 3.
Definition ButtonPress : Z := 4.
Definition ButtonRelease : Z := 5.
Definition MotionNotify : Z := 6.
Definition EnterNotify : Z := 7.
Definition LeaveNotify : Z := 8.
Definition FocusIn : Z := 9.
Definition FocusOut : Z := 10.
Definition KeymapNotify : Z := 11.
Definition Expose : Z := 12.
Definition GraphicsExpose : Z := 13.
Definition NoExpose : Z := 14.
Definition VisibilityNotify : Z := 15.
Definition CreateNotify : Z := 16.
Definition DestroyNotify : Z := 17.
Definition UnmapNotify : Z := 18.
Definition MapNotify : Z := 19.
Definition MapRequest : Z := 20.
Definition ReparentNotify : Z := 21.
Definition ConfigureNotify : Z := 22.
Definition ConfigureRequest : Z := 23.
Definition GravityNotify : Z := 24.
Definition ResizeRequest : Z := 25.
Definition CirculateNotify : Z := 26.
Definition CirculateRequest : Z := 27.
Definition PropertyNotify : Z := 28.
Definition SelectionClear : Z := 29.
Definition SelectionRequest : Z := 30.
Definition SelectionNotify : Z := 31.
Definition ColormapNotify : Z := 32.
Definition ClientMessage : Z := 33.
Definition MappingNotify : Z := 34.

(** The XEvent union, by the fields [copy_event_fields] reads of it:
    every case of its switch reads the member for the type at hand, and
    here each of that member's fields goes by its name. *)
Record XEvent := {
  E_type : Z;
  E_serial : Z;
  E_send_event : Z;
  E_window : Z;
  E_root : Z;
  E_subwindow : Z;
  E_time : Z;
  E_x : Z;
  E_y : Z;
  E_x_root : Z;
  E_y_root : Z;
  E_state : Z;
  E_keycode : Z;
  E_same_screen : Z;
  E_button : Z;
  E_is_hint : Z;
  E_mode : Z;
  E_detail : Z;
  E_focus : Z;
  E_width : Z;
  E_height : Z;
  E_count : Z;
  E_major_code : Z;
  E_minor_code : Z;
  E_parent : Z;
  E_border_width : Z;
  E_override_redirect : Z;
  E_event : Z;
  E_from_configure : Z;
  E_above : Z;
  E_value_mask : Z;
  E_place : Z;
  E_owner : Z;
  E_requestor : Z;
  E_new : Z;
  E_format : Z;
  E_request : Z;
  E_first_keycode : Z
}.

(** What goes into a slot: [scm_from_int (E.f)], [SCM_BOOL (E.f)], the
    display, [lookup_window (display, E.f, func)], or [SCM_BOOL_F] for what
    is not supported. *)
Inductive slot_value :=
| SV_int (n : Z)
| SV_bool (b : Z)
| SV_display
| SV_window (id : Z)
| SV_false.

#[global] Instance slot_value_eq_dec : EqDecision slot_value.
Proof. solve_decision. Defined.

(** The assignments of each case of the switch, in their order. *)
Definition event_fields (e : XEvent) : list (nat * slot_value) :=
  let t := E_type e in
  if (t =? KeyPress) || (t =? KeyRelease) then
    (* xkey *)
    [(XEVENT_SLOT_TYPE, SV_int (E_type e));
     (XEVENT_SLOT_SERIAL, SV_int (E_serial e));
     (XEVENT_SLOT_SEND_EVENT, SV_bool (E_send_event e));
     (XEVENT_SLOT_DISPLAY, SV_display);
     (XEVENT_SLOT_WINDOW, SV_window (E_window e));
     (XEVENT_SLOT_ROOT, SV_window (E_root e));
     (XEVENT_SLOT_SUBWINDOW, SV_window (E_subwindow e));
     (XEVENT_SLOT_TIME, SV_int (E_time e));
     (XEVENT_SLOT_X, SV_int (E_x e));
     (XEVENT_SLOT_Y, SV_int (E_y e));
     (XEVENT_SLOT_X_ROOT, SV_int (E_x_root e));
     (XEVENT_SLOT_Y_ROOT, SV_int (E_y_root e));
     (XEVENT_SLOT_STATE, SV_int (E_state e));
     (XEVENT_SLOT_KEYCODE, SV_int (E_keycode e));
     (XEVENT_SLOT_SAME_SCREEN, SV_bool (E_same_screen e))]
  else if (t =? ButtonPress) || (t =? ButtonRelease) then
    (* xbutton *)
    [(XEVENT_SLOT_TYPE, SV_int (E_type e));
     (XEVENT_SLOT_SERIAL, SV_int (E_serial e));
     (XEVENT_SLOT_SEND_EVENT, SV_bool (E_send_event e));
     (XEVENT_SLOT_DISPLAY, SV_display);
     (XEVENT_SLOT_WINDOW, SV_window (E_window e));
     (XEVENT_SLOT_ROOT, SV_window (E_root e));
     (XEVENT_SLOT_SUBWINDOW, SV_window (E_subwindow e));
     (XEVENT_SLOT_TIME, SV_int (E_time e));
     (XEVENT_SLOT_X, SV_int (E_x e));
     (XEVENT_SLOT_Y, SV_int (E_y e));
     (XEVENT_SLOT_X_ROOT, SV_int (E_x_root e));
     (XEVENT_SLOT_Y_ROOT, SV_int (E_y_root e));
     (XEVENT_SLOT_STATE, SV_int (E_state e));
     (XEVENT_SLOT_BUTTON, SV_int (E_button e));
     (XEVENT_SLOT_SAME_SCREEN, SV_bool (E_same_screen e))]
  else if (t =? MotionNotify) then
    (* xmotion *)
    [(XEVENT_SLOT_TYPE, SV_int (E_type e));
     (XEVENT_SLOT_SERIAL, SV_int (E_serial e));
     (XEVENT_SLOT_SEND_EVENT, SV_bool (E_send_event e));
     (XEVENT_SLOT_DISPLAY, SV_display);
     (XEVENT_SLOT_WINDOW, SV_window (E_window e));
     (XEVENT_SLOT_ROOT, SV_window (E_root e));
     (XEVENT_SLOT_SUBWINDOW, SV_window (E_subwindow e));
     (XEVENT_SLOT_TIME, SV_int (E_time e));
     (XEVENT_SLOT_X, SV_int (E_x e));
     (XEVENT_SLOT_Y, SV_int (E_y e));
     (XEVENT_SLOT_X_ROOT, SV_int (E_x_root e));
     (XEVENT_SLOT_Y_ROOT, SV_int (E_y_root e));
     (XEVENT_SLOT_STATE, SV_int (E_state e));
     (XEVENT_SLOT_IS_HINT, SV_int (E_is_hint e));
     (XEVENT_SLOT_SAME_SCREEN, SV_bool (E_same_screen e))]
  else if (t =? EnterNotify) || (t =? LeaveNotify) then
    (* xcrossing *)
    [(XEVENT_SLOT_TYPE, SV_int (E_type e));
     (XEVENT_SLOT_SERIAL, SV_int (E_serial e));
     (XEVENT_SLOT_SEND_EVENT, SV_bool (E_send_event e));
     (XEVENT_SLOT_DISPLAY, SV_display);
     (XEVENT_SLOT_WINDOW, SV_window (E_window e));
     (XEVENT_SLOT_ROOT, SV_window (E_root e));
     (XEVENT_SLOT_SUBWINDOW, SV_window (E_subwindow e));
     (XEVENT_SLOT_TIME, SV_int (E_time e));
     (XEVENT_SLOT_X, SV_int (E_x e));
     (XEVENT_SLOT_Y, SV_int (E_y e));
     (XEVENT_SLOT_X_ROOT, SV_int (E_x_root e));
     (XEVENT_SLOT_Y_ROOT, SV_int (E_y_root e));
     (XEVENT_SLOT_MODE, SV_int (E_mode e));
     (XEVENT_SLOT_DETAIL, SV_int (E_detail e));
     (XEVENT_SLOT_SAME_SCREEN, SV_bool (E_same_screen e));
     (XEVENT_SLOT_FOCUS, SV_bool (E_focus e));
     (XEVENT_SLOT_STATE, SV_int (E_state e))]
  else if (t =? FocusIn) || (t =? FocusOut) then
    (* xfocus *)
    [(XEVENT_SLOT_TYPE, SV_int (E_type e));
     (XEVENT_SLOT_SERIAL, SV_int (E_serial e));
     (XEVENT_SLOT_SEND_EVENT, SV_bool (E_send_event e));
     (XEVENT_SLOT_DISPLAY, SV_display);
     (XEVENT_SLOT_WINDOW, SV_window (E_window e));
     (XEVENT_SLOT_MODE, SV_int (E_mode e));
     (XEVENT_SLOT_DETAIL, SV_int (E_detail e))]
  else if (t =? KeymapNotify) then
    (* xkeymap *)
    [(XEVENT_SLOT_TYPE, SV_int (E_type e));
     (XEVENT_SLOT_SERIAL, SV_int (E_serial e));
     (XEVENT_SLOT_SEND_EVENT, SV_bool (E_send_event e));
     (XEVENT_SLOT_DISPLAY, SV_display);
     (XEVENT_SLOT_WINDOW, SV_window (E_window e));
     (XEVENT_SLOT_KEY_VECTOR, SV_false)]
  else if (t =? Expose) then
    (* xexpose *)
    [(XEVENT_SLOT_TYPE, SV_int (E_type e));
     (XEVENT_SLOT_SERIAL, SV_int (E_serial e));
     (XEVENT_SLOT_SEND_EVENT, SV_bool (E_send_event e));
     (XEVENT_SLOT_DISPLAY, SV_display);
     (XEVENT_SLOT_WINDOW, SV_window (E_window e));
     (XEVENT_SLOT_X, SV_int (E_x e));
     (XEVENT_SLOT_Y, SV_int (E_y e));
     (XEVENT_SLOT_WIDTH, SV_int (E_width e));
     (XEVENT_SLOT_HEIGHT, SV_int (E_height e));
     (XEVENT_SLOT_COUNT, SV_int (E_count e))]
  else if (t =? GraphicsExpose) then
    (* xgraphicsexpose *)
    [(XEVENT_SLOT_TYPE, SV_int (E_type e));
     (XEVENT_SLOT_SERIAL, SV_int (E_serial e));
     (XEVENT_SLOT_SEND_EVENT, SV_bool (E_send_event e));
     (XEVENT_SLOT_DISPLAY, SV_display);
     (XEVENT_SLOT_DRAWABLE, SV_false);
     (XEVENT_SLOT_X, SV_int (E_x e));
     (XEVENT_SLOT_Y, SV_int (E_y e));
     (XEVENT_SLOT_WIDTH, SV_int (E_width e));
     (XEVENT_SLOT_HEIGHT, SV_int (E_height e));
     (XEVENT_SLOT_COUNT, SV_int (E_count e));
     (XEVENT_SLOT_MAJOR_CODE, SV_int (E_major_code e));
     (XEVENT_SLOT_MINOR_CODE, SV_int (E_minor_code e))]
  else if (t =? NoExpose) then
    (* xnoexpose *)
    [(XEVENT_SLOT_TYPE, SV_int (E_type e));
     (XEVENT_SLOT_SERIAL, SV_int (E_serial e));
     (XEVENT_SLOT_SEND_EVENT, SV_bool (E_send_event e));
     (XEVENT_SLOT_DISPLAY, SV_display);
     (XEVENT_SLOT_DRAWABLE, SV_false);
     (XEVENT_SLOT_MAJOR_CODE, SV_int (E_major_code e));
     (XEVENT_SLOT_MINOR_CODE, SV_int (E_minor_code e))]
  else if (t =? VisibilityNotify) then
    (* xvisibility *)
    [(XEVENT_SLOT_TYPE, SV_int (E_type e));
     (XEVENT_SLOT_SERIAL, SV_int (E_serial e));
     (XEVENT_SLOT_SEND_EVENT, SV_bool (E_send_event e));
     (XEVENT_SLOT_DISPLAY, SV_display);
     (XEVENT_SLOT_WINDOW, SV_window (E_window e));
     (XEVENT_SLOT_STATE, SV_int (E_state e))]
  else if (t =? CreateNotify) then
    (* xcreatewindow *)
    [(XEVENT_SLOT_TYPE, SV_int (E_type e));
     (XEVENT_SLOT_SERIAL, SV_int (E_serial e));
     (XEVENT_SLOT_SEND_EVENT, SV_bool (E_send_event e));
     (XEVENT_SLOT_DISPLAY, SV_display);
     (XEVENT_SLOT_PARENT, SV_window (E_parent e));
     (XEVENT_SLOT_WINDOW, SV_window (E_window e));
     (XEVENT_SLOT_X, SV_int (E_x e));
     (XEVENT_SLOT_Y, SV_int (E_y e));
     (XEVENT_SLOT_WIDTH, SV_int (E_width e));
     (XEVENT_SLOT_HEIGHT, SV_int (E_height e));
     (XEVENT_SLOT_BORDER_WIDTH, SV_int (E_border_width e));
     (XEVENT_SLOT_OVERRIDE_REDIRECT, SV_bool (E_override_redirect e))]
  else if (t =? DestroyNotify) then
    (* xdestroywindow *)
    [(XEVENT_SLOT_TYPE, SV_int (E_type e));
     (XEVENT_SLOT_SERIAL, SV_int (E_serial e));
     (XEVENT_SLOT_SEND_EVENT, SV_bool (E_send_event e));
     (XEVENT_SLOT_DISPLAY, SV_display);
     (XEVENT_SLOT_EVENT, SV_window (E_event e));
     (XEVENT_SLOT_WINDOW, SV_window (E_window e))]
  else if (t =? UnmapNotify) then
    (* xunmap *)
    [(XEVENT_SLOT_TYPE, SV_int (E_type e));
     (XEVENT_SLOT_SERIAL, SV_int (E_serial e));
     (XEVENT_SLOT_SEND_EVENT, SV_bool (E_send_event e));
     (XEVENT_SLOT_DISPLAY, SV_display);
     (XEVENT_SLOT_EVENT, SV_window (E_event e));
     (XEVENT_SLOT_WINDOW, SV_window (E_window e));
     (XEVENT_SLOT_FROM_CONFIGURE, SV_bool (E_from_configure e))]
  else if (t =? MapNotify) then
    (* xmap *)
    [(XEVENT_SLOT_TYPE, SV_int (E_type e));
     (XEVENT_SLOT_SERIAL, SV_int (E_serial e));
     (XEVENT_SLOT_SEND_EVENT, SV_bool (E_send_event e));
     (XEVENT_SLOT_DISPLAY, SV_display);
     (XEVENT_SLOT_EVENT, SV_window (E_event e));
     (XEVENT_SLOT_WINDOW, SV_window (E_window e));
     (XEVENT_SLOT_OVERRIDE_REDIRECT, SV_bool (E_override_redirect e))]
  else if (t =? MapRequest) then
    (* xmaprequest *)
    [(XEVENT_SLOT_TYPE, SV_int (E_type e));
     (XEVENT_SLOT_SERIAL, SV_int (E_serial e));
     (XEVENT_SLOT_SEND_EVENT, SV_bool (E_send_event e));
     (XEVENT_SLOT_DISPLAY, SV_display);
     (XEVENT_SLOT_PARENT, SV_window (E_parent e));
     (XEVENT_SLOT_WINDOW, SV_window (E_window e))]
  else if (t =? ReparentNotify) then
    (* xreparent *)
    [(XEVENT_SLOT_TYPE, SV_int (E_type e));
     (XEVENT_SLOT_SERIAL, SV_int (E_serial e));
     (XEVENT_SLOT_SEND_EVENT, SV_bool (E_send_event e));
     (XEVENT_SLOT_DISPLAY, SV_display);
     (XEVENT_SLOT_EVENT, SV_window (E_event e));
     (XEVENT_SLOT_WINDOW, SV_window (E_window e));
     (XEVENT_SLOT_PARENT, SV_window (E_parent e));
     (XEVENT_SLOT_X, SV_int (E_x e));
     (XEVENT_SLOT_Y, SV_int (E_y e));
     (XEVENT_SLOT_OVERRIDE_REDIRECT, SV_bool (E_override_redirect e))]
  else if (t =? ConfigureNotify) then
    (* xconfigure *)
    [(XEVENT_SLOT_TYPE, SV_int (E_type e));
     (XEVENT_SLOT_SERIAL, SV_int (E_serial e));
     (XEVENT_SLOT_SEND_EVENT, SV_bool (E_send_event e));
     (XEVENT_SLOT_DISPLAY, SV_display);
     (XEVENT_SLOT_EVENT, SV_window (E_event e));
     (XEVENT_SLOT_WINDOW, SV_window (E_window e));
     (XEVENT_SLOT_X, SV_int (E_x e));
     (XEVENT_SLOT_Y, SV_int (E_y e));
     (XEVENT_SLOT_WIDTH, SV_int (E_width e));
     (XEVENT_SLOT_HEIGHT, SV_int (E_height e));
     (XEVENT_SLOT_BORDER_WIDTH, SV_int (E_border_width e));
     (XEVENT_SLOT_ABOVE, SV_window (E_above e));
     (XEVENT_SLOT_OVERRIDE_REDIRECT, SV_bool (E_override_redirect e))]
  else if (t =? ConfigureRequest) then
    (* xconfigurerequest *)
    [(XEVENT_SLOT_TYPE, SV_int (E_type e));
     (XEVENT_SLOT_SERIAL, SV_int (E_serial e));
     (XEVENT_SLOT_SEND_EVENT, SV_bool (E_send_event e));
     (XEVENT_SLOT_DISPLAY, SV_display);
     (XEVENT_SLOT_PARENT, SV_window (E_parent e));
     (XEVENT_SLOT_WINDOW, SV_window (E_window e));
     (XEVENT_SLOT_X, SV_int (E_x e));
     (XEVENT_SLOT_Y, SV_int (E_y e));
     (XEVENT_SLOT_WIDTH, SV_int (E_width e));
     (XEVENT_SLOT_HEIGHT, SV_int (E_height e));
     (XEVENT_SLOT_BORDER_WIDTH, SV_int (E_border_width e));
     (XEVENT_SLOT_ABOVE, SV_window (E_above e));
     (XEVENT_SLOT_DETAIL, SV_int (E_detail e));
     (XEVENT_SLOT_VALUE_MASK, SV_int (E_value_mask e))]
  else if (t =? GravityNotify) then
    (* xgravity *)
    [(XEVENT_SLOT_TYPE, SV_int (E_type e));
     (XEVENT_SLOT_SERIAL, SV_int (E_serial e));
     (XEVENT_SLOT_SEND_EVENT, SV_bool (E_send_event e));
     (XEVENT_SLOT_DISPLAY, SV_display);
     (XEVENT_SLOT_EVENT, SV_window (E_event e));
     (XEVENT_SLOT_WINDOW, SV_window (E_window e));
     (XEVENT_SLOT_X, SV_int (E_x e));
     (XEVENT_SLOT_Y, SV_int (E_y e))]
  else if (t =? ResizeRequest) then
    (* xresizerequest *)
    [(XEVENT_SLOT_TYPE, SV_int (E_type e));
     (XEVENT_SLOT_SERIAL, SV_int (E_serial e));
     (XEVENT_SLOT_SEND_EVENT, SV_bool (E_send_event e));
     (XEVENT_SLOT_DISPLAY, SV_display);
     (XEVENT_SLOT_WINDOW, SV_window (E_window e));
     (XEVENT_SLOT_WIDTH, SV_int (E_width e));
     (XEVENT_SLOT_HEIGHT, SV_int (E_height e))]
  else if (t =? CirculateNotify) then
    (* xcirculate *)
    [(XEVENT_SLOT_TYPE, SV_int (E_type e));
     (XEVENT_SLOT_SERIAL, SV_int (E_serial e));
     (XEVENT_SLOT_SEND_EVENT, SV_bool (E_send_event e));
     (XEVENT_SLOT_DISPLAY, SV_display);
     (XEVENT_SLOT_EVENT, SV_window (E_event e));
     (XEVENT_SLOT_WINDOW, SV_window (E_window e));
     (XEVENT_SLOT_PLACE, SV_int (E_place e))]
  else if (t =? CirculateRequest) then
    (* xcirculaterequest *)
    [(XEVENT_SLOT_TYPE, SV_int (E_type e));
     (XEVENT_SLOT_SERIAL, SV_int (E_serial e));
     (XEVENT_SLOT_SEND_EVENT, SV_bool (E_send_event e));
     (XEVENT_SLOT_DISPLAY, SV_display);
     (XEVENT_SLOT_PARENT, SV_window (E_parent e));
     (XEVENT_SLOT_WINDOW, SV_window (E_window e));
     (XEVENT_SLOT_PLACE, SV_int (E_place e))]
  else if (t =? PropertyNotify) then
    (* xproperty *)
    [(XEVENT_SLOT_TYPE, SV_int (E_type e));
     (XEVENT_SLOT_SERIAL, SV_int (E_serial e));
     (XEVENT_SLOT_SEND_EVENT, SV_bool (E_send_event e));
     (XEVENT_SLOT_DISPLAY, SV_display);
     (XEVENT_SLOT_WINDOW, SV_window (E_window e));
     (XEVENT_SLOT_ATOM, SV_false);
     (XEVENT_SLOT_TIME, SV_int (E_time e));
     (XEVENT_SLOT_STATE, SV_int (E_state e))]
  else if (t =? SelectionClear) then
    (* xselectionclear *)
    [(XEVENT_SLOT_TYPE, SV_int (E_type e));
     (XEVENT_SLOT_SERIAL, SV_int (E_serial e));
     (XEVENT_SLOT_SEND_EVENT, SV_bool (E_send_event e));
     (XEVENT_SLOT_DISPLAY, SV_display);
     (XEVENT_SLOT_WINDOW, SV_window (E_window e));
     (XEVENT_SLOT_SELECTION, SV_false);
     (XEVENT_SLOT_TIME, SV_int (E_time e))]
  else if (t =? SelectionRequest) then
    (* xselectionrequest *)
    [(XEVENT_SLOT_TYPE, SV_int (E_type e));
     (XEVENT_SLOT_SERIAL, SV_int (E_serial e));
     (XEVENT_SLOT_SEND_EVENT, SV_bool (E_send_event e));
     (XEVENT_SLOT_DISPLAY, SV_display);
     (XEVENT_SLOT_OWNER, SV_window (E_owner e));
     (XEVENT_SLOT_REQUESTOR, SV_window (E_requestor e));
     (XEVENT_SLOT_SELECTION, SV_false);
     (XEVENT_SLOT_TARGET, SV_false);
     (XEVENT_SLOT_PROPERTY, SV_false);
     (XEVENT_SLOT_TIME, SV_int (E_time e))]
  else if (t =? SelectionNotify) then
    (* xselection *)
    [(XEVENT_SLOT_TYPE, SV_int (E_type e));
     (XEVENT_SLOT_SERIAL, SV_int (E_serial e));
     (XEVENT_SLOT_SEND_EVENT, SV_bool (E_send_event e));
     (XEVENT_SLOT_DISPLAY, SV_display);
     (XEVENT_SLOT_REQUESTOR, SV_window (E_requestor e));
     (XEVENT_SLOT_SELECTION, SV_false);
     (XEVENT_SLOT_TARGET, SV_false);
     (XEVENT_SLOT_PROPERTY, SV_false);
     (XEVENT_SLOT_TIME, SV_int (E_time e))]
  else if (t =? ColormapNotify) then
    (* xcolormap *)
    [(XEVENT_SLOT_TYPE, SV_int (E_type e));
     (XEVENT_SLOT_SERIAL, SV_int (E_serial e));
     (XEVENT_SLOT_SEND_EVENT, SV_bool (E_send_event e));
     (XEVENT_SLOT_DISPLAY, SV_display);
     (XEVENT_SLOT_WINDOW, SV_window (E_window e));
     (XEVENT_SLOT_COLORMAP, SV_false);
     (XEVENT_SLOT_NEW, SV_bool (E_new e));
     (XEVENT_SLOT_STATE, SV_int (E_state e))]
  else if (t =? ClientMessage) then
    (* xclient *)
    [(XEVENT_SLOT_TYPE, SV_int (E_type e));
     (XEVENT_SLOT_SERIAL, SV_int (E_serial e));
     (XEVENT_SLOT_SEND_EVENT, SV_bool (E_send_event e));
     (XEVENT_SLOT_DISPLAY, SV_display);
     (XEVENT_SLOT_WINDOW, SV_window (E_window e));
     (XEVENT_SLOT_MESSAGE_TYPE, SV_false);
     (XEVENT_SLOT_FORMAT, SV_int (E_format e));
     (XEVENT_SLOT_DATA, SV_false)]
  else if (t =? MappingNotify) then
    (* xmapping *)
    [(XEVENT_SLOT_TYPE, SV_int (E_type e));
     (XEVENT_SLOT_SERIAL, SV_int (E_serial e));
     (XEVENT_SLOT_SEND_EVENT, SV_bool (E_send_event e));
     (XEVENT_SLOT_DISPLAY, SV_display);
     (XEVENT_SLOT_WINDOW, SV_window (E_window e));
     (XEVENT_SLOT_REQUEST, SV_int (E_request e));
     (XEVENT_SLOT_FIRST_KEYCODE, SV_int (E_first_keycode e));
     (XEVENT_SLOT_COUNT, SV_int (E_count e))]
  else [].

(** [(int) x], as the prototype of [scm_from_int] converts a wider
    field. *)
Definition C_int (x : Z) : Z := int_of_XID x.

Definition SCM_BOOL (b : Z) : SCM :=
  if b =? 0 then SCM_BOOL_F else SCM_BOOL_T.

(** A Scheme vector, by its elements. *)
Definition scm_make_vector (n : nat) (fill : SCM) : list SCM :=
  replicate n fill.

Definition scm_c_vector_set_x (v : list SCM) (i : nat) (x : SCM)
  : M (list SCM) :=
  if decide (i < length v)%nat then ret (<[i := x]> v)
  else throw (out_of_range "vector-set!" 2 (SCM_INUM (Z.of_nat i))).

Definition slot_scm (display : SCM) (func : string) (sv : slot_value)
  : M SCM :=
  match sv with
  | SV_int n => ret (scm_from_int (C_int n))
  | SV_bool b => ret (SCM_BOOL b)
  | SV_display => ret display
  | SV_window id => lookup_window display id func
  | SV_false => ret SCM_BOOL_F
  end.

Fixpoint fill_slots (display : SCM) (func : string)
    (fields : list (nat * slot_value)) (event : list SCM) : M (list SCM) :=
  match fields with
  | [] => ret event
  | (slot, sv) :: fields' =>
      let* x := slot_scm display func sv in
      let* event' := scm_c_vector_set_x event slot x in
      fill_slots display func fields' event'
  end.

(** [for (i = 0; i < XEVENT_NUM_SLOTS; i++)
       scm_c_vector_set_x (event, i, SCM_UNSPECIFIED);] *)
Fixpoint clear_slots (i : nat) (n : nat) (event : list SCM) : M (list SCM) :=
  match n with
  | O => ret event
  | S n' =>
      let* event' := scm_c_vector_set_x event i SCM_UNSPECIFIED in
      clear_slots (S i) n' event'
  end.

(** [event] is the vector the caller passed, if any. *)
Definition copy_event_fields (display : SCM) (e : XEvent)
    (event : option (list SCM)) (func : string) : M (list SCM) :=
  (* Make a new vector if we need to. *)
  let event1 :=
    match event with
    | None => scm_make_vector XEVENT_NUM_SLOTS SCM_UNSPECIFIED
    | Some v => v
    end in
  (* Initial all slots to unspecified. *)
  let* event2 := clear_slots 0 XEVENT_NUM_SLOTS event1 in
  (* Fill in the slots that are relevant to the current X event. *)
  fill_slots display func (event_fields e) event2.

(** The table maps [k] to the window smob [x], and [x] has not been
    collected. *)
Definition live_entry (w : world) (k : Z) (x : SCM) : Prop :=
  resource_id_hash w !! k = Some x /\ typ16_of w x = scm_tc16_xwindow.

(** What a slot holds once it is filled: the converted field, or for a
    window id the smob the table has for it. *)
Definition slot_holds (w : world) (display : SCM) (sv : slot_value) (x : SCM)
  : Prop :=
  match sv with
  | SV_int n => x = SCM_INUM (C_int n)
  | SV_bool b => x = SCM_BOOL b
  | SV_display => x = display
  | SV_window id =>
      if id =? XID_None then x = SCM_BOOL_F
      else live_entry w (int_of_XID id) x
  | SV_false => x = SCM_BOOL_F
  end.

(** A keyboard event on the window of the session. *)
Definition demo_event : XEvent :=
  {| E_type := KeyPress; E_serial := 9; E_send_event := 0; E_window := 43;
     E_root := 1; E_subwindow := 0; E_time := 2 ^ 32 + 5; E_x := 3;
     E_y := 4; E_x_root := 13; E_y_root := 14; E_state := 0;
     E_keycode := 38; E_same_screen := 1; E_button := 0; E_is_hint := 0;
     E_mode := 0; E_detail := 0; E_focus := 0; E_width := 0; E_height := 0;
     E_count := 0; E_major_code := 0; E_minor_code := 0; E_parent := 0;
     E_border_width := 0; E_override_redirect := 0; E_event := 0;
     E_from_configure := 0; E_above := 0; E_value_mask := 0; E_place := 0;
     E_owner := 0; E_requestor := 0; E_new := 0; E_format := 0;
     E_request := 0; E_first_keycode := 0 |}.

(** An Expose event on the same window. *)
Definition demo_expose : XEvent :=
  {| E_type := Expose; E_serial := 10; E_send_event := 0; E_window := 43;
     E_root := 0; E_subwindow := 0; E_time := 0; E_x := 0; E_y := 0;
     E_x_root := 0; E_y_root := 0; E_state := 0; E_keycode := 0;
     E_same_screen := 0; E_button := 0; E_is_hint := 0; E_mode := 0;
     E_detail := 0; E_focus := 0; E_width := 100; E_height := 50;
     E_count := 0; E_major_code := 0; E_minor_code := 0; E_parent := 0;
     E_border_width := 0; E_override_redirect := 0; E_event := 0;
     E_from_configure := 0; E_above := 0; E_value_mask := 0; E_place := 0;
     E_owner := 0; E_requestor := 0; E_new := 0; E_format := 0;
     E_request := 0; E_first_keycode := 0 |}.

(** An event of type 35, GenericEvent in X.h, which the switch has no
    case for. *)
Definition demo_generic_event : XEvent :=
  {| E_type := 35; E_serial := 11; E_send_event := 0; E_window := 43;
     E_root := 0; E_subwindow := 0; E_time := 0; E_x := 0; E_y := 0;
     E_x_root := 0; E_y_root := 0; E_state := 0; E_keycode := 0;
     E_same_screen := 0; E_button := 0; E_is_hint := 0; E_mode := 0;
     E_detail := 0; E_focus := 0; E_width := 0; E_height := 0;
     E_count := 0; E_major_code := 0; E_minor_code := 0; E_parent := 0;
     E_border_width := 0; E_override_redirect := 0; E_event := 0;
     E_from_configure := 0; E_above := 0; E_value_mask := 0; E_place := 0;
     E_owner := 0; E_requestor := 0; E_new := 0; E_format := 0;
     E_request := 0; E_first_keycode := 0 |}.

(** ** GC attributes

    The attribute list of x-create-gc! is a rest argument: a proper list
    of field numbers and values in turn.  [gcv], the XGCValues structure
    the handlers fill, is kept by field number, the number standing for
    the offset of the field; it starts out unassigned, and a handler
    leaves at the offset an object of the type it writes through. *)

Inductive gc_write :=
| as_int (n : Z)      (* written through an int pointer *)
| as_Bool (b : Z)     (* written through a Bool pointer *)
| as_char (c : Z).    (* written through a char pointer *)

Definition XGCValues := list (option gc_write).

Inductive gc_handler :=
| gc_set_numeric_field
| gc_set_pixmap_field
| gc_set_font_field
| gc_set_boolean_field
| gc_set_char_field.

Definition gc_fields : list gc_handler :=
  [gc_set_numeric_field;   (* function *)
   gc_set_numeric_field;   (* plane_mask *)
   gc_set_numeric_field;   (* foreground *)
   gc_set_numeric_field;   (* background *)
   gc_set_numeric_field;   (* line_width *)
   gc_set_numeric_field;   (* line_style *)
   gc_set_numeric_field;   (* cap_style *)
   gc_set_numeric_field;   (* join_style *)
   gc_set_numeric_field;   (* fill_style *)
   gc_set_numeric_field;   (* fill_rule *)
   gc_set_numeric_field;   (* arc_mode *)
   gc_set_pixmap_field;    (* tile *)
   gc_set_pixmap_field;    (* stipple *)
   gc_set_numeric_field;   (* ts_x_origin *)
   gc_set_numeric_field;   (* ts_y_origin *)
   gc_set_font_field;      (* font *)
   gc_set_numeric_field;   (* subwindow_mode *)
   gc_set_boolean_field;   (* graphics_exposures *)
   gc_set_numeric_field;   (* clip_x_origin *)
   gc_set_numeric_field;   (* clip_y_origin *)
   gc_set_pixmap_field;    (* clip_mask *)
   gc_set_numeric_field;   (* dash_offset *)
   gc_set_char_field].     (* dashes *)

Definition s_scm_x_change_gc_x := "x-change-gc!".
Definition SCM_ARGn : nat := 0.

Definition SCM_NUMBERP (x : SCM) : bool :=
  match x with SCM_INUM _ => true | _ => false end.

Definition SCM_BOOLP (x : SCM) : bool :=
  match x with SCM_BOOL_F | SCM_BOOL_T => true | _ => false end.

Definition SCM_NFALSEP (x : SCM) : bool := negb (bool_decide (x = SCM_BOOL_F)).

Section Attributes.

(** The largest unsigned long of the platform, and its conversion of an
    int to char. *)
Variable ULONG_MAX : Z.
Variable C_char : Z -> Z.

Definition SCM_NUM2ULONG (pos : nat) (x : SCM) : M Z :=
  match x with
  | SCM_INUM n =>
      if (0 <=? n) && (n <=? ULONG_MAX) then ret n
      else throw (out_of_range "" pos x)
  | _ => throw (wrong_type_arg "" pos x)
  end.

(** The handlers take their name from the FUNC_NAME of x-change-gc!,
    whoever calls them. *)
Definition gc_set_field (h : gc_handler) (gcv : XGCValues) (offset : nat)
    (value : SCM) : M XGCValues :=
  let FUNC_NAME := s_scm_x_change_gc_x in
  match h with
  | gc_set_numeric_field =>
      SCM_ASSERT (SCM_NUMBERP value) value SCM_ARGn FUNC_NAME >>
      let* n := SCM_NUM2ULONG SCM_ARGn value in
      ret (<[offset := Some (as_int (int_of_XID n))]> gcv)
  | gc_set_pixmap_field =>
      SCM_ASSERT false value SCM_ARGn FUNC_NAME >> ret gcv
  | gc_set_font_field =>
      SCM_ASSERT false value SCM_ARGn FUNC_NAME >> ret gcv
  | gc_set_boolean_field =>
      SCM_ASSERT (SCM_BOOLP value) value SCM_ARGn FUNC_NAME >>
      ret (<[offset := Some (as_Bool (if SCM_NFALSEP value then 1 else 0))]> gcv)
  | gc_set_char_field =>
      (* scm_integer_p answers #t or #f, both non-zero words in C: the
         assertion on it never fires. *)
      SCM_ASSERT true value SCM_ARGn FUNC_NAME >>
      let* n := scm_to_int value in
      ret (<[offset := Some (as_char (C_char n))]> gcv)
  end.

(** [for (; !SCM_NULLP (changes); changes = SCM_CDDR (changes))]; the
    list has an even length when the loop is reached. *)
Fixpoint gc_change_loop (func : string) (changes : list SCM) (mask : Z)
    (gcv : XGCValues) : M (Z * XGCValues) :=
  match changes with
  | [] => ret (mask, gcv)
  | field :: cdr =>
      SCM_ASSERT true field SCM_ARGn func >>
      let* fld := scm_to_int field in
      SCM_ASSERT_RANGE SCM_ARG2 field ((0 <=? fld) && (fld <=? 22)) func >>
      let mask' := Z.lor mask (Z.shiftl 1 fld) in
      match cdr with
      | value :: cddr =>
          let* h := (match gc_fields !! Z.to_nat fld with
                     | Some h => ret h
                     | None => throw undefined_behaviour
                     end) in
          let* gcv' := gc_set_field h gcv (Z.to_nat fld) value in
          gc_change_loop func cddr mask' gcv'
      | [] => throw undefined_behaviour   (* SCM_CADR of a one-element list *)
      end
  end.

(** What x-create-gc! does with its attribute list [changes], whose
    elements are [elements], before it creates the GC. *)
Definition gc_attributes (elements : list SCM) (changes : SCM)
    (func : string) : M (Z * XGCValues) :=
  SCM_ASSERT (Z.land (Z.of_nat (length elements)) 1 =? 0) changes SCM_ARGn
    func >>
  gc_change_loop func elements 0 (replicate 23 None).

Definition gc_changes_of (elements : list SCM) (changes : SCM)
    (func : string) : M Z :=
  let* r := gc_attributes elements changes func in ret (fst r).

End Attributes.

(** The field numbers named in an attribute list. *)
Fixpoint named_fields (elements : list SCM) : list SCM :=
  match elements with
  | field :: _ :: cddr => field :: named_fields cddr
  | _ => []
  end.

(** The fields with a handler that always refuses: tile, stipple, font,
    clip_mask. *)
Definition unsupported_fields : list Z := [11; 12; 15; 20].

(** A platform to try things on. *)
Definition demo_ULONG_MAX : Z := 2 ^ 64 - 1.
Definition demo_C_char (n : Z) : Z := (n + 2 ^ 7) mod 2 ^ 8 - 2 ^ 7.

(** The handlers wrote at the offset of field [i]. *)
Definition gc_assigned (gcv : XGCValues) (i : nat) : Prop :=
  exists v, gcv !! i = Some (Some v).

(** An attribute list to try things on: foreground 1, graphics
    exposures off; and one that names the font. *)
Definition demo_elements : list SCM :=
  [SCM_INUM 2; SCM_INUM 1; SCM_INUM 17; SCM_BOOL_F].
Definition demo_elements_font : list SCM :=
  [SCM_INUM 2; SCM_INUM 1; SCM_INUM 15; SCM_INUM 7].

(** * Reasoning about the heap *)

Arguments typ16_of : simpl never.
Arguments smob_data_of : simpl never.
#[local] Arguments Z.land : simpl never.
#[local] Arguments Z.lor : simpl never.
#[local] Arguments Z.lnot : simpl never.
#[local] Arguments Z.eqb : simpl never.
#[local] Arguments Z.leb : simpl never.
#[local] Arguments Z.ltb : simpl never.

Lemma typ16_NIMP w x :
  typ16_of w x <> scm_tc16_other -> SCM_NIMP x = true.
Proof. destruct x; unfold typ16_of; simpl; congruence. Qed.

Lemma typ16_of_set_blocks f w x : typ16_of (set_blocks f w) x = typ16_of w x.
Proof. reflexivity. Qed.
Lemma typ16_of_set_trace f w x : typ16_of (set_trace f w) x = typ16_of w x.
Proof. reflexivity. Qed.
Lemma typ16_of_set_hash f w x : typ16_of (set_hash f w) x = typ16_of w x.
Proof. reflexivity. Qed.
Lemma smob_data_of_set_blocks f w x :
  smob_data_of (set_blocks f w) x = smob_data_of w x.
Proof. reflexivity. Qed.
Lemma smob_data_of_set_trace f w x :
  smob_data_of (set_trace f w) x = smob_data_of w x.
Proof. reflexivity. Qed.
Lemma smob_data_of_set_hash f w x :
  smob_data_of (set_hash f w) x = smob_data_of w x.
Proof. reflexivity. Qed.

Create Rewrite HintDb heap.
#[local] Hint Rewrite typ16_of_set_blocks typ16_of_set_trace
  typ16_of_set_hash smob_data_of_set_blocks smob_data_of_set_trace
  smob_data_of_set_hash : heap.

Lemma load_as_xdisplay (m : gmap ptr block) p d :
  m !! p ≫= as_xdisplay = Some d -> m !! p = Some (B_xdisplay d).
Proof. destruct (m !! p) as [[]|]; simpl; congruence. Qed.
Lemma load_as_xwindow (m : gmap ptr block) p x :
  m !! p ≫= as_xwindow = Some x -> m !! p = Some (B_xwindow x).
Proof. destruct (m !! p) as [[]|]; simpl; congruence. Qed.
Lemma load_as_xgc (m : gmap ptr block) p g :
  m !! p ≫= as_xgc = Some g -> m !! p = Some (B_xgc g).
Proof. destruct (m !! p) as [[]|]; simpl; congruence. Qed.
Lemma load_as_xscreen (m : gmap ptr block) p s :
  m !! p ≫= as_xscreen = Some s -> m !! p = Some (B_xscreen s).
Proof. destruct (m !! p) as [[]|]; simpl; congruence. Qed.

#[local] Hint Resolve load_as_xdisplay load_as_xwindow load_as_xgc
  load_as_xscreen : core.

(** Symbolic execution: unfold the monad, then alternate computation with
    the facts at hand about the heap. *)
Ltac munfold :=
  unfold valid_dsp, valid_win, valid_gc, XDISPLAY, SCM_ASSERT,
    SCM_ASSERT_RANGE, SCM_TYP16, SCM_SMOB_DATA, store_xdisplay,
    store_xwindow, store_xgc, store_xscreen, store, load_xdisplay,
    load_xwindow, load_xgc, load_xscreen, load, xlib_ask, xlib_call,
    scm_gc_malloc, scm_gc_free, SCM_NEWSMOB, scm_hashq_ref,
    scm_hashq_set_x, modify, gets, bind, ret, throw.

Ltac mfacts :=
  repeat match goal with
    | H : typ16_of _ _ = _ |- _ => rewrite H
    | H : smob_data_of _ _ = _ |- _ => rewrite H
    | H : blocks _ !! _ = _ |- _ => rewrite H
    | H : SCM_NIMP _ = _ |- _ => rewrite H
    | H : (_ =? _) = _ |- _ => rewrite H
    | |- context [<[?p := _]> _ !! ?p] => rewrite lookup_insert_eq
    | H : ?q <> ?p |- context [<[?q := _]> _ !! ?p] =>
        rewrite (lookup_insert_ne _ q p) by exact H
    end.

Ltac mrun :=
  munfold;
  repeat (progress (simpl; autorewrite with heap; mfacts)).

(** ** The validators *)

Lemma valid_dsp_on_display w x p d pos e f :
  is_xdisplay w x p d ->
  valid_dsp x pos e f w =
    (if Z.land (xdisplay_state d) e =? 0
     then Throw (dsp_state_error f x e) else Ok x, w).
Proof.
  intros (Ht & Hp & Hb).
  assert (SCM_NIMP x = true) by (apply (typ16_NIMP w); congruence).
  unfold dsp_state_error. mrun.
  destruct (Z.land _ _ =? 0); [destruct (e =? _)|]; reflexivity.
Qed.

Lemma valid_dsp_on_window w x p xw pd d pos e f :
  is_xwindow w x p xw -> is_xdisplay w (xwindow_dsp xw) pd d ->
  valid_dsp x pos e f w =
    (if Z.land (xdisplay_state d) e =? 0
     then Throw (dsp_state_error f x e) else Ok (xwindow_dsp xw), w).
Proof.
  intros (Ht & Hp & Hb) (Ht' & Hp' & Hb').
  assert (SCM_NIMP x = true) by (apply (typ16_NIMP w); congruence).
  unfold dsp_state_error. mrun.
  destruct (Z.land _ _ =? 0); [destruct (e =? _)|]; reflexivity.
Qed.

Lemma valid_dsp_on_gc w x p g pd d pos e f :
  is_xgc w x p g -> is_xdisplay w (xgc_dsp g) pd d ->
  valid_dsp x pos e f w =
    (if Z.land (xdisplay_state d) e =? 0
     then Throw (dsp_state_error f x e) else Ok (xgc_dsp g), w).
Proof.
  intros (Ht & Hp & Hb) (Ht' & Hp' & Hb').
  assert (SCM_NIMP x = true) by (apply (typ16_NIMP w); congruence).
  unfold dsp_state_error. mrun.
  destruct (Z.land _ _ =? 0); [destruct (e =? _)|]; reflexivity.
Qed.

Lemma valid_win_run w x p xw pos e f :
  is_xwindow w x p xw ->
  valid_win x pos e f w =
    (if Z.land (xwindow_state xw) e =? 0
     then Throw (win_state_error f x (xwindow_state xw)) else Ok p, w).
Proof.
  intros (Ht & Hp & Hb).
  assert (SCM_NIMP x = true) by (apply (typ16_NIMP w); congruence).
  unfold win_state_error. mrun.
  destruct (Z.land _ _ =? 0); [|reflexivity].
  repeat (destruct (_ =? _); [reflexivity|]). reflexivity.
Qed.

Lemma valid_gc_run w x p g pos e f :
  is_xgc w x p g ->
  valid_gc x pos e f w =
    (if Z.land (xgc_state g) e =? 0
     then Throw (gc_state_error f x (xgc_state g)) else Ok p, w).
Proof.
  intros (Ht & Hp & Hb).
  assert (SCM_NIMP x = true) by (apply (typ16_NIMP w); congruence).
  unfold gc_state_error. mrun.
  destruct (Z.land _ _ =? 0); [|reflexivity].
  repeat (destruct (_ =? _); [reflexivity|]). reflexivity.
Qed.

(** The validators never touch the world, and what they let through is
    what they checked. *)
Lemma valid_dsp_inv arg pos e f w r w' :
  valid_dsp arg pos e f w = (r, w') ->
  w' = w /\
  forall d1, r = Ok d1 ->
    exists p d, is_xdisplay w d1 p d /\ Z.land (xdisplay_state d) e <> 0.
Proof.
  unfold is_xdisplay. munfold. intros H.
  repeat case_match; simplify_eq; split; try done; intros ? [= <-];
    try (eexists _, _; repeat split; eauto; try by apply Z.eqb_neq).
Qed.

Lemma valid_win_inv arg pos e f w r w' :
  valid_win arg pos e f w = (r, w') ->
  w' = w /\
  forall p, r = Ok p ->
    exists x, is_xwindow w arg p x /\ Z.land (xwindow_state x) e <> 0.
Proof.
  unfold is_xwindow. munfold. intros H.
  repeat case_match; simplify_eq; split; try done; intros ? [= <-];
    try (eexists _; repeat split; eauto; try by apply Z.eqb_neq).
Qed.

Lemma valid_gc_inv arg pos e f w r w' :
  valid_gc arg pos e f w = (r, w') ->
  w' = w /\
  forall p, r = Ok p ->
    exists g, is_xgc w arg p g /\ Z.land (xgc_state g) e <> 0.
Proof.
  unfold is_xgc. munfold. intros H.
  repeat case_match; simplify_eq; split; try done; intros ? [= <-];
    try (eexists _; repeat split; eauto; try by apply Z.eqb_neq).
Qed.

(** * Closing a display *)

Lemma close_display_open w x p d :
  is_xdisplay w x p d -> xdisplay_state d = XDISPLAY_STATE_OPEN ->
  scm_x_close_display_x x w =
    (Ok SCM_UNSPECIFIED,
     set_trace (fun t => t ++ [XCloseDisplay (xdisplay_dsp d)])
       (set_blocks
          <[p := B_xdisplay (with_xdisplay_state XDISPLAY_STATE_CLOSED d)]>
          w)).
Proof.
  intros Hd Hs. unfold scm_x_close_display_x, bind at 1.
  rewrite (valid_dsp_on_display _ _ _ _ _ _ _ Hd), Hs.
  destruct Hd as (Ht & Hp & Hb). mrun. reflexivity.
Qed.

Lemma close_display_closed w x p d :
  is_xdisplay w x p d -> xdisplay_state d = XDISPLAY_STATE_CLOSED ->
  scm_x_close_display_x x w =
    (Throw (misc_error "x-close-display!" "Display ~S has been closed" [x]),
     w).
Proof.
  intros Hd Hs. unfold scm_x_close_display_x, bind at 1.
  rewrite (valid_dsp_on_display _ _ _ _ _ _ _ Hd), Hs. reflexivity.
Qed.

Lemma xdisplay_free_run w x p d :
  is_xdisplay w x p d ->
  xdisplay_free x w =
    if xdisplay_state d =? XDISPLAY_STATE_OPEN
    then (Ok 0, snd (scm_x_close_display_x x w))
    else (Ok 0, w).
Proof.
  intros Hd. unfold xdisplay_free.
  destruct (xdisplay_state d =? XDISPLAY_STATE_OPEN) eqn:Hs.
  - pose proof (close_display_open _ _ _ _ Hd (proj1 (Z.eqb_eq _ _) Hs))
      as Hc.
    destruct Hd as (Ht & Hp & Hb).
    set (c := scm_x_close_display_x x) in *. mrun. by rewrite Hc.
  - destruct Hd as (Ht & Hp & Hb). mrun. reflexivity.
Qed.

Lemma is_xdisplay_closed w x p d :
  is_xdisplay w x p d ->
  is_xdisplay
    (set_trace (fun t => t ++ [XCloseDisplay (xdisplay_dsp d)])
       (set_blocks
          <[p := B_xdisplay (with_xdisplay_state XDISPLAY_STATE_CLOSED d)]>
          w))
    x p (with_xdisplay_state XDISPLAY_STATE_CLOSED d).
Proof.
  intros (Ht & Hp & Hb). repeat split; autorewrite with heap; try done.
  simpl. apply lookup_insert_eq.
Qed.

(** C5.  Closing an open display sets it closed and calls XCloseDisplay
    once; closing it again raises "Display has been closed" and calls
    nothing, and the free hook of the closed display calls nothing
    either. *)
Theorem close_display_once w display p d :
  is_xdisplay w display p d ->
  xdisplay_state d = XDISPLAY_STATE_OPEN ->
  exists w1,
    scm_x_close_display_x display w = (Ok SCM_UNSPECIFIED, w1) /\
    trace w1 = trace w ++ [XCloseDisplay (xdisplay_dsp d)] /\
    is_xdisplay w1 display p
      (with_xdisplay_state XDISPLAY_STATE_CLOSED d) /\
    scm_x_close_display_x display w1 =
      (Throw (misc_error "x-close-display!" "Display ~S has been closed"
                [display]), w1) /\
    xdisplay_free display w1 = (Ok 0, w1).
Proof.
  intros Hd Hs. eexists. split; [by apply close_display_open|].
  pose proof (is_xdisplay_closed _ _ _ _ Hd) as Hd'.
  split; [reflexivity|]. split; [exact Hd'|]. split.
  - by apply (close_display_closed _ _ _ _ Hd').
  - by rewrite (xdisplay_free_run _ _ _ _ Hd').
Qed.

Lemma close_display_once_witness :
  is_xdisplay demo_world demo_display 1%positive demo_xdisplay /\
  xdisplay_state demo_xdisplay = XDISPLAY_STATE_OPEN /\
  exists w1,
    scm_x_close_display_x demo_display demo_world = (Ok SCM_UNSPECIFIED, w1) /\
    trace w1 = trace demo_world ++ [XCloseDisplay 1000] /\
    is_xdisplay w1 demo_display 1%positive
      (with_xdisplay_state XDISPLAY_STATE_CLOSED demo_xdisplay) /\
    scm_x_close_display_x demo_display w1 =
      (Throw (misc_error "x-close-display!" "Display ~S has been closed"
                [demo_display]), w1) /\
    xdisplay_free demo_display w1 = (Ok 0, w1).
Proof.
  assert (H : is_xdisplay demo_world demo_display 1%positive demo_xdisplay)
    by (repeat split; vm_compute; reflexivity).
  split; [exact H|]. split; [reflexivity|].
  apply (close_display_once demo_world demo_display 1%positive demo_xdisplay H).
  reflexivity.
Defined.

(** * Freeing a GC *)

Lemma free_gc_run w gc p g pd d :
  is_xgc w gc p g -> is_xdisplay w (xgc_dsp g) pd d ->
  xdisplay_state d = XDISPLAY_STATE_OPEN ->
  scm_x_free_gc_x gc w =
    if Z.land (xgc_state g) XGC_STATE_CREATED =? 0
    then (Throw (gc_state_error "x-free-gc!" gc (xgc_state g)), w)
    else (Ok SCM_UNSPECIFIED,
          set_blocks <[p := B_xgc (with_xgc_state XGC_STATE_FREED g)]>
            (set_trace (fun t => t ++ [XFreeGC (xdisplay_dsp d) (xgc_gc g)])
               w)).
Proof.
  intros Hg Hd Hs. unfold scm_x_free_gc_x, bind at 1.
  rewrite (valid_dsp_on_gc _ _ _ _ _ _ _ _ _ Hg Hd), Hs.
  change (Z.land XDISPLAY_STATE_OPEN XDISPLAY_STATE_OPEN =? 0) with false.
  cbv beta iota. unfold XDISPLAY, bind at 1.
  destruct Hd as (Ht' & Hp' & Hb'). unfold SCM_SMOB_DATA at 1. rewrite Hp'.
  unfold bind at 1. rewrite (valid_gc_run _ _ _ _ _ _ _ Hg).
  destruct (Z.land _ _ =? 0); [reflexivity|].
  destruct Hg as (Ht & Hp & Hb). mrun. reflexivity.
Qed.

Lemma free_gc_refused w gc p g :
  is_xgc w gc p g ->
  Z.land (xgc_state g) XGC_STATE_CREATED = 0 ->
  exists e, scm_x_free_gc_x gc w = (Throw e, w).
Proof.
  intros Hg Hz. unfold scm_x_free_gc_x. cbv zeta. unfold bind at 1.
  destruct (valid_dsp _ _ _ _ w) as [r1 w1] eqn:E1.
  apply valid_dsp_inv in E1 as [-> H1].
  destruct r1 as [display1|e]; [|by exists e].
  destruct (H1 _ eq_refl) as (pd & d & (Ht & Hp & Hb) & Hopen).
  unfold XDISPLAY, bind at 1. unfold SCM_SMOB_DATA at 1. rewrite Hp.
  unfold bind at 1. rewrite (valid_gc_run _ _ _ _ _ _ _ Hg), Hz.
  by eexists.
Qed.

(** C7.  x-free-gc! on a GC that is not Created (the default GC, a freed
    GC) raises an error, calls nothing and changes nothing.  On an open
    display: a Created GC is freed with XFreeGC and becomes Freed; the
    default GC is refused with "is the default GC" and a freed one with
    "has been freed"; and the call succeeds on a Created GC only. *)
Theorem free_gc_requires_created w gc p g :
  is_xgc w gc p g ->
  (Z.land (xgc_state g) XGC_STATE_CREATED = 0 ->
   exists e, scm_x_free_gc_x gc w = (Throw e, w)) /\
  (forall pd d,
     is_xdisplay w (xgc_dsp g) pd d ->
     xdisplay_state d = XDISPLAY_STATE_OPEN ->
     (xgc_state g = XGC_STATE_CREATED ->
      exists w1,
        scm_x_free_gc_x gc w = (Ok SCM_UNSPECIFIED, w1) /\
        trace w1 = trace w ++ [XFreeGC (xdisplay_dsp d) (xgc_gc g)] /\
        is_xgc w1 gc p (with_xgc_state XGC_STATE_FREED g)) /\
     (xgc_state g = XGC_STATE_DEFAULT ->
      scm_x_free_gc_x gc w =
        (Throw (misc_error "x-free-gc!" "GC ~S is the default GC" [gc]),
         w)) /\
     (xgc_state g = XGC_STATE_FREED ->
      scm_x_free_gc_x gc w =
        (Throw (misc_error "x-free-gc!" "GC ~S has been freed" [gc]), w)) /\
     (forall r w1,
        scm_x_free_gc_x gc w = (Ok r, w1) ->
        xgc_state g = XGC_STATE_DEFAULT \/
        xgc_state g = XGC_STATE_CREATED \/
        xgc_state g = XGC_STATE_FREED ->
        xgc_state g = XGC_STATE_CREATED)).
Proof.
  intros Hg. split; [exact (free_gc_refused _ _ _ _ Hg)|].
  intros pd d Hd Hs. rewrite (free_gc_run _ _ _ _ _ _ Hg Hd Hs).
  repeat split.
  - intros ->. eexists. split; [reflexivity|]. split; [reflexivity|].
    destruct Hg as (Ht & Hp & Hb).
    repeat split; autorewrite with heap; try done. apply lookup_insert_eq.
  - by intros ->.
  - by intros ->.
  - intros r w1 H [E| [E| E]]; rewrite E in H; [|done|].
    + change (Z.land XGC_STATE_DEFAULT XGC_STATE_CREATED =? 0)
        with true in H. discriminate.
    + change (Z.land XGC_STATE_FREED XGC_STATE_CREATED =? 0)
        with true in H. discriminate.
Qed.

Lemma free_gc_requires_created_witness :
  is_xgc demo_world demo_gc 4%positive demo_xgc /\
  is_xdisplay demo_world demo_display 1%positive demo_xdisplay /\
  exists w1,
    scm_x_free_gc_x demo_gc demo_world = (Ok SCM_UNSPECIFIED, w1) /\
    trace w1 = trace demo_world ++ [XFreeGC 1000 607] /\
    is_xgc w1 demo_gc 4%positive (with_xgc_state XGC_STATE_FREED demo_xgc).
Proof.
  assert (Hg : is_xgc demo_world demo_gc 4%positive demo_xgc)
    by (repeat split; vm_compute; reflexivity).
  assert (Hd : is_xdisplay demo_world (xgc_dsp demo_xgc) 1%positive
                 demo_xdisplay)
    by (repeat split; vm_compute; reflexivity).
  split; [exact Hg|]. split; [exact Hd|].
  destruct (free_gc_requires_created demo_world demo_gc 4%positive demo_xgc
              Hg) as (_ & Hopen).
  destruct (Hopen 1%positive demo_xdisplay Hd eq_refl) as (Hcreated & _).
  exact (Hcreated eq_refl).
Defined.

(** * Mapping and unmapping a window *)

Lemma window_state_set_intro w p x s tr :
  blocks w !! p = Some (B_xwindow x) ->
  window_state_set w
    (set_trace tr (set_blocks <[p := B_xwindow (with_xwindow_state s x)]> w))
    p s.
Proof.
  intros Hb. repeat split; simpl.
  - intros q Hq. by rewrite lookup_insert_ne.
  - exists x, (with_xwindow_state s x). rewrite lookup_insert_eq. done.
Qed.

Lemma map_window_run w window p x pd d :
  is_xwindow w window p x -> is_xdisplay w (xwindow_dsp x) pd d ->
  xdisplay_state d = XDISPLAY_STATE_OPEN ->
  scm_x_map_window_x window w =
    if Z.land (xwindow_state x) XWINDOW_STATE_UNMAPPED =? 0
    then (Throw (win_state_error "x-map-window!" window (xwindow_state x)),
          w)
    else (Ok SCM_UNSPECIFIED,
          set_trace
            (fun t => t ++ [XMapWindow (xdisplay_dsp d) (xwindow_win x)])
            (set_blocks
               <[p := B_xwindow (with_xwindow_state XWINDOW_STATE_MAPPED x)]>
               w)).
Proof.
  intros Hx Hd Hs. unfold scm_x_map_window_x, bind at 1.
  rewrite (valid_dsp_on_window _ _ _ _ _ _ _ _ _ Hx Hd), Hs.
  change (Z.land XDISPLAY_STATE_OPEN XDISPLAY_STATE_OPEN =? 0) with false.
  cbv beta iota. unfold XDISPLAY, bind at 1.
  destruct Hd as (Ht' & Hp' & Hb'). unfold SCM_SMOB_DATA at 1. rewrite Hp'.
  unfold bind at 1. rewrite (valid_win_run _ _ _ _ _ _ _ Hx).
  destruct (Z.land _ _ =? 0); [reflexivity|].
  destruct Hx as (Ht & Hp & Hb).
  assert (p <> pd) by (intros ->; congruence).
  mrun. reflexivity.
Qed.

Lemma unmap_window_run w window p x pd d :
  is_xwindow w window p x -> is_xdisplay w (xwindow_dsp x) pd d ->
  xdisplay_state d = XDISPLAY_STATE_OPEN ->
  scm_x_unmap_window_x window w =
    if Z.land (xwindow_state x) XWINDOW_STATE_MAPPED =? 0
    then (Throw (win_state_error "x-unmap-window!" window (xwindow_state x)),
          w)
    else (Ok SCM_UNSPECIFIED,
          set_trace
            (fun t => t ++ [XUnmapWindow (xdisplay_dsp d) (xwindow_win x)])
            (set_blocks
               <[p := B_xwindow
                        (with_xwindow_state XWINDOW_STATE_UNMAPPED x)]>
               w)).
Proof.
  intros Hx Hd Hs. unfold scm_x_unmap_window_x, bind at 1.
  rewrite (valid_dsp_on_window _ _ _ _ _ _ _ _ _ Hx Hd), Hs.
  change (Z.land XDISPLAY_STATE_OPEN XDISPLAY_STATE_OPEN =? 0) with false.
  cbv beta iota. unfold XDISPLAY, bind at 1.
  destruct Hd as (Ht' & Hp' & Hb'). unfold SCM_SMOB_DATA at 1. rewrite Hp'.
  unfold bind at 1. rewrite (valid_win_run _ _ _ _ _ _ _ Hx).
  destruct (Z.land _ _ =? 0); [reflexivity|].
  destruct Hx as (Ht & Hp & Hb).
  assert (p <> pd) by (intros ->; congruence).
  mrun. reflexivity.
Qed.

(** C10.  x-map-window! on an Unmapped window and x-unmap-window! on a
    Mapped one change the state field of the window structure and nothing
    else of the heap: the window keeps its display and its id, every cell
    and every other structure (the display's among them, with its state
    and its cached GC) is as before, and so is the resource-id table. *)
Theorem map_unmap_frame w window p x pd d :
  is_xwindow w window p x ->
  is_xdisplay w (xwindow_dsp x) pd d ->
  xdisplay_state d = XDISPLAY_STATE_OPEN ->
  (xwindow_state x = XWINDOW_STATE_UNMAPPED ->
   exists w1,
     scm_x_map_window_x window w = (Ok SCM_UNSPECIFIED, w1) /\
     window_state_set w w1 p XWINDOW_STATE_MAPPED /\
     is_xdisplay w1 (xwindow_dsp x) pd d /\
     trace w1 = trace w ++ [XMapWindow (xdisplay_dsp d) (xwindow_win x)]) /\
  (xwindow_state x = XWINDOW_STATE_MAPPED ->
   exists w1,
     scm_x_unmap_window_x window w = (Ok SCM_UNSPECIFIED, w1) /\
     window_state_set w w1 p XWINDOW_STATE_UNMAPPED /\
     is_xdisplay w1 (xwindow_dsp x) pd d /\
     trace w1 = trace w ++ [XUnmapWindow (xdisplay_dsp d) (xwindow_win x)]).
Proof.
  intros Hx Hd Hs.
  assert (Hne : p <> pd)
    by (destruct Hx as (_ & _ & ?), Hd as (_ & _ & ?); intros ->; congruence).
  split; intros Hw.
  - rewrite (map_window_run _ _ _ _ _ _ Hx Hd Hs), Hw. eexists.
    split; [reflexivity|]. destruct Hx as (Ht & Hp & Hb).
    split; [by apply window_state_set_intro|]. split; [|reflexivity].
    destruct Hd as (Ht' & Hp' & Hb').
    repeat split; autorewrite with heap; try done.
    simpl. by rewrite lookup_insert_ne.
  - rewrite (unmap_window_run _ _ _ _ _ _ Hx Hd Hs), Hw. eexists.
    split; [reflexivity|]. destruct Hx as (Ht & Hp & Hb).
    split; [by apply window_state_set_intro|]. split; [|reflexivity].
    destruct Hd as (Ht' & Hp' & Hb').
    repeat split; autorewrite with heap; try done.
    simpl. by rewrite lookup_insert_ne.
Qed.

Lemma map_unmap_frame_witness :
  is_xwindow demo_world demo_window 2%positive demo_xwindow /\
  is_xdisplay demo_world demo_display 1%positive demo_xdisplay /\
  exists w1,
    scm_x_map_window_x demo_window demo_world = (Ok SCM_UNSPECIFIED, w1) /\
    window_state_set demo_world w1 2%positive XWINDOW_STATE_MAPPED /\
    is_xdisplay w1 demo_display 1%positive demo_xdisplay /\
    trace w1 = trace demo_world ++ [XMapWindow 1000 43].
Proof.
  assert (Hx : is_xwindow demo_world demo_window 2%positive demo_xwindow)
    by (repeat split; vm_compute; reflexivity).
  assert (Hd : is_xdisplay demo_world (xwindow_dsp demo_xwindow) 1%positive
                 demo_xdisplay)
    by (repeat split; vm_compute; reflexivity).
  split; [exact Hx|]. split; [exact Hd|].
  destruct (map_unmap_frame demo_world demo_window 2%positive demo_xwindow
              1%positive demo_xdisplay Hx Hd eq_refl) as (Hmap & _).
  exact (Hmap eq_refl).
Defined.

(** * The messages of the state checks *)

Lemma win_state_error_inj f x s1 s2 :
  s1 ∈ xwindow_states -> s2 ∈ xwindow_states ->
  win_state_error f x s1 = win_state_error f x s2 -> s1 = s2.
Proof.
  unfold xwindow_states. rewrite !elem_of_cons, !elem_of_nil.
  intros H1 H2 H. destruct_or!; subst; try reflexivity; try contradiction;
    vm_compute in H; discriminate.
Qed.

Lemma gc_state_error_inj f x s1 s2 :
  s1 ∈ xgc_states -> s2 ∈ xgc_states ->
  gc_state_error f x s1 = gc_state_error f x s2 -> s1 = s2.
Proof.
  unfold xgc_states. rewrite !elem_of_cons, !elem_of_nil.
  intros H1 H2 H. destruct_or!; subst; try reflexivity; try contradiction;
    vm_compute in H; discriminate.
Qed.

Lemma display_check_fails_closed d e :
  e = XDISPLAY_STATE_OPEN \/ e = XDISPLAY_STATE_ANY ->
  xdisplay_state d = XDISPLAY_STATE_OPEN \/
  xdisplay_state d = XDISPLAY_STATE_CLOSED ->
  Z.land (xdisplay_state d) e = 0 ->
  xdisplay_state d = XDISPLAY_STATE_CLOSED /\ e = XDISPLAY_STATE_OPEN.
Proof.
  intros [->| ->] [->| ->]; vm_compute; intros; split; congruence.
Qed.

(** C8.  A failed state check raises the error that goes with the state
    the object is in: for a window and for a GC the error is a function
    of the actual state, with a message of its own for each state (already
    unmapped, already mapped, destroyed, third party, pixmap; default,
    created, freed).  The display check, with the masks the primitives
    pass (Open, or Any for x-display-of), fails on a Closed display only,
    and says so: "Display has been closed"; this whether the argument is
    the display itself or a window or a GC on it.  (For any mask, the
    message of the display check is [dsp_state_error] of the mask.) *)
Theorem state_errors_classified :
  (forall w x p xw pos e f,
     is_xwindow w x p xw -> Z.land (xwindow_state xw) e = 0 ->
     valid_win x pos e f w =
       (Throw (win_state_error f x (xwindow_state xw)), w)) /\
  (forall w x p g pos e f,
     is_xgc w x p g -> Z.land (xgc_state g) e = 0 ->
     valid_gc x pos e f w =
       (Throw (gc_state_error f x (xgc_state g)), w)) /\
  (forall f x s1 s2,
     s1 ∈ xwindow_states -> s2 ∈ xwindow_states ->
     win_state_error f x s1 = win_state_error f x s2 -> s1 = s2) /\
  (forall f x s1 s2,
     s1 ∈ xgc_states -> s2 ∈ xgc_states ->
     gc_state_error f x s1 = gc_state_error f x s2 -> s1 = s2) /\
  (forall f x,
     win_state_error f x XWINDOW_STATE_MAPPED =
       misc_error f "Window ~S is already mapped" [x] /\
     win_state_error f x XWINDOW_STATE_DESTROYED =
       misc_error f "Window ~S has been destroyed" [x] /\
     win_state_error f x XWINDOW_STATE_THIRD_PARTY =
       misc_error f "Window ~S belongs to a third party" [x] /\
     win_state_error f x XWINDOW_STATE_PIXMAP =
       misc_error f "Window ~S is a pixmap" [x] /\
     gc_state_error f x XGC_STATE_DEFAULT =
       misc_error f "GC ~S is the default GC" [x] /\
     gc_state_error f x XGC_STATE_FREED =
       misc_error f "GC ~S has been freed" [x]) /\
  (forall w x p d pos e f,
     is_xdisplay w x p d ->
     e = XDISPLAY_STATE_OPEN \/ e = XDISPLAY_STATE_ANY ->
     xdisplay_state d = XDISPLAY_STATE_OPEN \/
     xdisplay_state d = XDISPLAY_STATE_CLOSED ->
     Z.land (xdisplay_state d) e = 0 ->
     xdisplay_state d = XDISPLAY_STATE_CLOSED /\
     valid_dsp x pos e f w =
       (Throw (misc_error f "Display ~S has been closed" [x]), w)) /\
  (forall w x p xw pd d pos e f,
     is_xwindow w x p xw -> is_xdisplay w (xwindow_dsp xw) pd d ->
     e = XDISPLAY_STATE_OPEN \/ e = XDISPLAY_STATE_ANY ->
     xdisplay_state d = XDISPLAY_STATE_OPEN \/
     xdisplay_state d = XDISPLAY_STATE_CLOSED ->
     Z.land (xdisplay_state d) e = 0 ->
     xdisplay_state d = XDISPLAY_STATE_CLOSED /\
     valid_dsp x pos e f w =
       (Throw (misc_error f "Display ~S has been closed" [x]), w)) /\
  (forall w x p g pd d pos e f,
     is_xgc w x p g -> is_xdisplay w (xgc_dsp g) pd d ->
     e = XDISPLAY_STATE_OPEN \/ e = XDISPLAY_STATE_ANY ->
     xdisplay_state d = XDISPLAY_STATE_OPEN \/
     xdisplay_state d = XDISPLAY_STATE_CLOSED ->
     Z.land (xdisplay_state d) e = 0 ->
     xdisplay_state d = XDISPLAY_STATE_CLOSED /\
     valid_dsp x pos e f w =
       (Throw (misc_error f "Display ~S has been closed" [x]), w)) /\
  (forall w x p d pos e f,
     is_xdisplay w x p d -> Z.land (xdisplay_state d) e = 0 ->
     valid_dsp x pos e f w = (Throw (dsp_state_error f x e), w)).
Proof.
  split; [|split; [|split; [|split; [|split; [|split; [|split; [|split]]]]]]].
  - intros * Hx He. rewrite (valid_win_run _ _ _ _ _ _ _ Hx), He. done.
  - intros * Hg He. rewrite (valid_gc_run _ _ _ _ _ _ _ Hg), He. done.
  - apply win_state_error_inj.
  - apply gc_state_error_inj.
  - intros. repeat split.
  - intros * Hd He Hs Hz.
    destruct (display_check_fails_closed _ _ He Hs Hz) as [Hc ->].
    split; [done|].
    rewrite (valid_dsp_on_display _ _ _ _ _ _ _ Hd), Hz. done.
  - intros * Hx Hd He Hs Hz.
    destruct (display_check_fails_closed _ _ He Hs Hz) as [Hc ->].
    split; [done|].
    rewrite (valid_dsp_on_window _ _ _ _ _ _ _ _ _ Hx Hd), Hz. done.
  - intros * Hg Hd He Hs Hz.
    destruct (display_check_fails_closed _ _ He Hs Hz) as [Hc ->].
    split; [done|].
    rewrite (valid_dsp_on_gc _ _ _ _ _ _ _ _ _ Hg Hd), Hz. done.
  - intros * Hd Hz.
    rewrite (valid_dsp_on_display _ _ _ _ _ _ _ Hd), Hz. done.
Qed.

Lemma state_errors_classified_witness :
  valid_win demo_window SCM_ARG1 XWINDOW_STATE_MAPPED "x-unmap-window!"
    demo_world =
    (Throw (misc_error "x-unmap-window!" "Window ~S is already unmapped"
              [demo_window]), demo_world) /\
  valid_gc demo_gc SCM_ARG1 XGC_STATE_DEFAULT "f" demo_world =
    (Throw (misc_error "f" "GC ~S is a created GC" [demo_gc]), demo_world) /\
  valid_dsp demo_window SCM_ARG1 XDISPLAY_STATE_OPEN "x-map-window!"
    demo_world_closed =
    (Throw (misc_error "x-map-window!" "Display ~S has been closed"
              [demo_window]), demo_world_closed).
Proof.
  destruct state_errors_classified
    as (Hw & Hg & _ & _ & _ & _ & Hd & _ & _).
  split; [|split].
  - apply (Hw demo_world demo_window 2%positive demo_xwindow);
      [repeat split; vm_compute; reflexivity | reflexivity].
  - apply (Hg demo_world demo_gc 4%positive demo_xgc);
      [repeat split; vm_compute; reflexivity | reflexivity].
  - apply (Hd demo_world_closed demo_window 2%positive demo_xwindow
             1%positive
             (with_xdisplay_state XDISPLAY_STATE_CLOSED demo_xdisplay));
      [repeat split; vm_compute; reflexivity
      | repeat split; vm_compute; reflexivity
      | left; reflexivity | right; reflexivity | reflexivity].
Defined.

(** * Opening a display *)

Lemma fresh_block (w : world) : blocks w !! fresh (dom (blocks w)) = None.
Proof. apply not_elem_of_dom, is_fresh. Qed.

Lemma fresh_cell (w : world) : cells w !! fresh (dom (cells w)) = None.
Proof. apply not_elem_of_dom, is_fresh. Qed.

Lemma open_display_run X w host name :
  host = SCM_UNDEFINED /\ name = None \/
  (exists s, host = SCM_STRING s /\ name = Some s) ->
  scm_x_open_display_x X host w =
    let h := XOpenDisplay_ret X (trace w) name in
    let p := fresh (dom (blocks w)) in
    let a := fresh (dom (cells w)) in
    if h =? 0 then
      (Throw (misc_error "x-open-display!" "Failed to open X display on ~S"
                [host]),
       set_trace (fun t => t ++ [XOpenDisplay name]) w)
    else
      (Ok (SCM_CELL a),
       {| cells := <[a := {| cell_typ16 := scm_tc16_xdisplay;
                             cell_data := p |}]> (cells w);
          blocks := <[p := B_xdisplay
                             {| xdisplay_dsp := h;
                                xdisplay_state := XDISPLAY_STATE_OPEN;
                                xdisplay_gc := SCM_BOOL_F |}]> (blocks w);
          resource_id_hash := resource_id_hash w;
          trace := trace w ++ [XOpenDisplay name] |}).
Proof.
  pose proof (fresh_block w) as Hf.
  intros [[-> ->]| (s & -> & ->)]; unfold scm_x_open_display_x,
    scm_to_utf8_stringn; mrun;
    (destruct (_ =? 0); unfold set_blocks, set_trace, set_cells; simpl;
     rewrite !insert_insert_eq; [rewrite delete_insert_id by done|];
     reflexivity).
Qed.

(** C9.  When XOpenDisplay answers NULL, x-open-display! raises "Failed to
    open X display": no value comes back, and but for the XOpenDisplay
    call in the trace the world is as before (the structure that was
    allocated is freed, no smob cell was made, the resource-id table is
    untouched).  When it answers a handle, the result is a new display
    smob, Open, with no cached default GC. *)
Theorem open_display_atomic X w host name :
  host = SCM_UNDEFINED /\ name = None \/
  (exists s, host = SCM_STRING s /\ name = Some s) ->
  (XOpenDisplay_ret X (trace w) name = 0 ->
   scm_x_open_display_x X host w =
     (Throw (misc_error "x-open-display!" "Failed to open X display on ~S"
               [host]),
      {| cells := cells w; blocks := blocks w;
         resource_id_hash := resource_id_hash w;
         trace := trace w ++ [XOpenDisplay name] |})) /\
  (XOpenDisplay_ret X (trace w) name <> 0 ->
   exists a p w1,
     scm_x_open_display_x X host w = (Ok (SCM_CELL a), w1) /\
     cells w !! a = None /\ blocks w !! p = None /\
     cells w1 = <[a := {| cell_typ16 := scm_tc16_xdisplay;
                          cell_data := p |}]> (cells w) /\
     blocks w1 =
       <[p := B_xdisplay
                {| xdisplay_dsp := XOpenDisplay_ret X (trace w) name;
                   xdisplay_state := XDISPLAY_STATE_OPEN;
                   xdisplay_gc := SCM_BOOL_F |}]> (blocks w) /\
     resource_id_hash w1 = resource_id_hash w /\
     trace w1 = trace w ++ [XOpenDisplay name]).
Proof.
  intros Hh. rewrite (open_display_run _ _ _ _ Hh). cbv zeta. split.
  - intros ->. reflexivity.
  - intros Hz. apply Z.eqb_neq in Hz. rewrite Hz.
    eexists _, _, _. split; [reflexivity|].
    split; [apply fresh_cell|]. split; [apply fresh_block|]. done.
Qed.

Lemma open_display_atomic_witness :
  scm_x_open_display_x failing_xlib (SCM_STRING "nowhere:0") init_world =
    (Throw (misc_error "x-open-display!" "Failed to open X display on ~S"
              [SCM_STRING "nowhere:0"]),
     {| cells := cells init_world; blocks := blocks init_world;
        resource_id_hash := resource_id_hash init_world;
        trace := trace init_world ++ [XOpenDisplay (Some "nowhere:0")] |}) /\
  exists a p w1,
    scm_x_open_display_x demo_xlib SCM_UNDEFINED init_world =
      (Ok (SCM_CELL a), w1) /\
    cells init_world !! a = None /\ blocks init_world !! p = None /\
    cells w1 = <[a := {| cell_typ16 := scm_tc16_xdisplay;
                         cell_data := p |}]> (cells init_world) /\
    blocks w1 =
      <[p := B_xdisplay
               {| xdisplay_dsp :=
                    XOpenDisplay_ret demo_xlib (trace init_world) None;
                  xdisplay_state := XDISPLAY_STATE_OPEN;
                  xdisplay_gc := SCM_BOOL_F |}]> (blocks init_world) /\
    resource_id_hash w1 = resource_id_hash init_world /\
    trace w1 = trace init_world ++ [XOpenDisplay None].
Proof.
  split.
  - destruct (open_display_atomic failing_xlib init_world
                (SCM_STRING "nowhere:0") (Some "nowhere:0")) as (Hnull & _).
    + right. by exists "nowhere:0".
    + exact (Hnull eq_refl).
  - destruct (open_display_atomic demo_xlib init_world SCM_UNDEFINED None)
      as (_ & Hopen).
    + left. by split.
    + apply Hopen. vm_compute. discriminate.
Defined.

(** * Resolving a resource id *)

Lemma lookup_window_run display id func w :
  lookup_window display id func w =
    if id =? XID_None then (Ok SCM_BOOL_F, w)
    else
      let window :=
        default SCM_BOOL_F (resource_id_hash w !! int_of_XID id) in
      if bool_decide (window = SCM_BOOL_F)
         || negb (bool_decide (typ16_of w window = scm_tc16_xwindow))
      then
        let p := fresh (dom (blocks w)) in
        let a := fresh (dom (cells w)) in
        (Ok (SCM_CELL a),
         {| cells := <[a := {| cell_typ16 := scm_tc16_xwindow;
                               cell_data := p |}]> (cells w);
            blocks := <[p := B_xwindow (third_party display id)]> (blocks w);
            resource_id_hash :=
              <[int_of_XID id := SCM_CELL a]> (resource_id_hash w);
            trace := trace w |})
      else (Ok window, w).
Proof.
  unfold lookup_window. destruct (id =? XID_None); [reflexivity|].
  mrun. destruct (_ || _); [|reflexivity].
  pose proof (fresh_block w) as Hf. mrun.
  unfold set_blocks, set_trace, set_cells, set_hash; simpl.
  by rewrite !insert_insert_eq.
Qed.

Lemma typ16_of_new_cell m b h t a c :
  typ16_of
    {| cells := <[a := c]> m; blocks := b;
       resource_id_hash := h; trace := t |}
    (SCM_CELL a) = cell_typ16 c.
Proof. unfold typ16_of. simpl. by rewrite lookup_insert_eq. Qed.

(** C2.  [lookup_window] on the null id answers #f and makes nothing.  On
    an id whose table entry is a live window smob it answers that smob and
    changes nothing.  Otherwise (no entry, or an entry that is no window
    smob any more) it makes a new window smob, ThirdParty, on the display
    it was given, stores it under the id and answers it.  Resolving the
    same id once more answers the very same smob. *)
Theorem lookup_window_contract display id func w :
  lookup_window display XID_None func w = (Ok SCM_BOOL_F, w) /\
  (forall win,
     id <> XID_None ->
     resource_id_hash w !! int_of_XID id = Some win ->
     typ16_of w win = scm_tc16_xwindow ->
     lookup_window display id func w = (Ok win, w)) /\
  (id <> XID_None ->
   resource_id_hash w !! int_of_XID id = None \/
   (exists v, resource_id_hash w !! int_of_XID id = Some v /\
              typ16_of w v <> scm_tc16_xwindow) ->
   exists a p w1,
     lookup_window display id func w = (Ok (SCM_CELL a), w1) /\
     cells w !! a = None /\ blocks w !! p = None /\
     cells w1 = <[a := {| cell_typ16 := scm_tc16_xwindow;
                          cell_data := p |}]> (cells w) /\
     blocks w1 = <[p := B_xwindow (third_party display id)]> (blocks w) /\
     resource_id_hash w1 =
       <[int_of_XID id := SCM_CELL a]> (resource_id_hash w) /\
     trace w1 = trace w /\
     is_xwindow w1 (SCM_CELL a) p (third_party display id)) /\
  (forall display' func',
     id <> XID_None ->
     lookup_window display' id func'
       (snd (lookup_window display id func w)) =
     lookup_window display id func w).
Proof.
  split; [reflexivity|]. split; [|split].
  - intros win Hid Hh Ht. rewrite lookup_window_run.
    apply Z.eqb_neq in Hid. rewrite Hid. cbv zeta. rewrite Hh. simpl.
    rewrite Ht. rewrite (bool_decide_eq_true_2 _ eq_refl). simpl.
    rewrite bool_decide_eq_false_2; [done|].
    intros ->. by compute in Ht.
  - intros Hid Hh. rewrite lookup_window_run.
    apply Z.eqb_neq in Hid. rewrite Hid. cbv zeta.
    assert ((bool_decide
               (default SCM_BOOL_F (resource_id_hash w !! int_of_XID id)
                = SCM_BOOL_F)
             || negb (bool_decide
                        (typ16_of w
                           (default SCM_BOOL_F
                              (resource_id_hash w !! int_of_XID id))
                         = scm_tc16_xwindow))) = true) as ->.
    { destruct Hh as [->| (v & -> & Hv)]; simpl; [done|].
      rewrite (bool_decide_eq_false_2 _ Hv). apply orb_true_r. }
    eexists _, _, _. split; [reflexivity|].
    split; [apply fresh_cell|]. split; [apply fresh_block|].
    repeat split; simpl; try apply lookup_insert_eq.
    + apply typ16_of_new_cell.
    + unfold smob_data_of. simpl. by rewrite lookup_insert_eq.
  - intros display' func' Hid. apply Z.eqb_neq in Hid.
    rewrite (lookup_window_run display id func w), Hid. cbv zeta.
    destruct (bool_decide _ || negb _) eqn:Hc; simpl;
      rewrite lookup_window_run, Hid; cbv zeta; simpl.
    + rewrite lookup_insert_eq. simpl.
      rewrite typ16_of_new_cell. simpl. done.
    + rewrite Hc. done.
Qed.

Lemma lookup_window_contract_witness :
  lookup_window demo_display 43 "x-next-event!" demo_world =
    (Ok demo_window, demo_world) /\
  exists a p w1,
    lookup_window demo_display 1 "x-root-window" demo_world =
      (Ok (SCM_CELL a), w1) /\
    cells demo_world !! a = None /\ blocks demo_world !! p = None /\
    cells w1 = <[a := {| cell_typ16 := scm_tc16_xwindow;
                         cell_data := p |}]> (cells demo_world) /\
    blocks w1 =
      <[p := B_xwindow (third_party demo_display 1)]> (blocks demo_world) /\
    resource_id_hash w1 =
      <[int_of_XID 1 := SCM_CELL a]> (resource_id_hash demo_world) /\
    trace w1 = trace demo_world /\
    is_xwindow w1 (SCM_CELL a) p (third_party demo_display 1).
Proof.
  split.
  - destruct (lookup_window_contract demo_display 43 "x-next-event!"
                demo_world) as (_ & Hlive & _).
    apply Hlive; vm_compute; done.
  - destruct (lookup_window_contract demo_display 1 "x-root-window"
                demo_world) as (_ & _ & Hnew & _).
    apply Hnew; [vm_compute; done | left; vm_compute; done].
Defined.

(** * The sweep *)

Lemma destroy_window_step w x :
  hook_step w (snd (scm_x_destroy_window_x x w)).
Proof.
  unfold scm_x_destroy_window_x. cbv zeta. unfold bind at 1.
  destruct (valid_dsp _ _ _ _ w) as [r1 w1] eqn:E1.
  apply valid_dsp_inv in E1 as [-> H1].
  destruct r1 as [display1|]; [|constructor].
  destruct (H1 _ eq_refl) as (pd & d & (Ht & Hp & Hb) & Hopen).
  unfold XDISPLAY, bind at 1. unfold SCM_SMOB_DATA at 1. rewrite Hp.
  unfold bind at 1.
  destruct (valid_win _ _ _ _ w) as [r2 w2] eqn:E2.
  apply valid_win_inv in E2 as [-> H2].
  destruct r2 as [pw|]; [|constructor].
  destruct (H2 _ eq_refl) as (xw & (Ht' & Hp' & Hb') & _).
  assert (pw <> pd) by congruence.
  mrun.
  eapply hook_destroy; eauto.
Qed.

Lemma free_gc_step w x : hook_step w (snd (scm_x_free_gc_x x w)).
Proof.
  unfold scm_x_free_gc_x. cbv zeta. unfold bind at 1.
  destruct (valid_dsp _ _ _ _ w) as [r1 w1] eqn:E1.
  apply valid_dsp_inv in E1 as [-> H1].
  destruct r1 as [display1|]; [|constructor].
  destruct (H1 _ eq_refl) as (pd & d & (Ht & Hp & Hb) & Hopen).
  unfold XDISPLAY, bind at 1. unfold SCM_SMOB_DATA at 1. rewrite Hp.
  unfold bind at 1.
  destruct (valid_gc _ _ _ _ w) as [r2 w2] eqn:E2.
  apply valid_gc_inv in E2 as [-> H2].
  destruct r2 as [pg|]; [|constructor].
  destruct (H2 _ eq_refl) as (g & (Ht' & Hp' & Hb') & _).
  mrun. eapply hook_free_gc; eauto.
Qed.

Lemma xdisplay_free_step w x :
  typ16_of w x = scm_tc16_xdisplay -> hook_step w (snd (xdisplay_free x w)).
Proof.
  intros Ht.
  destruct (smob_data_of w x) as [p|] eqn:Hp;
    [destruct (blocks w !! p ≫= as_xdisplay) as [d|] eqn:Hb|].
  - assert (Hd : is_xdisplay w x p d) by (repeat split; auto).
    rewrite (xdisplay_free_run _ _ _ _ Hd).
    destruct (_ =? _) eqn:Hs; [|constructor]. apply Z.eqb_eq in Hs.
    rewrite (close_display_open _ _ _ _ Hd Hs). simpl.
    destruct Hd as (_ & _ & ?). by apply hook_close.
  - unfold xdisplay_free. mrun. rewrite Hb. constructor.
  - unfold xdisplay_free. mrun. constructor.
Qed.

Lemma xwindow_free_step w x : hook_step w (snd (xwindow_free x w)).
Proof.
  pose proof (destroy_window_step w x) as Hc. unfold xwindow_free.
  set (c := scm_x_destroy_window_x x) in *. clearbody c. mrun.
  repeat case_match; simplify_eq; simpl in *; try (by constructor);
    match goal with H : c _ = _ |- _ => by rewrite H in Hc end.
Qed.

Lemma xgc_free_step w x : hook_step w (snd (xgc_free x w)).
Proof.
  pose proof (free_gc_step w x) as Hc. unfold xgc_free.
  set (c := scm_x_free_gc_x x) in *. clearbody c. mrun.
  repeat case_match; simplify_eq; simpl in *; try (by constructor);
    match goal with H : c _ = _ |- _ => by rewrite H in Hc end.
Qed.

Lemma smob_free_step w x : hook_step w (snd (smob_free x w)).
Proof.
  unfold smob_free, SCM_TYP16, gets, bind at 1.
  destruct (typ16_of w x) eqn:Ht; try constructor.
  - pose proof (xdisplay_free_step w x Ht) as H. unfold bind, ret.
    by destruct (xdisplay_free x w) as [[] ?].
  - pose proof (xwindow_free_step w x) as H. unfold bind, ret.
    by destruct (xwindow_free x w) as [[] ?].
  - pose proof (xgc_free_step w x) as H. unfold bind, ret.
    by destruct (xgc_free x w) as [[] ?].
Qed.

Lemma release_after_close_snoc ev c :
  release_after_close (ev ++ [c]) ->
  release_after_close ev \/ exists h, is_release h c /\ XCloseDisplay h ∈ ev.
Proof.
  intros (i & j & h & c' & Hij & Hi & Hj & Hr).
  assert (Hjl : (j < length (ev ++ [c]))%nat) by (eapply lookup_lt_Some; eauto).
  rewrite length_app in Hjl. simpl in Hjl.
  rewrite lookup_app_l in Hi by lia.
  destruct (decide (j < length ev)%nat) as [Hlt|Hge].
  - left. rewrite lookup_app_l in Hj by done. by exists i, j, h, c'.
  - right. assert (j = length ev) as -> by lia.
    rewrite list_lookup_middle in Hj by done. simplify_eq.
    exists h. split; [done|]. by eapply list_elem_of_lookup_2.
Qed.

Lemma open_display_block_insert w w' p b h q :
  blocks w' = <[p := b]> (blocks w) ->
  (forall d, b <> B_xdisplay d) ->
  open_display_block w' q h -> open_display_block w q h.
Proof.
  intros Hb Hn (d & Hq & Ho & Hh). rewrite Hb in Hq.
  destruct (decide (p = q)) as [->|Hne].
  - rewrite lookup_insert_eq in Hq. simplify_eq. by destruct (Hn d).
  - rewrite lookup_insert_ne in Hq by done. by exists d.
Qed.

Lemma sweep_inv_step t0 w ev w' :
  sweep_inv t0 w ev -> hook_step w w' -> exists ev', sweep_inv t0 w' ev'.
Proof.
  intros (Ht & Hdist & Hclosed & Hsafe) Hstep.
  destruct Hstep as [|p d Hb Hs|pd d pw x Hb Ho Hw|pd d pg g Hb Ho Hg].
  - by exists ev.
  - exists (ev ++ [XCloseDisplay (xdisplay_dsp d)]).
    assert (Hsub : forall q h,
      open_display_block
        (set_trace (fun t => t ++ [XCloseDisplay (xdisplay_dsp d)])
           (set_blocks
              <[p := B_xdisplay
                       (with_xdisplay_state XDISPLAY_STATE_CLOSED d)]> w))
        q h ->
      q <> p /\ open_display_block w q h).
    { intros q h (d' & Hq & Ho' & Hh). simpl in Hq.
      destruct (decide (p = q)) as [->|Hne].
      - rewrite lookup_insert_eq in Hq.
        injection Hq as <-. by destruct Ho'.
      - rewrite lookup_insert_ne in Hq by done. split; [done|].
        by exists d'. }
    repeat split.
    + simpl. by rewrite Ht, app_assoc.
    + intros p1 p2 h H1 H2. apply Hsub in H1 as [_ H1].
      apply Hsub in H2 as [_ H2]. by eapply Hdist.
    + intros h Hin q Hq. apply Hsub in Hq as [Hne Hq].
      apply elem_of_app in Hin as [Hin|Hin].
      * by eapply Hclosed.
      * apply list_elem_of_singleton in Hin. simplify_eq. apply Hne.
        eapply Hdist; [exact Hq|]. exists d. rewrite Hs. done.
    + intros Hr. apply release_after_close_snoc in Hr as [?|(h & Hr & _)];
        [done|]. destruct Hr as (id & [?|?]); discriminate.
  - exists (ev ++ [XDestroyWindow (xdisplay_dsp d) (xwindow_win x)]).
    assert (Hsub : forall q h,
      open_display_block
        (set_trace
           (fun t => t ++ [XDestroyWindow (xdisplay_dsp d) (xwindow_win x)])
           (set_blocks
              <[pw := B_xwindow
                        (with_xwindow_state XWINDOW_STATE_DESTROYED x)]> w))
        q h -> open_display_block w q h).
    { intros q h. by apply open_display_block_insert with (p := pw)
        (b := B_xwindow (with_xwindow_state XWINDOW_STATE_DESTROYED x)). }
    repeat split.
    + simpl. by rewrite Ht, app_assoc.
    + intros p1 p2 h H1 H2. apply Hsub in H1. apply Hsub in H2.
      by eapply Hdist.
    + intros h Hin q Hq. apply Hsub in Hq.
      apply elem_of_app in Hin as [Hin|Hin]; [by eapply Hclosed|].
      apply list_elem_of_singleton in Hin. discriminate.
    + intros Hr. apply release_after_close_snoc in Hr as [?|(h & Hr & Hin)];
        [done|]. destruct Hr as (id & [?|?]); simplify_eq.
      eapply Hclosed; [exact Hin|]. by exists d.
  - exists (ev ++ [XFreeGC (xdisplay_dsp d) (xgc_gc g)]).
    assert (Hsub : forall q h,
      open_display_block
        (set_blocks <[pg := B_xgc (with_xgc_state XGC_STATE_FREED g)]>
           (set_trace
              (fun t => t ++ [XFreeGC (xdisplay_dsp d) (xgc_gc g)]) w))
        q h -> open_display_block w q h).
    { intros q h. by apply open_display_block_insert with (p := pg)
        (b := B_xgc (with_xgc_state XGC_STATE_FREED g)). }
    repeat split.
    + simpl. by rewrite Ht, app_assoc.
    + intros p1 p2 h H1 H2. apply Hsub in H1. apply Hsub in H2.
      by eapply Hdist.
    + intros h Hin q Hq. apply Hsub in Hq.
      apply elem_of_app in Hin as [Hin|Hin]; [by eapply Hclosed|].
      apply list_elem_of_singleton in Hin. discriminate.
    + intros Hr. apply release_after_close_snoc in Hr as [?|(h & Hr & Hin)];
        [done|]. destruct Hr as (id & [?|?]); simplify_eq.
      eapply Hclosed; [exact Hin|]. by exists d.
Qed.

Lemma sweep_inv_free_cell t0 w ev a :
  sweep_inv t0 w ev -> sweep_inv t0 (free_cell a w) ev.
Proof. intros H. exact H. Qed.

Lemma sweep_inv_sweep garbage : forall t0 w ev,
  sweep_inv t0 w ev -> exists ev', sweep_inv t0 (gc_sweep garbage w) ev'.
Proof.
  induction garbage as [|a garbage IH]; intros t0 w ev Hinv.
  - by exists ev.
  - change (gc_sweep (a :: garbage) w)
      with (gc_sweep garbage (sweep_cell w a)).
    destruct (sweep_inv_step _ _ _ _ Hinv
                (smob_free_step w (SCM_CELL a))) as (ev1 & H1).
    apply (IH t0 _ ev1). unfold sweep_cell. by apply sweep_inv_free_cell.
Qed.

Lemma xwindow_free_skips w win p x :
  is_xwindow w win p x ->
  typ16_of w (xwindow_dsp x) <> scm_tc16_xdisplay ->
  xwindow_free win w = (Ok 0, w).
Proof.
  intros (Ht & Hp & Hb) Hn. unfold xwindow_free.
  set (c := scm_x_destroy_window_x win). mrun.
  by rewrite (bool_decide_eq_false_2 _ Hn).
Qed.

Lemma xgc_free_skips w gc p g :
  is_xgc w gc p g ->
  typ16_of w (xgc_dsp g) <> scm_tc16_xdisplay ->
  xgc_free gc w = (Ok 0, w).
Proof.
  intros (Ht & Hp & Hb) Hn. unfold xgc_free.
  set (c := scm_x_free_gc_x gc). mrun.
  by rewrite (bool_decide_eq_false_2 _ Hn).
Qed.

Lemma xwindow_free_closed w win p x pd d :
  is_xwindow w win p x -> is_xdisplay w (xwindow_dsp x) pd d ->
  xdisplay_state d = XDISPLAY_STATE_CLOSED ->
  snd (xwindow_free win w) = w.
Proof.
  intros Hx Hd Hs.
  assert (Hc : scm_x_destroy_window_x win w =
               (Throw (misc_error "x-destroy-window!"
                         "Display ~S has been closed" [win]), w)).
  { unfold scm_x_destroy_window_x. cbv zeta. unfold bind at 1.
    by rewrite (valid_dsp_on_window _ _ _ _ _ _ _ _ _ Hx Hd), Hs. }
  destruct Hx as (Ht & Hp & Hb). unfold xwindow_free.
  set (c := scm_x_destroy_window_x win) in *. clearbody c. mrun.
  destruct (_ && _); simpl; [|reflexivity]. by rewrite Hc.
Qed.

Lemma xgc_free_closed w gc p g pd d :
  is_xgc w gc p g -> is_xdisplay w (xgc_dsp g) pd d ->
  xdisplay_state d = XDISPLAY_STATE_CLOSED ->
  snd (xgc_free gc w) = w.
Proof.
  intros Hg Hd Hs.
  assert (Hc : scm_x_free_gc_x gc w =
               (Throw (misc_error "x-free-gc!"
                         "Display ~S has been closed" [gc]), w)).
  { unfold scm_x_free_gc_x. cbv zeta. unfold bind at 1.
    by rewrite (valid_dsp_on_gc _ _ _ _ _ _ _ _ _ Hg Hd), Hs. }
  destruct Hg as (Ht & Hp & Hb). unfold xgc_free.
  set (c := scm_x_free_gc_x gc) in *. clearbody c. mrun.
  destruct (_ && _); simpl; [|reflexivity]. by rewrite Hc.
Qed.

(** C1.  A free hook of a window or of a GC whose display reference is no
    valid display smob any more does nothing at all; nor does it call
    anything when the display smob is still there but Closed.  And in a
    sweep, in whatever order the cells are taken, no XDestroyWindow or
    XFreeGC on a display is called after the XCloseDisplay of that
    display. *)
Theorem sweep_releases_before_close :
  (forall w win p x,
     is_xwindow w win p x ->
     typ16_of w (xwindow_dsp x) <> scm_tc16_xdisplay ->
     xwindow_free win w = (Ok 0, w)) /\
  (forall w gc p g,
     is_xgc w gc p g ->
     typ16_of w (xgc_dsp g) <> scm_tc16_xdisplay ->
     xgc_free gc w = (Ok 0, w)) /\
  (forall w win p x pd d,
     is_xwindow w win p x -> is_xdisplay w (xwindow_dsp x) pd d ->
     xdisplay_state d = XDISPLAY_STATE_CLOSED ->
     snd (xwindow_free win w) = w) /\
  (forall w gc p g pd d,
     is_xgc w gc p g -> is_xdisplay w (xgc_dsp g) pd d ->
     xdisplay_state d = XDISPLAY_STATE_CLOSED ->
     snd (xgc_free gc w) = w) /\
  (forall garbage w,
     handles_distinct w ->
     exists ev,
       trace (gc_sweep garbage w) = trace w ++ ev /\
       ~ release_after_close ev).
Proof.
  split; [exact xwindow_free_skips|]. split; [exact xgc_free_skips|].
  split; [exact xwindow_free_closed|]. split; [exact xgc_free_closed|].
  intros garbage w Hdist.
  destruct (sweep_inv_sweep garbage (trace w) w []) as (ev & Ht & _ & _ & Hs).
  - repeat split; [by rewrite app_nil_r | done | |].
    + intros h Hin. by apply elem_of_nil in Hin.
    + intros (i & j & h & c & _ & Hi & _). by rewrite lookup_nil in Hi.
  - by exists ev.
Qed.

Lemma demo_blocks :
  blocks demo_world =
    <[1%positive := B_xdisplay demo_xdisplay]>
      (<[2%positive := B_xwindow demo_xwindow]>
         (<[3%positive := B_xwindow demo_xpixmap]>
            (<[4%positive := B_xgc demo_xgc]> ∅))).
Proof. vm_compute. reflexivity. Qed.

Lemma demo_display_block p d :
  blocks demo_world !! p = Some (B_xdisplay d) -> p = 1%positive.
Proof.
  rewrite demo_blocks, !lookup_insert, lookup_empty.
  repeat case_decide; congruence.
Qed.

Lemma demo_handles_distinct : handles_distinct demo_world.
Proof.
  intros p1 p2 h (d1 & H1 & _) (d2 & H2 & _).
  apply demo_display_block in H1, H2. congruence.
Qed.

(** The display swept first: the hooks of the window and of the GC find a
    freed cell where their display was and call nothing. *)
Example sweep_display_first :
  trace (gc_sweep [1; 2; 3; 4]%positive demo_world) =
    trace demo_world ++ [XCloseDisplay 1000].
Proof. vm_compute. reflexivity. Qed.

(** The display swept last: window and GC are released on the open
    display, which is closed after them. *)
Example sweep_display_last :
  trace (gc_sweep [2; 4; 3; 1]%positive demo_world) =
    trace demo_world ++
      [XDestroyWindow 1000 43; XFreeGC 1000 607; XCloseDisplay 1000].
Proof. vm_compute. reflexivity. Qed.

Lemma sweep_releases_before_close_witness :
  handles_distinct demo_world /\
  (exists ev,
     trace (gc_sweep demo_garbage demo_world) = trace demo_world ++ ev /\
     ~ release_after_close ev) /\
  xwindow_free demo_window (sweep_cell demo_world 1%positive) =
    (Ok 0, sweep_cell demo_world 1%positive) /\
  xgc_free demo_gc (sweep_cell demo_world 1%positive) =
    (Ok 0, sweep_cell demo_world 1%positive).
Proof.
  destruct sweep_releases_before_close as (Hwin & Hgc & _ & _ & Hsweep).
  split; [exact demo_handles_distinct|]. split; [|split].
  - exact (Hsweep demo_garbage demo_world demo_handles_distinct).
  - apply (Hwin (sweep_cell demo_world 1%positive) demo_window 2%positive
             demo_xwindow);
      [repeat split; vm_compute; reflexivity | vm_compute; discriminate].
  - apply (Hgc (sweep_cell demo_world 1%positive) demo_gc 4%positive
             demo_xgc);
      [repeat split; vm_compute; reflexivity | vm_compute; discriminate].
Defined.

(** * Releasing a pixmap *)

Lemma destroy_window_run w window p x pd d :
  is_xwindow w window p x -> is_xdisplay w (xwindow_dsp x) pd d ->
  xdisplay_state d = XDISPLAY_STATE_OPEN ->
  scm_x_destroy_window_x window w =
    if Z.land (xwindow_state x)
         (Z.lnot (Z.lor XWINDOW_STATE_DESTROYED
                    (Z.lor XWINDOW_STATE_THIRD_PARTY XWINDOW_STATE_PIXMAP)))
       =? 0
    then (Throw (win_state_error "x-destroy-window!" window
                   (xwindow_state x)), w)
    else (Ok SCM_UNSPECIFIED,
          set_trace
            (fun t => t ++ [XDestroyWindow (xdisplay_dsp d) (xwindow_win x)])
            (set_blocks
               <[p := B_xwindow
                        (with_xwindow_state XWINDOW_STATE_DESTROYED x)]>
               w)).
Proof.
  intros Hx Hd Hs. unfold scm_x_destroy_window_x, bind at 1.
  rewrite (valid_dsp_on_window _ _ _ _ _ _ _ _ _ Hx Hd), Hs.
  change (Z.land XDISPLAY_STATE_OPEN XDISPLAY_STATE_OPEN =? 0) with false.
  cbv beta iota. unfold XDISPLAY, bind at 1.
  destruct Hd as (Ht' & Hp' & Hb'). unfold SCM_SMOB_DATA at 1. rewrite Hp'.
  unfold bind at 1. rewrite (valid_win_run _ _ _ _ _ _ _ Hx).
  destruct (Z.land _ _ =? 0); [reflexivity|].
  destruct Hx as (Ht & Hp & Hb).
  assert (p <> pd) by (intros ->; congruence).
  mrun. reflexivity.
Qed.

Lemma destroy_pixmap_world w pix p x :
  is_xwindow w pix p x -> xwindow_state x = XWINDOW_STATE_PIXMAP ->
  snd (scm_x_destroy_window_x pix w) = w.
Proof.
  intros Hx Hs. unfold scm_x_destroy_window_x. cbv zeta. unfold bind at 1.
  destruct (valid_dsp _ _ _ _ w) as [r1 w1] eqn:E1.
  apply valid_dsp_inv in E1 as [-> H1].
  destruct r1 as [display1|]; [|reflexivity].
  destruct (H1 _ eq_refl) as (pd & d & (Ht & Hp & Hb) & Hopen).
  unfold XDISPLAY, bind at 1. unfold SCM_SMOB_DATA at 1. rewrite Hp.
  unfold bind at 1. rewrite (valid_win_run _ _ _ _ _ _ _ Hx), Hs.
  reflexivity.
Qed.

Lemma free_pixmap_world w pix p x :
  is_xwindow w pix p x -> xwindow_state x = XWINDOW_STATE_PIXMAP ->
  snd (xwindow_free pix w) = w.
Proof.
  intros Hx Hs. pose proof (destroy_pixmap_world _ _ _ _ Hx Hs) as Hc.
  destruct Hx as (Ht & Hp & Hb). unfold xwindow_free.
  set (c := scm_x_destroy_window_x pix) in *. clearbody c. mrun.
  destruct (_ && _); simpl; [|reflexivity].
  by destruct (c w) as [[] ?].
Qed.

(** C4, as the code has it.  Neither x-destroy-window! on a pixmap nor the
    free hook of a pixmap calls anything or changes anything: no
    XDestroyWindow, and no pixmap-free call either.  On an open display,
    x-destroy-window! refuses the pixmap with "Window is a pixmap". *)
Theorem pixmap_release_calls_nothing w pix p x :
  is_xwindow w pix p x ->
  xwindow_state x = XWINDOW_STATE_PIXMAP ->
  snd (scm_x_destroy_window_x pix w) = w /\
  snd (xwindow_free pix w) = w /\
  calls_of (scm_x_destroy_window_x pix) w = [] /\
  calls_of (xwindow_free pix) w = [] /\
  (forall pd d,
     is_xdisplay w (xwindow_dsp x) pd d ->
     xdisplay_state d = XDISPLAY_STATE_OPEN ->
     scm_x_destroy_window_x pix w =
       (Throw (misc_error "x-destroy-window!" "Window ~S is a pixmap" [pix]),
        w)).
Proof.
  intros Hx Hs. unfold calls_of.
  rewrite (destroy_pixmap_world _ _ _ _ Hx Hs),
    (free_pixmap_world _ _ _ _ Hx Hs), drop_all.
  repeat split. intros pd d Hd Ho.
  by rewrite (destroy_window_run _ _ _ _ _ _ Hx Hd Ho), Hs.
Qed.

Lemma pixmap_release_calls_nothing_witness :
  is_xwindow demo_world demo_pixmap 3%positive demo_xpixmap /\
  snd (scm_x_destroy_window_x demo_pixmap demo_world) = demo_world /\
  snd (xwindow_free demo_pixmap demo_world) = demo_world /\
  calls_of (scm_x_destroy_window_x demo_pixmap) demo_world = [] /\
  calls_of (xwindow_free demo_pixmap) demo_world = [] /\
  (forall pd d,
     is_xdisplay demo_world (xwindow_dsp demo_xpixmap) pd d ->
     xdisplay_state d = XDISPLAY_STATE_OPEN ->
     scm_x_destroy_window_x demo_pixmap demo_world =
       (Throw (misc_error "x-destroy-window!" "Window ~S is a pixmap"
                 [demo_pixmap]), demo_world)).
Proof.
  assert (Hx : is_xwindow demo_world demo_pixmap 3%positive demo_xpixmap)
    by (repeat split; vm_compute; reflexivity).
  split; [exact Hx|].
  exact (pixmap_release_calls_nothing demo_world demo_pixmap 3%positive
           demo_xpixmap Hx eq_refl).
Defined.

(** C4, as it is worded, fails: on the pixmap of the demo session,
    with its display open, x-destroy-window! raises an error and the free
    hook returns, and neither has called XFreePixmap (nor anything). *)
Lemma pixmap_release_counterexample :
  is_xwindow demo_world demo_pixmap 3%positive demo_xpixmap /\
  is_xdisplay demo_world demo_display 1%positive demo_xdisplay /\
  scm_x_destroy_window_x demo_pixmap demo_world =
    (Throw (misc_error "x-destroy-window!" "Window ~S is a pixmap"
              [demo_pixmap]), demo_world) /\
  (XFreePixmap 1000 76
     ∉ calls_of (scm_x_destroy_window_x demo_pixmap) demo_world) /\
  (XFreePixmap 1000 76 ∉ calls_of (xwindow_free demo_pixmap) demo_world) /\
  calls_of (xwindow_free demo_pixmap) demo_world = [].
Proof.
  repeat split; try (vm_compute; reflexivity);
    vm_compute; apply not_elem_of_nil.
Qed.

(** * The state checks come first *)

(** On a window whose display has been closed, the window primitives that
    check the display raise "Display has been closed" and leave the world
    as it is. *)
Lemma closed_display_gates X valid_data w window p x pd d gc data type :
  is_xwindow w window p x -> is_xdisplay w (xwindow_dsp x) pd d ->
  xdisplay_state d = XDISPLAY_STATE_CLOSED ->
  let closed f := (Throw (misc_error f "Display ~S has been closed" [window]),
                   w) in
  scm_x_map_window_x window w = closed "x-map-window!" /\
  scm_x_unmap_window_x window w = closed "x-unmap-window!" /\
  scm_x_destroy_window_x window w = closed "x-destroy-window!" /\
  scm_x_clear_window_x window w = closed "x-clear-window!" /\
  scm_x_create_pixmap_x X window SCM_UNDEFINED (SCM_INUM 1) (SCM_INUM 1)
    (SCM_INUM 1) w = closed "x-create-pixmap!" /\
  draw valid_data window gc data type "x-draw-lines!" w =
    closed "x-draw-lines!".
Proof.
  intros Hx Hd Hs closed. subst closed.
  unfold scm_x_map_window_x, scm_x_unmap_window_x, scm_x_destroy_window_x,
    scm_x_clear_window_x, scm_x_create_pixmap_x, draw. cbv zeta.
  unfold bind at 1 5 9 13 17.
  repeat split; unfold bind at 1;
    by rewrite (valid_dsp_on_window _ _ _ _ _ _ _ _ _ Hx Hd), Hs.
Qed.

(** A window that is not in the states a primitive allows is refused with
    the error of its state, and the world is as it was. *)
Lemma window_state_gates valid_data w window p x pd d gc data type :
  is_xwindow w window p x -> is_xdisplay w (xwindow_dsp x) pd d ->
  xdisplay_state d = XDISPLAY_STATE_OPEN ->
  (xwindow_state x <> XWINDOW_STATE_UNMAPPED ->
   xwindow_state x ∈ xwindow_states ->
   scm_x_map_window_x window w =
     (Throw (win_state_error "x-map-window!" window (xwindow_state x)), w)) /\
  (xwindow_state x <> XWINDOW_STATE_MAPPED ->
   xwindow_state x ∈ xwindow_states ->
   scm_x_unmap_window_x window w =
     (Throw (win_state_error "x-unmap-window!" window (xwindow_state x)),
      w)) /\
  (xwindow_state x = XWINDOW_STATE_DESTROYED \/
   xwindow_state x = XWINDOW_STATE_THIRD_PARTY \/
   xwindow_state x = XWINDOW_STATE_PIXMAP ->
   scm_x_destroy_window_x window w =
     (Throw (win_state_error "x-destroy-window!" window (xwindow_state x)),
      w)) /\
  (xwindow_state x = XWINDOW_STATE_DESTROYED ->
   draw valid_data window gc data type "x-draw-lines!" w =
     (Throw (misc_error "x-draw-lines!" "Window ~S has been destroyed"
               [window]), w)).
Proof.
  intros Hx Hd Hs. unfold xwindow_states.
  rewrite (map_window_run _ _ _ _ _ _ Hx Hd Hs),
    (unmap_window_run _ _ _ _ _ _ Hx Hd Hs),
    (destroy_window_run _ _ _ _ _ _ Hx Hd Hs).
  rewrite !elem_of_cons, !elem_of_nil. repeat split.
  - intros Hn Hin. destruct_or!; try contradiction; by rewrite Hin.
  - intros Hn Hin. destruct_or!; try contradiction; by rewrite Hin.
  - intros Hin. destruct_or!; by rewrite Hin.
  - intros Hw. unfold draw, bind at 1.
    rewrite (valid_dsp_on_window _ _ _ _ _ _ _ _ _ Hx Hd), Hs.
    change (Z.land XDISPLAY_STATE_OPEN XDISPLAY_STATE_OPEN =? 0) with false.
    cbv beta iota. unfold XDISPLAY, bind at 1.
    destruct Hd as (Ht' & Hp' & Hb'). unfold SCM_SMOB_DATA at 1. rewrite Hp'.
    unfold bind at 1. by rewrite (valid_win_run _ _ _ _ _ _ _ Hx), Hw.
Qed.

(** C3 fails on x-copy-area!, which checks the windows and the GC but not
    the display: after x-close-display!, on the mapped window of the
    closed display, it calls XCopyArea on the closed handle. *)
Theorem copy_area_on_closed_display :
  is_xwindow demo_world_mapped_closed demo_window 2%positive
    (with_xwindow_state XWINDOW_STATE_MAPPED demo_xwindow) /\
  is_xdisplay demo_world_mapped_closed demo_display 1%positive
    (with_xdisplay_state XDISPLAY_STATE_CLOSED demo_xdisplay) /\
  trace demo_world_mapped_closed =
    trace demo_world ++ [XMapWindow 1000 43; XCloseDisplay 1000] /\
  scm_x_copy_area_x demo_window demo_window demo_gc
    (SCM_INUM 0) (SCM_INUM 0) (SCM_INUM 1) (SCM_INUM 1)
    (SCM_INUM 0) (SCM_INUM 0) demo_world_mapped_closed =
    (Ok SCM_UNSPECIFIED,
     set_trace (fun t => t ++ [XCopyArea 1000 43 43 607 0 0 1 1 0 0])
       demo_world_mapped_closed) /\
  scm_x_clear_window_x demo_window demo_world_mapped_closed =
    (Throw (misc_error "x-clear-window!" "Display ~S has been closed"
              [demo_window]), demo_world_mapped_closed) /\
  scm_x_draw_lines_x demo_valid_data demo_window demo_gc SCM_BOOL_F
    demo_world_mapped_closed =
    (Throw (misc_error "x-draw-lines!" "Display ~S has been closed"
              [demo_window]), demo_world_mapped_closed).
Proof. repeat split; vm_compute; reflexivity. Qed.

(** * The default GC *)

Lemma valid_scr_accepts X w display p d screen scr pos f :
  is_xdisplay w display p d ->
  screen_accepted X (xdisplay_dsp d) screen scr ->
  valid_scr X display screen pos p f w = (Ok scr, w).
Proof.
  intros (Ht & Hp & Hb) [[-> ->]|(-> & Hnz & Hr & Hmax)];
    unfold valid_scr, scm_to_int; mrun; [reflexivity|].
  assert ((INT_MIN <=? scr) && (scr <=? INT_MAX) = true) as ->.
  { apply andb_true_intro. split; apply Z.leb_le; [|done].
    unfold INT_MIN. lia. }
  mrun. apply Z.eqb_neq in Hnz. rewrite Hnz. mrun.
  assert ((0 <=? scr) && (scr <? ScreenCount X (xdisplay_dsp d)) = true)
    as ->; [|reflexivity].
  apply andb_true_intro. split; [apply Z.leb_le|apply Z.ltb_lt]; lia.
Qed.

(** With an empty cache, x-default-gc makes a Default GC smob for the
    screen it is asked for and stores it in the display; from then on it
    answers that smob, whatever screen it is asked for; and the mark hook
    of the display marks it. *)
Lemma default_gc_caching X w display p d screen1 scr1 screen2 scr2 :
  is_xdisplay w display p d ->
  xdisplay_state d = XDISPLAY_STATE_OPEN ->
  xdisplay_gc d = SCM_BOOL_F ->
  screen_accepted X (xdisplay_dsp d) screen1 scr1 ->
  screen_accepted X (xdisplay_dsp d) screen2 scr2 ->
  exists g pg w1,
    scm_x_default_gc X display screen1 w = (Ok g, w1) /\
    typ16_of w g = scm_tc16_other /\
    is_xgc w1 g pg (default_xgc X display (xdisplay_dsp d) scr1) /\
    is_xdisplay w1 display p (with_xdisplay_gc g d) /\
    trace w1 = trace w /\
    scm_x_default_gc X display screen2 w1 = (Ok g, w1) /\
    xdisplay_mark display w1 = (Ok g, w1).
Proof.
  intros Hd Hs Hgc Hs1 Hs2.
  pose proof (fresh_block w) as Hfb. pose proof (fresh_cell w) as Hfc.
  assert (Hne : fresh (dom (blocks w)) <> p)
    by (destruct Hd as (_ & _ & ?); intros E; rewrite E in Hfb; congruence).
  assert (Hd1 : is_xdisplay (with_default_gc X w display p d scr1) display p
                  (with_xdisplay_gc (SCM_CELL (fresh (dom (cells w)))) d)).
  { destruct Hd as (Ht & Hp & Hb). destruct display as [| | | | | |b];
      try discriminate.
    assert (fresh (dom (cells w)) <> b).
    { intros E. unfold typ16_of in Ht. by rewrite <- E, Hfc in Ht. }
    unfold is_xdisplay, typ16_of, smob_data_of in *. simpl.
    rewrite lookup_insert_ne by done. rewrite lookup_insert_eq. done. }
  exists (SCM_CELL (fresh (dom (cells w)))), (fresh (dom (blocks w))),
    (with_default_gc X w display p d scr1).
  split; [|split; [|split; [|split; [|split]]]].
  - unfold scm_x_default_gc. cbv zeta. unfold bind at 1.
    rewrite (valid_dsp_on_display _ _ _ _ _ _ _ Hd), Hs.
    change (Z.land XDISPLAY_STATE_OPEN XDISPLAY_STATE_OPEN =? 0) with false.
    cbv beta iota. unfold XDISPLAY, bind at 1.
    destruct Hd as (Ht & Hp & Hb). unfold SCM_SMOB_DATA at 1. rewrite Hp.
    unfold bind at 1.
    rewrite (valid_scr_accepts X w display p d screen1 scr1) by done.
    mrun. rewrite Hgc. mrun.
    unfold set_blocks, set_cells, with_default_gc, default_xgc; simpl.
    by rewrite !insert_insert_eq.
  - unfold typ16_of. by rewrite Hfc.
  - repeat split; simpl.
    + apply typ16_of_new_cell.
    + unfold smob_data_of. simpl. by rewrite lookup_insert_eq.
    + rewrite lookup_insert_ne by done. apply lookup_insert_eq.
  - exact Hd1.
  - reflexivity.
  - split.
    + unfold scm_x_default_gc. cbv zeta. unfold bind at 1.
      rewrite (valid_dsp_on_display _ _ _ _ _ _ _ Hd1). simpl. rewrite Hs.
      change (Z.land XDISPLAY_STATE_OPEN XDISPLAY_STATE_OPEN =? 0) with false.
      cbv beta iota. unfold XDISPLAY, bind at 1.
      destruct Hd1 as (Ht & Hp & Hb). unfold SCM_SMOB_DATA at 1. rewrite Hp.
      unfold bind at 1.
      rewrite (valid_scr_accepts X _ display p
                 (with_xdisplay_gc (SCM_CELL (fresh (dom (cells w)))) d)
                 screen2 scr2)
        by (done || by repeat split).
      mrun. reflexivity.
    + destruct Hd1 as (Ht & Hp & Hb). unfold xdisplay_mark. mrun.
      reflexivity.
Qed.

(** C6 fails on a display with two screens.  The first x-default-gc, for
    the default screen 0, makes and caches the GC smob of screen 0; asked
    then for screen 1 it answers that same smob, which holds the default
    GC of screen 0 and not the one of screen 1.  And asked for screen 0 by
    its number it raises a wrong-type error, [valid_scr] taking the
    integer itself for the condition of its assertion. *)
Theorem default_gc_ignores_screen :
  let w1 := with_default_gc demo_xlib demo_world demo_display 1%positive
              demo_xdisplay 0 in
  let g := SCM_CELL 5%positive in
  ScreenCount demo_xlib 1000 = 2 /\
  DefaultScreen demo_xlib 1000 = 0 /\
  scm_x_default_gc demo_xlib demo_display SCM_UNDEFINED demo_world
    = (Ok g, w1) /\
  is_xgc w1 g 5%positive (default_xgc demo_xlib demo_display 1000 0) /\
  scm_x_default_gc demo_xlib demo_display (SCM_INUM 1) w1 = (Ok g, w1) /\
  xgc_gc (default_xgc demo_xlib demo_display 1000 0) = 500 /\
  DefaultGC demo_xlib 1000 1 = 501 /\
  scm_x_default_gc demo_xlib demo_display (SCM_INUM 0) demo_world =
    (Throw (wrong_type_arg "x-default-gc" 2 (SCM_INUM 0)), demo_world).
Proof. repeat split; vm_compute; reflexivity. Qed.

(** * Creating windows, pixmaps and GCs *)

Lemma valid_dsp_Ok_open arg pos f w :
  forall display1 p d,
    valid_dsp arg pos XDISPLAY_STATE_OPEN f w = (Ok display1, w) ->
    is_xdisplay w display1 p d ->
    Z.land (xdisplay_state d) XDISPLAY_STATE_OPEN <> 0.
Proof.
  intros display1 p d Hv (Ht & Hp & Hb).
  apply valid_dsp_inv in Hv as [_ Hv].
  destruct (Hv _ eq_refl) as (p' & d' & (_ & Hp' & Hb') & Ho).
  congruence.
Qed.

Lemma create_window_run X w display display1 p d :
  valid_dsp display SCM_ARG1 XDISPLAY_STATE_OPEN "x-create-window!" w
    = (Ok display1, w) ->
  is_xdisplay w display1 p d ->
  scm_x_create_window_x X display w =
    let h := xdisplay_dsp d in
    let t1 := trace w ++ [XDefaultScreen h; XWhitePixel h (DefaultScreen X h)] in
    let id := XCreateWindow_ret X t1 h in
    let root := RootWindow X h (DefaultScreen X h) in
    if id =? 0 then
      (Throw (misc_error "x-create-window!" "Failed to create X window on ~S"
                [display]),
       {| cells := cells w; blocks := blocks w;
          resource_id_hash := resource_id_hash w;
          trace := t1 ++ [XCreateWindow h root] |})
    else
      (Ok (SCM_CELL (fresh (dom (cells w)))),
       {| cells :=
            <[fresh (dom (cells w)) :=
                {| cell_typ16 := scm_tc16_xwindow;
                   cell_data := fresh (dom (blocks w)) |}]> (cells w);
          blocks :=
            <[fresh (dom (blocks w)) :=
                B_xwindow {| xwindow_dsp := display1; xwindow_win := id;
                             xwindow_state := XWINDOW_STATE_UNMAPPED |}]>
              (blocks w);
          resource_id_hash :=
            <[int_of_XID id := SCM_CELL (fresh (dom (cells w)))]>
              (resource_id_hash w);
          trace := t1 ++ [XCreateWindow h root; XSetNormalHints h id;
                          XStoreName h id "Guile/X"] |}).
Proof.
  intros Hv (Ht & Hp & Hb). pose proof (fresh_block w) as Hf.
  assert (Hne : fresh (dom (blocks w)) <> p) by (intros E; congruence).
  unfold scm_x_create_window_x. cbv zeta. unfold bind at 1.
  change s_scm_x_create_window_x with "x-create-window!". rewrite Hv.
  mrun. rewrite <- !app_assoc. simpl.
  destruct (_ =? 0); unfold set_blocks, set_cells, set_hash, set_trace;
    simpl; rewrite ?insert_insert_eq, <- ?app_assoc; simpl;
    [by rewrite delete_insert_id|reflexivity].
Qed.

Lemma is_xdisplay_create w display p d (a : addr) (pw : ptr) c b h t :
  is_xdisplay w display p d ->
  cells w !! a = None -> blocks w !! pw = None ->
  is_xdisplay
    {| cells := <[a := c]> (cells w); blocks := <[pw := b]> (blocks w);
       resource_id_hash := h; trace := t |} display p d.
Proof.
  intros (Ht & Hp & Hb) Ha Hpw. destruct display as [| | | | | |x];
    try discriminate.
  unfold is_xdisplay, typ16_of, smob_data_of in *. simpl.
  assert (a <> x) by (intros ->; by rewrite Ha in Ht).
  assert (pw <> p) by (intros ->; congruence).
  by rewrite !lookup_insert_ne.
Qed.

(** X1.  x-create-window! on an open display, when XCreateWindow answers
    an id: the result is a new window smob, Unmapped, on that display,
    stored in the resource-id table under its id, so that resolving the
    id yields this very smob; the display structure is as before. *)
Theorem create_window_registers X w display p d :
  is_xdisplay w display p d ->
  xdisplay_state d = XDISPLAY_STATE_OPEN ->
  let h := xdisplay_dsp d in
  let id := XCreateWindow_ret X
              (trace w ++ [XDefaultScreen h; XWhitePixel h (DefaultScreen X h)])
              h in
  id <> 0 ->
  exists win pw w1,
    scm_x_create_window_x X display w = (Ok win, w1) /\
    typ16_of w win = scm_tc16_other /\
    is_xwindow w1 win pw
      {| xwindow_dsp := display; xwindow_win := id;
         xwindow_state := XWINDOW_STATE_UNMAPPED |} /\
    is_xdisplay w1 display p d /\
    resource_id_hash w1 = <[int_of_XID id := win]> (resource_id_hash w) /\
    trace w1 =
      trace w ++
        [XDefaultScreen h; XWhitePixel h (DefaultScreen X h);
         XCreateWindow h (RootWindow X h (DefaultScreen X h));
         XSetNormalHints h id; XStoreName h id "Guile/X"] /\
    (forall display' func,
       lookup_window display' id func w1 = (Ok win, w1)).
Proof.
  intros Hd Hs h id Hid.
  assert (Hv : valid_dsp display SCM_ARG1 XDISPLAY_STATE_OPEN
                 "x-create-window!" w = (Ok display, w))
    by (by rewrite (valid_dsp_on_display _ _ _ _ _ _ _ Hd), Hs).
  rewrite (create_window_run X _ _ _ _ _ Hv Hd). cbv zeta. fold h. fold id.
  apply Z.eqb_neq in Hid. rewrite Hid.
  pose proof (fresh_block w) as Hfb. pose proof (fresh_cell w) as Hfc.
  eexists _, _, _. split; [reflexivity|].
  split; [unfold typ16_of; by rewrite Hfc|].
  split; [|split; [|split; [|split]]].
  - repeat split; simpl.
    + apply typ16_of_new_cell.
    + unfold smob_data_of. simpl. by rewrite lookup_insert_eq.
    + apply lookup_insert_eq.
  - by apply is_xdisplay_create.
  - reflexivity.
  - simpl. by rewrite <- app_assoc.
  - intros display' func. rewrite lookup_window_run.
    change XID_None with 0. rewrite Hid. cbv zeta. simpl.
    rewrite lookup_insert_eq. simpl. rewrite typ16_of_new_cell. simpl.
    reflexivity.
Qed.

(** X2.  x-create-window! on an open display, when XCreateWindow answers
    0: the error "Failed to create X window" is raised, and but for the
    three Xlib calls in the trace the world is as before: the structure is
    freed, no smob is made, nothing is stored in the table. *)
Theorem create_window_failure X w display p d :
  is_xdisplay w display p d ->
  xdisplay_state d = XDISPLAY_STATE_OPEN ->
  let h := xdisplay_dsp d in
  XCreateWindow_ret X
    (trace w ++ [XDefaultScreen h; XWhitePixel h (DefaultScreen X h)]) h = 0 ->
  scm_x_create_window_x X display w =
    (Throw (misc_error "x-create-window!" "Failed to create X window on ~S"
              [display]),
     {| cells := cells w; blocks := blocks w;
        resource_id_hash := resource_id_hash w;
        trace := trace w ++
                   [XDefaultScreen h; XWhitePixel h (DefaultScreen X h);
                    XCreateWindow h (RootWindow X h (DefaultScreen X h))] |}).
Proof.
  intros Hd Hs h Hid.
  assert (Hv : valid_dsp display SCM_ARG1 XDISPLAY_STATE_OPEN
                 "x-create-window!" w = (Ok display, w))
    by (by rewrite (valid_dsp_on_display _ _ _ _ _ _ _ Hd), Hs).
  rewrite (create_window_run X _ _ _ _ _ Hv Hd). cbv zeta. fold h.
  rewrite Hid. simpl. by rewrite <- app_assoc.
Qed.

Lemma scm_to_int_run n w :
  INT_MIN <= n <= INT_MAX -> scm_to_int (SCM_INUM n) w = (Ok n, w).
Proof.
  intros [H1 H2]. unfold scm_to_int.
  apply Z.leb_le in H1, H2. by rewrite H1, H2.
Qed.



Lemma create_gc_run X gc_changes w drawable pw x pd d changes mask :
  is_xwindow w drawable pw x ->
  is_xdisplay w (xwindow_dsp x) pd d ->
  xdisplay_state d = XDISPLAY_STATE_OPEN ->
  Z.land (xwindow_state x) (Z.lnot XWINDOW_STATE_DESTROYED) <> 0 ->
  gc_changes changes "x-create-gc!" w = (Ok mask, w) ->
  scm_x_create_gc_x X gc_changes drawable changes w =
    let h := xdisplay_dsp d in
    (Ok (SCM_CELL (fresh (dom (cells w)))),
     {| cells :=
          <[fresh (dom (cells w)) :=
              {| cell_typ16 := scm_tc16_xgc;
                 cell_data := fresh (dom (blocks w)) |}]> (cells w);
        blocks :=
          <[fresh (dom (blocks w)) :=
              B_xgc {| xgc_dsp := xwindow_dsp x;
                       xgc_gc := XCreateGC_ret X (trace w) h;
                       xgc_state := XGC_STATE_CREATED |}]> (blocks w);
        resource_id_hash := resource_id_hash w;
        trace := trace w ++ [XCreateGC h (xwindow_win x) mask] |}).
Proof.
  intros Hx Hd Hs Hst Hch. pose proof (fresh_block w) as Hf.
  pose proof Hd as (Ht' & Hp' & Hb'). pose proof Hx as (Ht & Hp & Hb).
  assert (Hne : fresh (dom (blocks w)) <> pd) by (intros E; congruence).
  assert (Hne' : fresh (dom (blocks w)) <> pw) by (intros E; congruence).
  unfold scm_x_create_gc_x. cbv zeta. unfold bind at 1.
  rewrite (valid_dsp_on_window _ _ _ _ _ _ _ _ _ Hx Hd), Hs.
  change (Z.land XDISPLAY_STATE_OPEN XDISPLAY_STATE_OPEN =? 0) with false.
  cbv beta iota. unfold XDISPLAY, bind at 1.
  unfold SCM_SMOB_DATA at 1. rewrite Hp'.
  unfold bind at 1. rewrite (valid_win_run _ _ _ _ _ _ _ Hx).
  apply Z.eqb_neq in Hst. rewrite Hst.
  unfold bind at 1. change s_scm_x_create_gc_x with "x-create-gc!".
  rewrite Hch. mrun.
  unfold set_blocks, set_cells, set_hash, set_trace; simpl.
  by rewrite ?insert_insert_eq.
Qed.

(** X4.  x-create-gc! on a drawable of an open display.  A destroyed
    window is refused with "has been destroyed" before the attribute list
    is looked at.  Otherwise, once the attribute list is accepted, the
    result is a new GC smob, Created, on the display of the drawable,
    holding whatever XCreateGC answered (the answer is not checked); and
    x-free-gc! on it then calls XFreeGC with that display and that GC. *)
Theorem create_gc_created X gc_changes w drawable pw x pd d changes :
  is_xwindow w drawable pw x ->
  is_xdisplay w (xwindow_dsp x) pd d ->
  xdisplay_state d = XDISPLAY_STATE_OPEN ->
  (xwindow_state x = XWINDOW_STATE_DESTROYED ->
   scm_x_create_gc_x X gc_changes drawable changes w =
     (Throw (misc_error "x-create-gc!" "Window ~S has been destroyed"
               [drawable]), w)) /\
  (forall mask,
     Z.land (xwindow_state x) (Z.lnot XWINDOW_STATE_DESTROYED) <> 0 ->
     gc_changes changes "x-create-gc!" w = (Ok mask, w) ->
     let h := xdisplay_dsp d in
     let g := XCreateGC_ret X (trace w) h in
     exists gc pg w1,
       scm_x_create_gc_x X gc_changes drawable changes w = (Ok gc, w1) /\
       typ16_of w gc = scm_tc16_other /\
       is_xgc w1 gc pg
         {| xgc_dsp := xwindow_dsp x; xgc_gc := g;
            xgc_state := XGC_STATE_CREATED |} /\
       resource_id_hash w1 = resource_id_hash w /\
       trace w1 = trace w ++ [XCreateGC h (xwindow_win x) mask] /\
       exists w2,
         scm_x_free_gc_x gc w1 = (Ok SCM_UNSPECIFIED, w2) /\
         trace w2 = trace w1 ++ [XFreeGC h g]).
Proof.
  intros Hx Hd Hs. split.
  - intros Hst. unfold scm_x_create_gc_x. cbv zeta. unfold bind at 1.
    rewrite (valid_dsp_on_window _ _ _ _ _ _ _ _ _ Hx Hd), Hs.
    change (Z.land XDISPLAY_STATE_OPEN XDISPLAY_STATE_OPEN =? 0) with false.
    cbv beta iota. unfold XDISPLAY, bind at 1.
    destruct Hd as (Ht' & Hp' & Hb'). unfold SCM_SMOB_DATA at 1. rewrite Hp'.
    unfold bind at 1. by rewrite (valid_win_run _ _ _ _ _ _ _ Hx), Hst.
  - intros mask Hst Hch h g.
    rewrite (create_gc_run X gc_changes _ _ _ _ _ _ _ _ Hx Hd Hs Hst Hch).
    cbv zeta. fold h. fold g.
    pose proof (fresh_block w) as Hfb. pose proof (fresh_cell w) as Hfc.
    set (w1 := {| cells := _; blocks := _; resource_id_hash := _;
                  trace := _ |}).
    assert (Hg : is_xgc w1 (SCM_CELL (fresh (dom (cells w))))
                   (fresh (dom (blocks w)))
                   {| xgc_dsp := xwindow_dsp x; xgc_gc := g;
                      xgc_state := XGC_STATE_CREATED |}).
    { repeat split; simpl.
      - apply typ16_of_new_cell.
      - unfold smob_data_of. simpl. by rewrite lookup_insert_eq.
      - apply lookup_insert_eq. }
    assert (Hd1 : is_xdisplay w1 (xwindow_dsp x) pd d)
      by (by apply is_xdisplay_create).
    eexists _, _, w1. split; [reflexivity|].
    split; [unfold typ16_of; by rewrite Hfc|].
    split; [exact Hg|]. split; [reflexivity|]. split; [reflexivity|].
    rewrite (free_gc_run _ _ _ _ _ _ Hg Hd1 Hs). simpl.
    eexists. split; reflexivity.
Qed.

(** * Destroying, mapping again *)

Lemma clear_window_run w window p x pd d :
  is_xwindow w window p x -> is_xdisplay w (xwindow_dsp x) pd d ->
  xdisplay_state d = XDISPLAY_STATE_OPEN ->
  scm_x_clear_window_x window w =
    if Z.land (xwindow_state x)
         (Z.lnot (Z.lor XWINDOW_STATE_DESTROYED XWINDOW_STATE_PIXMAP)) =? 0
    then (Throw (win_state_error "x-clear-window!" window (xwindow_state x)),
          w)
    else (Ok SCM_UNSPECIFIED,
          set_trace
            (fun t => t ++ [XClearWindow (xdisplay_dsp d) (xwindow_win x)])
            w).
Proof.
  intros Hx Hd Hs. unfold scm_x_clear_window_x, bind at 1.
  rewrite (valid_dsp_on_window _ _ _ _ _ _ _ _ _ Hx Hd), Hs.
  change (Z.land XDISPLAY_STATE_OPEN XDISPLAY_STATE_OPEN =? 0) with false.
  cbv beta iota. unfold XDISPLAY, bind at 1.
  destruct Hd as (Ht' & Hp' & Hb'). unfold SCM_SMOB_DATA at 1. rewrite Hp'.
  unfold bind at 1. rewrite (valid_win_run _ _ _ _ _ _ _ Hx).
  destruct (Z.land _ _ =? 0); [reflexivity|].
  destruct Hx as (Ht & Hp & Hb). mrun. reflexivity.
Qed.

Lemma is_xwindow_set_state w window p x s tr :
  is_xwindow w window p x ->
  is_xwindow
    (set_trace tr (set_blocks <[p := B_xwindow (with_xwindow_state s x)]> w))
    window p (with_xwindow_state s x).
Proof.
  intros (Ht & Hp & Hb). repeat split; autorewrite with heap; try done.
  simpl. apply lookup_insert_eq.
Qed.

Lemma is_xdisplay_set_window w display pd d p x x' tr :
  is_xdisplay w display pd d -> blocks w !! p = Some (B_xwindow x) ->
  is_xdisplay (set_trace tr (set_blocks <[p := B_xwindow x']> w))
    display pd d.
Proof.
  intros (Ht & Hp & Hb) Hx. repeat split; autorewrite with heap; try done.
  simpl. rewrite lookup_insert_ne; [done|]. intros ->. congruence.
Qed.

Lemma xwindow_free_inert w win p x :
  is_xwindow w win p x ->
  xwindow_state x = XWINDOW_STATE_DESTROYED \/
  xwindow_state x = XWINDOW_STATE_THIRD_PARTY ->
  xwindow_free win w = (Ok 0, w).
Proof.
  intros (Ht & Hp & Hb) Hst. unfold xwindow_free.
  set (c := scm_x_destroy_window_x win). mrun.
  destruct Hst as [-> | ->]; simpl; by rewrite ?andb_false_r.
Qed.

(** X5.  x-destroy-window! on an Unmapped or Mapped window of an open
    display calls XDestroyWindow once and leaves the window Destroyed.
    From then on a second x-destroy-window!, x-map-window!,
    x-unmap-window! and x-clear-window! are each refused with "has been
    destroyed" and call nothing, and the free hook of the window returns
    without calling either. *)
Theorem destroy_window_once w window p x pd d :
  is_xwindow w window p x ->
  is_xdisplay w (xwindow_dsp x) pd d ->
  xdisplay_state d = XDISPLAY_STATE_OPEN ->
  xwindow_state x = XWINDOW_STATE_UNMAPPED \/
  xwindow_state x = XWINDOW_STATE_MAPPED ->
  exists w1,
    scm_x_destroy_window_x window w = (Ok SCM_UNSPECIFIED, w1) /\
    trace w1 =
      trace w ++ [XDestroyWindow (xdisplay_dsp d) (xwindow_win x)] /\
    is_xwindow w1 window p
      (with_xwindow_state XWINDOW_STATE_DESTROYED x) /\
    is_xdisplay w1 (xwindow_dsp x) pd d /\
    (let gone f := (Throw (misc_error f "Window ~S has been destroyed"
                             [window]), w1) in
     scm_x_destroy_window_x window w1 = gone "x-destroy-window!" /\
     scm_x_map_window_x window w1 = gone "x-map-window!" /\
     scm_x_unmap_window_x window w1 = gone "x-unmap-window!" /\
     scm_x_clear_window_x window w1 = gone "x-clear-window!") /\
    xwindow_free window w1 = (Ok 0, w1).
Proof.
  intros Hx Hd Hs Hst.
  rewrite (destroy_window_run _ _ _ _ _ _ Hx Hd Hs).
  assert ((Z.land (xwindow_state x)
             (Z.lnot (Z.lor XWINDOW_STATE_DESTROYED
                        (Z.lor XWINDOW_STATE_THIRD_PARTY
                           XWINDOW_STATE_PIXMAP))) =? 0) = false) as ->
    by (by destruct Hst as [-> | ->]).
  eexists. split; [reflexivity|]. split; [reflexivity|].
  pose proof (is_xwindow_set_state w window p x XWINDOW_STATE_DESTROYED
                (fun t => t ++ [XDestroyWindow (xdisplay_dsp d)
                                  (xwindow_win x)]) Hx) as Hx1.
  assert (Hd1 := is_xdisplay_set_window w _ pd d p x
                   (with_xwindow_state XWINDOW_STATE_DESTROYED x)
                   (fun t => t ++ [XDestroyWindow (xdisplay_dsp d)
                                     (xwindow_win x)]) Hd
                   (proj2 (proj2 Hx))).
  split; [exact Hx1|]. split; [exact Hd1|]. split.
  - cbv zeta.
    rewrite (destroy_window_run _ _ _ _ _ _ Hx1 Hd1 Hs),
      (map_window_run _ _ _ _ _ _ Hx1 Hd1 Hs),
      (unmap_window_run _ _ _ _ _ _ Hx1 Hd1 Hs),
      (clear_window_run _ _ _ _ _ _ Hx1 Hd1 Hs). done.
  - apply (xwindow_free_inert _ _ _ _ Hx1). by left.
Qed.

(** X6.  Mapping an Unmapped window and unmapping it again, or unmapping
    a Mapped window and mapping it again, on an open display, leaves the
    whole heap and the resource-id table exactly as they were; the trace
    has the two Xlib calls, in that order. *)
Theorem map_unmap_round_trip w window p x pd d :
  is_xwindow w window p x ->
  is_xdisplay w (xwindow_dsp x) pd d ->
  xdisplay_state d = XDISPLAY_STATE_OPEN ->
  let h := xdisplay_dsp d in
  let id := xwindow_win x in
  (xwindow_state x = XWINDOW_STATE_UNMAPPED ->
   (scm_x_map_window_x window >> scm_x_unmap_window_x window) w =
     (Ok SCM_UNSPECIFIED,
      set_trace (fun t => t ++ [XMapWindow h id; XUnmapWindow h id]) w)) /\
  (xwindow_state x = XWINDOW_STATE_MAPPED ->
   (scm_x_unmap_window_x window >> scm_x_map_window_x window) w =
     (Ok SCM_UNSPECIFIED,
      set_trace (fun t => t ++ [XUnmapWindow h id; XMapWindow h id]) w)).
Proof.
  intros Hx Hd Hs h id. subst h id. split; intros Hst; unfold bind.
  - rewrite (map_window_run _ _ _ _ _ _ Hx Hd Hs), Hst.
    change (Z.land XWINDOW_STATE_UNMAPPED XWINDOW_STATE_UNMAPPED =? 0)
      with false. cbv beta iota.
    pose proof (is_xwindow_set_state w window p x XWINDOW_STATE_MAPPED
                  (fun t => t ++ [XMapWindow (xdisplay_dsp d)
                                    (xwindow_win x)]) Hx) as Hx1.
    assert (Hd1 := is_xdisplay_set_window w _ pd d p x
                     (with_xwindow_state XWINDOW_STATE_MAPPED x)
                     (fun t => t ++ [XMapWindow (xdisplay_dsp d)
                                       (xwindow_win x)]) Hd
                     (proj2 (proj2 Hx))).
    rewrite (unmap_window_run _ _ _ _ _ _ Hx1 Hd1 Hs). simpl.
    unfold set_trace, set_blocks. simpl.
    rewrite insert_insert_eq, <- app_assoc. simpl.
    replace (with_xwindow_state XWINDOW_STATE_UNMAPPED
               (with_xwindow_state XWINDOW_STATE_MAPPED x)) with x
      by (symmetry; destruct x; simpl in *; by subst).
    rewrite insert_id by apply Hx. reflexivity.
  - rewrite (unmap_window_run _ _ _ _ _ _ Hx Hd Hs), Hst.
    change (Z.land XWINDOW_STATE_MAPPED XWINDOW_STATE_MAPPED =? 0)
      with false. cbv beta iota.
    pose proof (is_xwindow_set_state w window p x XWINDOW_STATE_UNMAPPED
                  (fun t => t ++ [XUnmapWindow (xdisplay_dsp d)
                                    (xwindow_win x)]) Hx) as Hx1.
    assert (Hd1 := is_xdisplay_set_window w _ pd d p x
                     (with_xwindow_state XWINDOW_STATE_UNMAPPED x)
                     (fun t => t ++ [XUnmapWindow (xdisplay_dsp d)
                                       (xwindow_win x)]) Hd
                     (proj2 (proj2 Hx))).
    rewrite (map_window_run _ _ _ _ _ _ Hx1 Hd1 Hs). simpl.
    unfold set_trace, set_blocks. simpl.
    rewrite insert_insert_eq, <- app_assoc. simpl.
    replace (with_xwindow_state XWINDOW_STATE_MAPPED
               (with_xwindow_state XWINDOW_STATE_UNMAPPED x)) with x
      by (symmetry; destruct x; simpl in *; by subst).
    rewrite insert_id by apply Hx. reflexivity.
Qed.

(** * Finding the display *)

Lemma valid_dsp_on_screen w x p s pd d pos e f :
  is_xscreen w x p s -> is_xdisplay w (xscreen_dsp s) pd d ->
  valid_dsp x pos e f w =
    (if Z.land (xdisplay_state d) e =? 0
     then Throw (dsp_state_error f x e) else Ok (xscreen_dsp s), w).
Proof.
  intros (Ht & Hp & Hb) (Ht' & Hp' & Hb').
  assert (SCM_NIMP x = true) by (apply (typ16_NIMP w); congruence).
  unfold dsp_state_error. mrun.
  destruct (Z.land _ _ =? 0); [destruct (e =? _)|]; reflexivity.
Qed.

Lemma display_state_any s :
  s = XDISPLAY_STATE_OPEN \/ s = XDISPLAY_STATE_CLOSED ->
  (Z.land s XDISPLAY_STATE_ANY =? 0) = false.
Proof. by intros [-> | ->]. Qed.

(** X7.  x-display-of answers the display smob itself for a display, Open
    or Closed, and the owning display for each window, GC and screen of
    it; it changes nothing.  For anything that is none of the four smob
    types it raises a wrong-type error on its argument. *)
Theorem display_of_owner w display pd d :
  is_xdisplay w display pd d ->
  xdisplay_state d = XDISPLAY_STATE_OPEN \/
  xdisplay_state d = XDISPLAY_STATE_CLOSED ->
  scm_x_display_of display w = (Ok display, w) /\
  (forall x p xw,
     is_xwindow w x p xw -> xwindow_dsp xw = display ->
     scm_x_display_of x w = (Ok display, w)) /\
  (forall x p g,
     is_xgc w x p g -> xgc_dsp g = display ->
     scm_x_display_of x w = (Ok display, w)) /\
  (forall x p s,
     is_xscreen w x p s -> xscreen_dsp s = display ->
     scm_x_display_of x w = (Ok display, w)) /\
  (forall x,
     typ16_of w x = scm_tc16_other \/ typ16_of w x = scm_tc_free_cell ->
     scm_x_display_of x w =
       (Throw (wrong_type_arg "x-display-of" 1 x), w)).
Proof.
  intros Hd Hs. apply display_state_any in Hs. unfold scm_x_display_of.
  split; [|split; [|split; [|split]]].
  - by rewrite (valid_dsp_on_display _ _ _ _ _ _ _ Hd), Hs.
  - intros x p xw Hx <-.
    by rewrite (valid_dsp_on_window _ _ _ _ _ _ _ _ _ Hx Hd), Hs.
  - intros x p g Hg <-.
    by rewrite (valid_dsp_on_gc _ _ _ _ _ _ _ _ _ Hg Hd), Hs.
  - intros x p s Hx <-.
    by rewrite (valid_dsp_on_screen _ _ _ _ _ _ _ _ _ Hx Hd), Hs.
  - intros x Ht. unfold valid_dsp. destruct (SCM_NIMP x) eqn:Hn.
    + destruct Ht as [Ht | Ht]; mrun; reflexivity.
    + mrun. reflexivity.
Qed.

(** X8.  The three validators only read: whatever they are given and
    whatever they answer, the heap, the resource-id table and the trace
    are as before. *)
Theorem validators_pure arg pos e f w :
  snd (valid_dsp arg pos e f w) = w /\
  snd (valid_win arg pos e f w) = w /\
  snd (valid_gc arg pos e f w) = w.
Proof.
  split; [|split].
  - destruct (valid_dsp arg pos e f w) as [r w'] eqn:H.
    by apply valid_dsp_inv in H as [-> _].
  - destruct (valid_win arg pos e f w) as [r w'] eqn:H.
    by apply valid_win_inv in H as [-> _].
  - destruct (valid_gc arg pos e f w) as [r w'] eqn:H.
    by apply valid_gc_inv in H as [-> _].
Qed.

(** * Screens *)

Lemma valid_scr_on_display X w display p d screen scr pos f :
  typ16_of w display <> scm_tc16_xscreen ->
  blocks w !! p = Some (B_xdisplay d) ->
  screen_accepted X (xdisplay_dsp d) screen scr ->
  valid_scr X display screen pos p f w = (Ok scr, w).
Proof.
  intros Ht Hb [[-> ->]|(-> & Hnz & Hr & Hmax)];
    unfold valid_scr, scm_to_int; mrun;
    (destruct (decide (typ16_of w display = scm_tc16_xscreen));
       [contradiction|]); mrun; [reflexivity|].
  assert ((INT_MIN <=? scr) && (scr <=? INT_MAX) = true) as ->.
  { apply andb_true_intro. split; apply Z.leb_le; [|done].
    unfold INT_MIN. lia. }
  mrun. apply Z.eqb_neq in Hnz. rewrite Hnz. mrun.
  assert ((0 <=? scr) && (scr <? ScreenCount X (xdisplay_dsp d)) = true)
    as ->; [|reflexivity].
  apply andb_true_intro. split; [apply Z.leb_le|apply Z.ltb_lt]; lia.
Qed.

Lemma valid_scr_on_screen X w s ps sc screen pos dsp f :
  is_xscreen w s ps sc ->
  valid_scr X s screen pos dsp f w =
    (Ok (XScreenNumberOfScreen_ret X (xscreen_scr sc)),
     set_trace (fun t => t ++ [XScreenNumberOfScreen (xscreen_scr sc)]) w).
Proof. intros (Ht & Hp & Hb). unfold valid_scr, xlib_ask. mrun. reflexivity. Qed.

(** X9.  On an argument that is no screen smob, [valid_scr] answers a
    screen number exactly for the screen arguments of [screen_accepted]:
    none given, which stands for the default screen, or an integer that is
    not 0 and below the screen count of the display; and it leaves the
    world as it was. *)
Theorem valid_scr_accepted_iff X w display p d screen pos f scr w' :
  typ16_of w display <> scm_tc16_xscreen ->
  blocks w !! p = Some (B_xdisplay d) ->
  valid_scr X display screen pos p f w = (Ok scr, w') <->
  screen_accepted X (xdisplay_dsp d) screen scr /\ w' = w.
Proof.
  intros Ht Hb. split.
  - unfold valid_scr, screen_accepted, scm_to_int. mrun.
    destruct (decide (typ16_of w display = scm_tc16_xscreen)) as [|_];
      [contradiction|].
    destruct screen as [| | | |n| |]; mrun; try discriminate.
    + intros [= <- <-]. by split; [left|].
    + destruct ((INT_MIN <=? n) && (n <=? INT_MAX)) eqn:Hr; mrun;
        [|discriminate].
      destruct (n =? 0) eqn:Hz; mrun; [discriminate|].
      destruct ((0 <=? n) && (n <? ScreenCount X (xdisplay_dsp d))) eqn:Hc;
        mrun; [|discriminate].
      intros [= <- <-]. split; [right|reflexivity].
      apply andb_true_iff in Hr as [_ Hmax%Z.leb_le].
      apply andb_true_iff in Hc as [H0%Z.leb_le Hlt%Z.ltb_lt].
      apply Z.eqb_neq in Hz. repeat split; done.
  - intros [Hacc ->]. by apply (valid_scr_on_display X w display p d).
Qed.

Lemma bind_cong {A B} (c : M A) (k1 k2 : A -> M B) w :
  (forall a w', c w = (Ok a, w') -> k1 a w' = k2 a w') ->
  bind c k1 w = bind c k2 w.
Proof.
  intros H. unfold bind. destruct (c w) as [[a|e] w']; [|reflexivity].
  by apply H.
Qed.

Lemma XDISPLAY_inv x w r w' : XDISPLAY x w = (r, w') -> w' = w.
Proof.
  unfold XDISPLAY, SCM_SMOB_DATA. destruct (smob_data_of w x); by intros [= _ <-].
Qed.

Lemma screen_of_display_run X w display p d screen scr :
  is_xdisplay w display p d ->
  xdisplay_state d = XDISPLAY_STATE_OPEN ->
  screen_accepted X (xdisplay_dsp d) screen scr ->
  scm_x_screen_of_display X display screen w =
    (Ok (SCM_CELL (fresh (dom (cells w)))),
     {| cells :=
          <[fresh (dom (cells w)) :=
              {| cell_typ16 := scm_tc16_xscreen;
                 cell_data := fresh (dom (blocks w)) |}]> (cells w);
        blocks :=
          <[fresh (dom (blocks w)) :=
              B_xscreen
                {| xscreen_dsp := display;
                   xscreen_scr :=
                     XScreenOfDisplay_ret X (xdisplay_dsp d) scr |}]>
            (blocks w);
        resource_id_hash := resource_id_hash w;
        trace := trace w |}).
Proof.
  intros Hd Hs Hscr. unfold scm_x_screen_of_display. cbv zeta.
  unfold bind at 1. rewrite (valid_dsp_on_display _ _ _ _ _ _ _ Hd), Hs.
  change (Z.land XDISPLAY_STATE_OPEN XDISPLAY_STATE_OPEN =? 0) with false.
  cbv beta iota. unfold XDISPLAY, bind at 1.
  pose proof (fresh_block w) as Hfb.
  assert (Hne : fresh (dom (blocks w)) <> p)
    by (destruct Hd as (_ & _ & ?); intros E; rewrite E in Hfb; congruence).
  pose proof Hd as (Ht & Hp & Hb). unfold SCM_SMOB_DATA at 1. rewrite Hp.
  unfold bind at 1.
  rewrite (valid_scr_accepts X w display p d screen scr) by done.
  mrun. unfold set_blocks, set_cells; simpl.
  by rewrite !insert_insert_eq.
Qed.

(** X10.  x-screen-of-display on an open display, for a screen
    [valid_scr] accepts: the result is a new screen smob holding the
    display and what XScreenOfDisplay answered; its mark hook and
    x-display-of answer the display; x-screen-number-of-screen on it asks
    XScreenNumberOfScreen about that screen and answers its number; the
    same primitive on the display itself is refused by [scm_to_int]. *)
Theorem screen_of_display_number X w display p d screen scr :
  is_xdisplay w display p d ->
  xdisplay_state d = XDISPLAY_STATE_OPEN ->
  screen_accepted X (xdisplay_dsp d) screen scr ->
  let sc := {| xscreen_dsp := display;
               xscreen_scr := XScreenOfDisplay_ret X (xdisplay_dsp d) scr |} in
  exists s ps w1,
    scm_x_screen_of_display X display screen w = (Ok s, w1) /\
    typ16_of w s = scm_tc16_other /\
    is_xscreen w1 s ps sc /\
    is_xdisplay w1 display p d /\
    resource_id_hash w1 = resource_id_hash w /\
    xscreen_mark s w1 = (Ok display, w1) /\
    scm_x_display_of s w1 = (Ok display, w1) /\
    scm_x_screen_number_of_screen X s w1 =
      (Ok (SCM_INUM (XScreenNumberOfScreen_ret X (xscreen_scr sc))),
       set_trace (fun t => t ++ [XScreenNumberOfScreen (xscreen_scr sc)])
         w1) /\
    scm_x_screen_number_of_screen X display w1 =
      (Throw (wrong_type_arg "" 0 display), w1).
Proof.
  intros Hd Hs Hscr sc.
  rewrite (screen_of_display_run X _ _ _ _ _ _ Hd Hs Hscr).
  pose proof (fresh_block w) as Hfb. pose proof (fresh_cell w) as Hfc.
  set (w1 := {| cells := _; blocks := _; resource_id_hash := _;
                trace := _ |}).
  assert (Hsc : is_xscreen w1 (SCM_CELL (fresh (dom (cells w))))
                  (fresh (dom (blocks w))) sc).
  { repeat split; simpl.
    - apply typ16_of_new_cell.
    - unfold smob_data_of. simpl. by rewrite lookup_insert_eq.
    - apply lookup_insert_eq. }
  assert (Hd1 : is_xdisplay w1 display p d) by (by apply is_xdisplay_create).
  eexists _, _, w1. split; [reflexivity|].
  split; [unfold typ16_of; by rewrite Hfc|].
  split; [exact Hsc|]. split; [exact Hd1|]. split; [reflexivity|].
  split; [|split; [|split]].
  - destruct Hsc as (Ht & Hp & Hb). unfold xscreen_mark. clearbody w1.
    mrun. reflexivity.
  - unfold scm_x_display_of.
    rewrite (valid_dsp_on_screen _ _ _ _ _ _ _ _ _ Hsc Hd1).
    by rewrite display_state_any by (left; exact Hs).
  - unfold scm_x_screen_number_of_screen. cbv zeta. unfold bind at 1.
    rewrite (valid_dsp_on_screen _ _ _ _ _ _ _ _ _ Hsc Hd1), Hs.
    change (Z.land XDISPLAY_STATE_OPEN XDISPLAY_STATE_OPEN =? 0) with false.
    cbv beta iota. unfold XDISPLAY, bind at 1.
    destruct Hd1 as (Ht & Hp & Hb). unfold SCM_SMOB_DATA at 1.
    change (xscreen_dsp sc) with display. rewrite Hp.
    unfold bind at 1. rewrite (valid_scr_on_screen X _ _ _ _ _ _ _ _ Hsc).
    reflexivity.
  - unfold scm_x_screen_number_of_screen. cbv zeta. unfold bind at 1.
    rewrite (valid_dsp_on_display _ _ _ _ _ _ _ Hd1), Hs.
    change (Z.land XDISPLAY_STATE_OPEN XDISPLAY_STATE_OPEN =? 0) with false.
    cbv beta iota. unfold XDISPLAY, bind at 1.
    destruct Hd1 as (Ht & Hp & Hb). unfold SCM_SMOB_DATA at 1. rewrite Hp.
    unfold bind at 1. unfold valid_scr. clearbody w1. mrun.
    destruct display; try discriminate. reflexivity.
Qed.

Lemma bind_valid_scr_screen {A} X w s ps sc screen pos dsp f (k : Z -> M A) :
  is_xscreen w s ps sc ->
  bind (valid_scr X s screen pos dsp f) k w =
  bind (valid_scr X s SCM_UNDEFINED pos dsp f) k w.
Proof.
  intros Hs. unfold bind.
  by rewrite !(valid_scr_on_screen X _ _ _ _ _ _ _ _ Hs).
Qed.

(** X11.  When the display argument is a screen smob, the screen-number
    argument is never looked at: whatever it is, x-root-window,
    x-default-gc, x-screen-of-display and x-create-pixmap! do what they do
    when it is left out. *)
Theorem screen_smob_overrides_number X w s ps sc screen :
  is_xscreen w s ps sc ->
  scm_x_root_window X s screen w = scm_x_root_window X s SCM_UNDEFINED w /\
  scm_x_default_gc X s screen w = scm_x_default_gc X s SCM_UNDEFINED w /\
  scm_x_screen_of_display X s screen w =
    scm_x_screen_of_display X s SCM_UNDEFINED w /\
  (forall width height depth,
     scm_x_create_pixmap_x X s screen width height depth w =
     scm_x_create_pixmap_x X s SCM_UNDEFINED width height depth w).
Proof.
  intros Hs.
  unfold scm_x_root_window, scm_x_default_gc, scm_x_screen_of_display,
    scm_x_create_pixmap_x.
  repeat split; intros; cbv zeta;
    (apply bind_cong; intros display1 w' [-> _]%valid_dsp_inv;
     apply bind_cong; intros dsp w' ->%XDISPLAY_inv;
     by apply (bind_valid_scr_screen X w s ps sc)).
Qed.

(** * The root window *)

Lemma root_window_run X w arg display pd d screen scr :
  valid_dsp arg SCM_ARG1 XDISPLAY_STATE_OPEN "x-root-window" w
    = (Ok display, w) ->
  is_xdisplay w display pd d ->
  typ16_of w arg <> scm_tc16_xscreen ->
  screen_accepted X (xdisplay_dsp d) screen scr ->
  scm_x_root_window X arg screen w =
    lookup_window arg (RootWindow X (xdisplay_dsp d) scr) "x-root-window" w.
Proof.
  intros Hv Hd Ht Hscr. unfold scm_x_root_window. cbv zeta.
  unfold bind at 1. change s_scm_x_root_window with "x-root-window".
  rewrite Hv. pose proof Hd as (Ht' & Hp' & Hb').
  unfold XDISPLAY, bind at 1. unfold SCM_SMOB_DATA at 1. rewrite Hp'.
  unfold bind at 1.
  rewrite (valid_scr_on_display X w arg pd d screen scr) by done.
  unfold bind at 1, load_xdisplay, load. by rewrite Hb'.
Qed.

Lemma lookup_window_fresh display id func w :
  id <> 0 -> resource_id_hash w !! int_of_XID id = None ->
  let a := fresh (dom (cells w)) in
  let p := fresh (dom (blocks w)) in
  lookup_window display id func w =
    (Ok (SCM_CELL a),
     {| cells := <[a := {| cell_typ16 := scm_tc16_xwindow;
                           cell_data := p |}]> (cells w);
        blocks := <[p := B_xwindow (third_party display id)]> (blocks w);
        resource_id_hash :=
          <[int_of_XID id := SCM_CELL a]> (resource_id_hash w);
        trace := trace w |}).
Proof.
  intros Hid Hh a p. rewrite lookup_window_run. change XID_None with 0.
  apply Z.eqb_neq in Hid. rewrite Hid. cbv zeta. rewrite Hh. reflexivity.
Qed.

Lemma is_xwindow_new w (a : addr) (p : ptr) x h t :
  is_xwindow
    {| cells := <[a := {| cell_typ16 := scm_tc16_xwindow;
                          cell_data := p |}]> (cells w);
       blocks := <[p := B_xwindow x]> (blocks w);
       resource_id_hash := h; trace := t |} (SCM_CELL a) p x.
Proof.
  repeat split; simpl.
  - apply typ16_of_new_cell.
  - unfold smob_data_of. simpl. by rewrite lookup_insert_eq.
  - apply lookup_insert_eq.
Qed.

Lemma valid_dsp_wrong_owner w x p xw pos e f :
  is_xwindow w x p xw ->
  typ16_of w (xwindow_dsp xw) <> scm_tc16_xdisplay ->
  valid_dsp x pos e f w = (Throw (wrong_type_arg f pos (xwindow_dsp xw)), w).
Proof.
  intros (Ht & Hp & Hb) Hn.
  assert (SCM_NIMP x = true) by (apply (typ16_NIMP w); congruence).
  mrun. destruct (decide (typ16_of w (xwindow_dsp xw) = scm_tc16_xdisplay));
    [contradiction|reflexivity].
Qed.

(** X12.  x-root-window on an open display smob, for a screen [valid_scr]
    accepts, when the table has no entry for the root id: the result is a
    new window smob, ThirdParty, on that display, made without any Xlib
    call and stored in the table; asking again answers the very same smob
    and changes nothing.  x-destroy-window! refuses it with "belongs to a
    third party", its free hook calls nothing, x-clear-window! works on
    it. *)
Theorem root_window_shared X w display p d screen scr :
  is_xdisplay w display p d ->
  xdisplay_state d = XDISPLAY_STATE_OPEN ->
  screen_accepted X (xdisplay_dsp d) screen scr ->
  let h := xdisplay_dsp d in
  let id := RootWindow X h scr in
  id <> 0 ->
  resource_id_hash w !! int_of_XID id = None ->
  exists root pr w1,
    scm_x_root_window X display screen w = (Ok root, w1) /\
    typ16_of w root = scm_tc16_other /\
    is_xwindow w1 root pr (third_party display id) /\
    resource_id_hash w1 = <[int_of_XID id := root]> (resource_id_hash w) /\
    trace w1 = trace w /\
    scm_x_root_window X display screen w1 = (Ok root, w1) /\
    scm_x_destroy_window_x root w1 =
      (Throw (misc_error "x-destroy-window!"
                "Window ~S belongs to a third party" [root]), w1) /\
    xwindow_free root w1 = (Ok 0, w1) /\
    scm_x_clear_window_x root w1 =
      (Ok SCM_UNSPECIFIED,
       set_trace (fun t => t ++ [XClearWindow h id]) w1).
Proof.
  intros Hd Hs Hscr h id Hid Hh.
  assert (Hv : forall w', is_xdisplay w' display p d ->
            valid_dsp display SCM_ARG1 XDISPLAY_STATE_OPEN
              "x-root-window" w' = (Ok display, w')).
  { intros w' Hd'. by rewrite (valid_dsp_on_display _ _ _ _ _ _ _ Hd'), Hs. }
  assert (Hnt : forall w', is_xdisplay w' display p d ->
            typ16_of w' display <> scm_tc16_xscreen)
    by (intros w' (Ht & _); congruence).
  rewrite (root_window_run X w display display p d screen scr) by auto.
  fold h. fold id. rewrite (lookup_window_fresh _ _ _ _ Hid Hh).
  pose proof (fresh_block w) as Hfb. pose proof (fresh_cell w) as Hfc.
  set (w1 := {| cells := _; blocks := _; resource_id_hash := _;
                trace := _ |}).
  assert (Hx1 : is_xwindow w1 (SCM_CELL (fresh (dom (cells w))))
                  (fresh (dom (blocks w))) (third_party display id))
    by apply is_xwindow_new.
  assert (Hd1 : is_xdisplay w1 display p d) by (by apply is_xdisplay_create).
  eexists _, _, w1. split; [reflexivity|].
  split; [unfold typ16_of; by rewrite Hfc|].
  split; [exact Hx1|]. split; [reflexivity|]. split; [reflexivity|].
  split; [|split; [|split]].
  - rewrite (root_window_run X w1 display display p d screen scr) by auto.
    fold h. fold id. rewrite lookup_window_run. change XID_None with 0.
    apply Z.eqb_neq in Hid. rewrite Hid. cbv zeta. subst w1. simpl.
    rewrite lookup_insert_eq. simpl. rewrite typ16_of_new_cell. simpl.
    reflexivity.
  - by rewrite (destroy_window_run _ _ _ _ _ _ Hx1 Hd1 Hs).
  - apply (xwindow_free_inert _ _ _ _ Hx1). by right.
  - by rewrite (clear_window_run _ _ _ _ _ _ Hx1 Hd1 Hs).
Qed.

Lemma is_xwindow_create w window p x (a : addr) (pw : ptr) c b h t :
  is_xwindow w window p x ->
  cells w !! a = None -> blocks w !! pw = None ->
  is_xwindow
    {| cells := <[a := c]> (cells w); blocks := <[pw := b]> (blocks w);
       resource_id_hash := h; trace := t |} window p x.
Proof.
  intros (Ht & Hp & Hb) Ha Hpw. destruct window as [| | | | | |y];
    try discriminate.
  unfold is_xwindow, typ16_of, smob_data_of in *. simpl.
  assert (a <> y) by (intros ->; by rewrite Ha in Ht).
  assert (pw <> p) by (intros ->; congruence).
  by rewrite !lookup_insert_ne.
Qed.

(** * Copying areas *)

Lemma scm_to_uint_run n w :
  0 <= n <= UINT_MAX -> scm_to_uint (SCM_INUM n) w = (Ok n, w).
Proof.
  intros [H1 H2]. unfold scm_to_uint.
  apply Z.leb_le in H1, H2. by rewrite H1, H2.
Qed.

Lemma copy_area_run w source destination gc ps s pt t pg g sx sy wd ht dx dy :
  is_xwindow w source ps s -> is_xwindow w destination pt t ->
  is_xgc w gc pg g ->
  INT_MIN <= sx <= INT_MAX -> INT_MIN <= sy <= INT_MAX ->
  0 <= wd <= UINT_MAX -> 0 <= ht <= UINT_MAX ->
  INT_MIN <= dx <= INT_MAX -> INT_MIN <= dy <= INT_MAX ->
  let drawable := Z.lor XWINDOW_STATE_MAPPED
                    (Z.lor XWINDOW_STATE_PIXMAP XWINDOW_STATE_THIRD_PARTY) in
  scm_x_copy_area_x source destination gc (SCM_INUM sx) (SCM_INUM sy)
    (SCM_INUM wd) (SCM_INUM ht) (SCM_INUM dx) (SCM_INUM dy) w =
    if Z.land (xwindow_state s) drawable =? 0 then
      (Throw (win_state_error "x-copy-area!" source (xwindow_state s)), w)
    else if Z.land (xwindow_state t) drawable =? 0 then
      (Throw (win_state_error "x-copy-area!" destination (xwindow_state t)),
       w)
    else if Z.land (xgc_state g)
              (Z.lor XGC_STATE_CREATED XGC_STATE_DEFAULT) =? 0 then
      (Throw (gc_state_error "x-copy-area!" gc (xgc_state g)), w)
    else
      match smob_data_of w (xwindow_dsp s) ≫= (blocks w !!.) with
      | Some (B_xdisplay d) =>
          (Ok SCM_UNSPECIFIED,
           set_trace
             (fun tr =>
                tr ++ [XCopyArea (xdisplay_dsp d) (xwindow_win s)
                         (xwindow_win t) (xgc_gc g) sx sy wd ht dx dy]) w)
      | _ => (Throw undefined_behaviour, w)
      end.
Proof.
  intros Hs Ht Hg Hsx Hsy Hwd Hht Hdx Hdy drawable.
  unfold scm_x_copy_area_x. cbv zeta. fold drawable.
  unfold bind at 1. rewrite (valid_win_run _ _ _ _ _ _ _ Hs).
  destruct (Z.land (xwindow_state s) drawable =? 0); [reflexivity|].
  unfold bind at 1. rewrite (valid_win_run _ _ _ _ _ _ _ Ht).
  destruct (Z.land (xwindow_state t) drawable =? 0); [reflexivity|].
  unfold bind at 1. rewrite (valid_gc_run _ _ _ _ _ _ _ Hg).
  destruct (Z.land (xgc_state g) _ =? 0); [reflexivity|].
  unfold bind at 1. rewrite (scm_to_int_run _ _ Hsx).
  unfold bind at 1. rewrite (scm_to_int_run _ _ Hsy).
  unfold bind at 1. rewrite (scm_to_uint_run _ _ Hwd).
  unfold bind at 1. rewrite (scm_to_uint_run _ _ Hht).
  unfold bind at 1. rewrite (scm_to_int_run _ _ Hdx).
  unfold bind at 1. rewrite (scm_to_int_run _ _ Hdy).
  destruct Hs as (Hts & Hps & Hbs), Ht as (Htt & Hpt & Hbt),
    Hg as (Htg & Hpg & Hbg).
  unfold bind at 1, load_xwindow, load. rewrite Hbs. simpl.
  unfold bind at 1, XDISPLAY, SCM_SMOB_DATA.
  destruct (smob_data_of w (xwindow_dsp s)) as [pd|]; [|reflexivity]. simpl.
  unfold bind at 1, load_xdisplay, load.
  destruct (blocks w !! pd) as [[d| | |]|]; try reflexivity. simpl.
  mrun. reflexivity.
Qed.

(** X13.  x-copy-area! with C-int coordinates and sizes, on two drawables
    and a GC.  It takes the display of the source, whatever state that
    display is in and whatever displays the destination and the GC belong
    to, and calls XCopyArea on it once; nothing but the trace changes.  Each
    drawable has to be Mapped, a pixmap or third-party: an Unmapped or
    Destroyed one is refused with the error of its state, and so is a
    Freed GC, before anything is called. *)
Theorem copy_area_contract w source destination gc ps s pt t pg g pd d
    sx sy wd ht dx dy :
  is_xwindow w source ps s -> is_xwindow w destination pt t ->
  is_xgc w gc pg g ->
  is_xdisplay w (xwindow_dsp s) pd d ->
  INT_MIN <= sx <= INT_MAX -> INT_MIN <= sy <= INT_MAX ->
  0 <= wd <= UINT_MAX -> 0 <= ht <= UINT_MAX ->
  INT_MIN <= dx <= INT_MAX -> INT_MIN <= dy <= INT_MAX ->
  let copy := scm_x_copy_area_x source destination gc (SCM_INUM sx)
                (SCM_INUM sy) (SCM_INUM wd) (SCM_INUM ht) (SCM_INUM dx)
                (SCM_INUM dy) in
  let ok z := z = XWINDOW_STATE_MAPPED \/ z = XWINDOW_STATE_PIXMAP \/
              z = XWINDOW_STATE_THIRD_PARTY in
  let bad z := z = XWINDOW_STATE_UNMAPPED \/ z = XWINDOW_STATE_DESTROYED in
  (ok (xwindow_state s) -> ok (xwindow_state t) ->
   xgc_state g = XGC_STATE_CREATED \/ xgc_state g = XGC_STATE_DEFAULT ->
   copy w =
     (Ok SCM_UNSPECIFIED,
      set_trace
        (fun tr =>
           tr ++ [XCopyArea (xdisplay_dsp d) (xwindow_win s) (xwindow_win t)
                    (xgc_gc g) sx sy wd ht dx dy]) w)) /\
  (bad (xwindow_state s) ->
   copy w =
     (Throw (win_state_error "x-copy-area!" source (xwindow_state s)), w)) /\
  (ok (xwindow_state s) -> bad (xwindow_state t) ->
   copy w =
     (Throw (win_state_error "x-copy-area!" destination (xwindow_state t)),
      w)) /\
  (ok (xwindow_state s) -> ok (xwindow_state t) ->
   xgc_state g = XGC_STATE_FREED ->
   copy w =
     (Throw (misc_error "x-copy-area!" "GC ~S has been freed" [gc]), w)).
Proof.
  intros Hs Ht Hg Hd Hsx Hsy Hwd Hht Hdx Hdy copy ok bad. subst copy ok bad.
  cbv beta.
  rewrite (copy_area_run _ _ _ _ _ _ _ _ _ _ _ _ _ _ _ _ Hs Ht Hg
             Hsx Hsy Hwd Hht Hdx Hdy). cbv zeta.
  destruct Hd as (Htd & Hpd & Hbd). rewrite Hpd. simpl. rewrite Hbd.
  repeat split.
  - intros Hos Hot Hog.
    assert ((Z.land (xwindow_state s)
               (Z.lor XWINDOW_STATE_MAPPED
                  (Z.lor XWINDOW_STATE_PIXMAP XWINDOW_STATE_THIRD_PARTY))
             =? 0) = false) as -> by (by destruct Hos as [-> | [-> | ->]]).
    assert ((Z.land (xwindow_state t)
               (Z.lor XWINDOW_STATE_MAPPED
                  (Z.lor XWINDOW_STATE_PIXMAP XWINDOW_STATE_THIRD_PARTY))
             =? 0) = false) as -> by (by destruct Hot as [-> | [-> | ->]]).
    assert ((Z.land (xgc_state g)
               (Z.lor XGC_STATE_CREATED XGC_STATE_DEFAULT) =? 0) = false)
      as -> by (by destruct Hog as [-> | ->]).
    reflexivity.
  - intros Hbs. by destruct Hbs as [-> | ->].
  - intros Hos Hbt.
    assert ((Z.land (xwindow_state s)
               (Z.lor XWINDOW_STATE_MAPPED
                  (Z.lor XWINDOW_STATE_PIXMAP XWINDOW_STATE_THIRD_PARTY))
             =? 0) = false) as -> by (by destruct Hos as [-> | [-> | ->]]).
    by destruct Hbt as [-> | ->].
  - intros Hos Hot ->.
    assert ((Z.land (xwindow_state s)
               (Z.lor XWINDOW_STATE_MAPPED
                  (Z.lor XWINDOW_STATE_PIXMAP XWINDOW_STATE_THIRD_PARTY))
             =? 0) = false) as -> by (by destruct Hos as [-> | [-> | ->]]).
    assert ((Z.land (xwindow_state t)
               (Z.lor XWINDOW_STATE_MAPPED
                  (Z.lor XWINDOW_STATE_PIXMAP XWINDOW_STATE_THIRD_PARTY))
             =? 0) = false) as -> by (by destruct Hot as [-> | [-> | ->]]).
    reflexivity.
Qed.

(** X14.  x-root-window hands its first argument, as it came, to
    [lookup_window] for the display of a new root smob.  Given a window
    instead of its display, the root smob it makes holds that window where
    a display belongs: [valid_dsp], and with it x-display-of and
    x-clear-window!, refuse the smob with a wrong-type error on the
    window, and x-copy-area!, which does not check, reads the window
    structure as a display structure. *)
Theorem root_window_of_window X w window p x pd d :
  is_xwindow w window p x ->
  is_xdisplay w (xwindow_dsp x) pd d ->
  xdisplay_state d = XDISPLAY_STATE_OPEN ->
  let h := xdisplay_dsp d in
  let id := RootWindow X h (DefaultScreen X h) in
  id <> 0 ->
  resource_id_hash w !! int_of_XID id = None ->
  exists root pr w1,
    scm_x_root_window X window SCM_UNDEFINED w = (Ok root, w1) /\
    is_xwindow w1 root pr (third_party window id) /\
    scm_x_display_of root w1 =
      (Throw (wrong_type_arg "x-display-of" 1 window), w1) /\
    scm_x_clear_window_x root w1 =
      (Throw (wrong_type_arg "x-clear-window!" 1 window), w1) /\
    (forall gc pg g,
       is_xgc w1 gc pg g -> xgc_state g = XGC_STATE_CREATED ->
       scm_x_copy_area_x root root gc (SCM_INUM 0) (SCM_INUM 0) (SCM_INUM 1)
         (SCM_INUM 1) (SCM_INUM 0) (SCM_INUM 0) w1 =
         (Throw undefined_behaviour, w1)).
Proof.
  intros Hx Hd Hs h id Hid Hh.
  assert (Hv : valid_dsp window SCM_ARG1 XDISPLAY_STATE_OPEN
                 "x-root-window" w = (Ok (xwindow_dsp x), w))
    by (by rewrite (valid_dsp_on_window _ _ _ _ _ _ _ _ _ Hx Hd), Hs).
  assert (Hnt : typ16_of w window <> scm_tc16_xscreen)
    by (destruct Hx as (Ht & _); congruence).
  rewrite (root_window_run X w window _ pd d SCM_UNDEFINED
             (DefaultScreen X h) Hv Hd Hnt (or_introl (conj eq_refl eq_refl))).
  fold h. fold id. rewrite (lookup_window_fresh _ _ _ _ Hid Hh).
  pose proof (fresh_block w) as Hfb. pose proof (fresh_cell w) as Hfc.
  set (w1 := {| cells := _; blocks := _; resource_id_hash := _;
                trace := _ |}).
  assert (Hr : is_xwindow w1 (SCM_CELL (fresh (dom (cells w))))
                 (fresh (dom (blocks w))) (third_party window id))
    by apply is_xwindow_new.
  assert (Hx1 : is_xwindow w1 window p x) by (by apply is_xwindow_create).
  assert (Hn : typ16_of w1 (xwindow_dsp (third_party window id))
               <> scm_tc16_xdisplay)
    by (destruct Hx1 as (Ht & _); simpl; congruence).
  eexists _, _, w1. split; [reflexivity|]. split; [exact Hr|].
  split; [|split].
  - unfold scm_x_display_of. by rewrite (valid_dsp_wrong_owner _ _ _ _ _ _ _ Hr Hn).
  - unfold scm_x_clear_window_x. cbv zeta. unfold bind at 1.
    by rewrite (valid_dsp_wrong_owner _ _ _ _ _ _ _ Hr Hn).
  - clearbody w1. intros gc pg g Hg Hst.
    rewrite (copy_area_run _ _ _ _ _ _ _ _ _ _ 0 0 1 1 0 0 Hr Hr Hg)
      by (unfold INT_MIN, INT_MAX, UINT_MAX; lia).
    cbv zeta. rewrite Hst. simpl xwindow_state. simpl xwindow_dsp.
    change (Z.land XWINDOW_STATE_THIRD_PARTY _ =? 0) with false.
    change (Z.land XGC_STATE_CREATED _ =? 0) with false. cbv iota.
    destruct Hx1 as (_ & Hp1 & Hb1). rewrite Hp1. simpl. by rewrite Hb1.
Qed.

(** * The free hooks, once more *)

Lemma is_xgc_set_state w gc p g s tr :
  is_xgc w gc p g ->
  is_xgc
    (set_blocks <[p := B_xgc (with_xgc_state s g)]> (set_trace tr w))
    gc p (with_xgc_state s g).
Proof.
  intros (Ht & Hp & Hb). repeat split; autorewrite with heap; try done.
  simpl. apply lookup_insert_eq.
Qed.

Lemma is_xdisplay_set_gc w display pd d p g g' tr :
  is_xdisplay w display pd d -> blocks w !! p = Some (B_xgc g) ->
  is_xdisplay (set_blocks <[p := B_xgc g']> (set_trace tr w)) display pd d.
Proof.
  intros (Ht & Hp & Hb) Hx. repeat split; autorewrite with heap; try done.
  simpl. rewrite lookup_insert_ne; [done|]. intros ->. congruence.
Qed.

Lemma xgc_free_inert w gc p g :
  is_xgc w gc p g -> xgc_state g <> XGC_STATE_CREATED ->
  xgc_free gc w = (Ok 0, w).
Proof.
  intros (Ht & Hp & Hb) Hst. unfold xgc_free.
  set (c := scm_x_free_gc_x gc). mrun.
  apply Z.eqb_neq in Hst. rewrite Hst. simpl. by rewrite ?andb_false_r.
Qed.

(** X15.  The free hook of an Unmapped or Mapped window of an open
    display destroys the window: one XDestroyWindow, the structure left
    Destroyed.  Run once more (or after x-destroy-window!, see
    [destroy_window_once]) it does nothing: the window is destroyed
    once. *)
Theorem xwindow_free_once w win p x pd d :
  is_xwindow w win p x ->
  is_xdisplay w (xwindow_dsp x) pd d ->
  xdisplay_state d = XDISPLAY_STATE_OPEN ->
  xwindow_state x = XWINDOW_STATE_UNMAPPED \/
  xwindow_state x = XWINDOW_STATE_MAPPED ->
  exists w1,
    xwindow_free win w = (Ok 0, w1) /\
    trace w1 = trace w ++ [XDestroyWindow (xdisplay_dsp d) (xwindow_win x)] /\
    is_xwindow w1 win p (with_xwindow_state XWINDOW_STATE_DESTROYED x) /\
    xwindow_free win w1 = (Ok 0, w1).
Proof.
  intros Hx Hd Hs Hst.
  pose proof (destroy_window_run _ _ _ _ _ _ Hx Hd Hs) as Hrun.
  assert ((Z.land (xwindow_state x)
             (Z.lnot (Z.lor XWINDOW_STATE_DESTROYED
                        (Z.lor XWINDOW_STATE_THIRD_PARTY
                           XWINDOW_STATE_PIXMAP))) =? 0) = false) as E
    by (by destruct Hst as [-> | ->]).
  rewrite E in Hrun.
  pose proof (is_xwindow_set_state w win p x XWINDOW_STATE_DESTROYED
                (fun t => t ++ [XDestroyWindow (xdisplay_dsp d)
                                  (xwindow_win x)]) Hx) as Hx1.
  eexists. split; [|split; [|split; [exact Hx1|]]].
  - pose proof Hx as (Ht & Hp & Hb). pose proof Hd as (Ht' & _).
    unfold xwindow_free.
    set (c := scm_x_destroy_window_x win) in *. clearbody c. mrun.
    assert (negb (xwindow_state x =? XWINDOW_STATE_DESTROYED)
            && negb (xwindow_state x =? XWINDOW_STATE_THIRD_PARTY) = true)
      as -> by (by destruct Hst as [-> | ->]).
    simpl. rewrite Hrun. reflexivity.
  - reflexivity.
  - apply (xwindow_free_inert _ _ _ _ Hx1). by left.
Qed.

(** X16.  The free hook of a GC frees a Created GC of an open display:
    one XFreeGC, the structure left Freed.  On the default GC and on a
    freed GC it does nothing, so that it does nothing when run once more
    or after x-free-gc!: a GC is freed once, the default GC never. *)
Theorem xgc_free_once w gc p g pd d :
  is_xgc w gc p g ->
  is_xdisplay w (xgc_dsp g) pd d ->
  xdisplay_state d = XDISPLAY_STATE_OPEN ->
  (xgc_state g = XGC_STATE_DEFAULT \/ xgc_state g = XGC_STATE_FREED ->
   xgc_free gc w = (Ok 0, w)) /\
  (xgc_state g = XGC_STATE_CREATED ->
   exists w1,
     xgc_free gc w = (Ok 0, w1) /\
     scm_x_free_gc_x gc w = (Ok SCM_UNSPECIFIED, w1) /\
     trace w1 = trace w ++ [XFreeGC (xdisplay_dsp d) (xgc_gc g)] /\
     is_xgc w1 gc p (with_xgc_state XGC_STATE_FREED g) /\
     xgc_free gc w1 = (Ok 0, w1)).
Proof.
  intros Hg Hd Hs. split.
  - intros Hst. apply (xgc_free_inert _ _ _ _ Hg).
    by destruct Hst as [-> | ->].
  - intros Hst.
    pose proof (free_gc_run _ _ _ _ _ _ Hg Hd Hs) as Hrun.
    rewrite Hst in Hrun.
    change (Z.land XGC_STATE_CREATED XGC_STATE_CREATED =? 0) with false
      in Hrun. cbv iota in Hrun.
    pose proof (is_xgc_set_state w gc p g XGC_STATE_FREED
                  (fun t => t ++ [XFreeGC (xdisplay_dsp d) (xgc_gc g)]) Hg)
      as Hg1.
    eexists. split; [|split; [exact Hrun|split; [|split; [exact Hg1|]]]].
    + pose proof Hg as (Ht & Hp & Hb). pose proof Hd as (Ht' & _).
      unfold xgc_free.
      set (c := scm_x_free_gc_x gc) in *. clearbody c. mrun.
      rewrite Hst. simpl.
      rewrite Hrun. reflexivity.
    + reflexivity.
    + by apply (xgc_free_inert _ _ _ _ Hg1).
Qed.

(** * Drawing *)

Lemma draw_prefix valid_data w window p x pd d gc pg g data type func :
  is_xwindow w window p x -> is_xdisplay w (xwindow_dsp x) pd d ->
  xdisplay_state d = XDISPLAY_STATE_OPEN ->
  is_xgc w gc pg g ->
  draw valid_data window gc data type func w =
    if Z.land (xwindow_state x) (Z.lnot XWINDOW_STATE_DESTROYED) =? 0 then
      (Throw (win_state_error func window (xwindow_state x)), w)
    else if Z.land (xgc_state g) (Z.lnot XGC_STATE_FREED) =? 0 then
      (Throw (gc_state_error func gc (xgc_state g)), w)
    else
      match valid_data data SCM_ARG3 type func w with
      | (Ok dat, w') =>
          match blocks w' !! pd, blocks w' !! p, blocks w' !! pg with
          | Some (B_xdisplay d'), Some (B_xwindow x'), Some (B_xgc g') =>
              let h := xdisplay_dsp d' in
              let n := snd dat in
              if type =? XDATA_ARCS then
                (Ok SCM_UNSPECIFIED,
                 set_trace (fun t => t ++ [XDrawArcs h (xwindow_win x')
                                             (xgc_gc g') n]) w')
              else if type =? XDATA_LINES then
                (Ok SCM_UNSPECIFIED,
                 set_trace (fun t => t ++ [XDrawLines h (xwindow_win x')
                                             (xgc_gc g') n]) w')
              else if type =? XDATA_POINTS then
                (Ok SCM_UNSPECIFIED,
                 set_trace (fun t => t ++ [XDrawPoints h (xwindow_win x')
                                             (xgc_gc g') n]) w')
              else if type =? XDATA_SEGMENTS then
                (Ok SCM_UNSPECIFIED,
                 set_trace (fun t => t ++ [XDrawSegments h (xwindow_win x')
                                             (xgc_gc g') n]) w')
              else if type =? XDATA_RECTANGLES then
                (Ok SCM_UNSPECIFIED,
                 set_trace (fun t => t ++ [XDrawRectangles h (xwindow_win x')
                                             (xgc_gc g') n]) w')
              else
                (Throw (misc_error func "Internal X data type error (~S)"
                          [SCM_INUM type]), w')
          | _, _, _ => (Throw undefined_behaviour, w')
          end
      | (Throw e, w') => (Throw e, w')
      end.
Proof.
  intros Hx Hd Hs Hg. unfold draw, bind at 1.
  rewrite (valid_dsp_on_window _ _ _ _ _ _ _ _ _ Hx Hd), Hs.
  change (Z.land XDISPLAY_STATE_OPEN XDISPLAY_STATE_OPEN =? 0) with false.
  cbv beta iota. unfold XDISPLAY, bind at 1.
  destruct Hd as (Ht' & Hp' & Hb'). unfold SCM_SMOB_DATA at 1. rewrite Hp'.
  unfold bind at 1. rewrite (valid_win_run _ _ _ _ _ _ _ Hx).
  destruct (Z.land (xwindow_state x) _ =? 0); [reflexivity|].
  unfold bind at 1. rewrite (valid_gc_run _ _ _ _ _ _ _ Hg).
  destruct (Z.land (xgc_state g) _ =? 0); [reflexivity|].
  unfold bind at 1.
  destruct (valid_data data SCM_ARG3 type func w) as [[dat|e] w'];
    [|reflexivity].
  unfold bind at 1, load_xdisplay, load.
  destruct (blocks w' !! pd) as [[d'| | |]|]; try reflexivity. simpl.
  unfold bind at 1, load_xwindow, load.
  destruct (blocks w' !! p) as [[|  |x'|]|]; try reflexivity. simpl.
  unfold bind at 1, load_xgc, load.
  destruct (blocks w' !! pg) as [[| | |g']|]; try reflexivity. simpl.
  repeat (destruct (type =? _); [reflexivity|]). reflexivity.
Qed.

(** X17.  The five drawing primitives on a window that is not Destroyed,
    of an open display, with a GC that is not Freed: once [valid_data] has
    accepted the data, each makes the one Xlib call of its own kind, on
    the display of the window, with the number of items [valid_data]
    counted, and nothing but the trace changes; an error of [valid_data]
    comes out as it is.  The data-type error of [draw] is out of their
    reach. *)
Theorem draw_dispatch valid_data w window p x pd d gc pg g data :
  is_xwindow w window p x ->
  is_xdisplay w (xwindow_dsp x) pd d ->
  xdisplay_state d = XDISPLAY_STATE_OPEN ->
  is_xgc w gc pg g ->
  xwindow_state x ∈ xwindow_states ->
  xwindow_state x <> XWINDOW_STATE_DESTROYED ->
  xgc_state g = XGC_STATE_CREATED \/ xgc_state g = XGC_STATE_DEFAULT ->
  let h := xdisplay_dsp d in
  let id := xwindow_win x in
  let done c := (Ok SCM_UNSPECIFIED, set_trace (fun t => t ++ [c]) w) in
  (forall dat n,
     valid_data data SCM_ARG3 XDATA_ARCS "x-draw-arcs!" w = (Ok (dat, n), w) ->
     scm_x_draw_arcs_x valid_data window gc data w =
       done (XDrawArcs h id (xgc_gc g) n)) /\
  (forall dat n,
     valid_data data SCM_ARG3 XDATA_LINES "x-draw-lines!" w
       = (Ok (dat, n), w) ->
     scm_x_draw_lines_x valid_data window gc data w =
       done (XDrawLines h id (xgc_gc g) n)) /\
  (forall dat n,
     valid_data data SCM_ARG3 XDATA_POINTS "x-draw-points!" w
       = (Ok (dat, n), w) ->
     scm_x_draw_points_x valid_data window gc data w =
       done (XDrawPoints h id (xgc_gc g) n)) /\
  (forall dat n,
     valid_data data SCM_ARG3 XDATA_SEGMENTS "x-draw-segments!" w
       = (Ok (dat, n), w) ->
     scm_x_draw_segments_x valid_data window gc data w =
       done (XDrawSegments h id (xgc_gc g) n)) /\
  (forall dat n,
     valid_data data SCM_ARG3 XDATA_RECTANGLES "x-draw-rectangles!" w
       = (Ok (dat, n), w) ->
     scm_x_draw_rectangles_x valid_data window gc data w =
       done (XDrawRectangles h id (xgc_gc g) n)) /\
  (forall type func e w',
     valid_data data SCM_ARG3 type func w = (Throw e, w') ->
     draw valid_data window gc data type func w = (Throw e, w')).
Proof.
  intros Hx Hd Hs Hg Hin Hnd Hgs h id done. subst h id done.
  assert (Hw : (Z.land (xwindow_state x) (Z.lnot XWINDOW_STATE_DESTROYED)
                =? 0) = false).
  { unfold xwindow_states in Hin.
    rewrite !elem_of_cons, elem_of_nil in Hin.
    destruct_or!; try contradiction; by rewrite Hin. }
  assert (Hgc : (Z.land (xgc_state g) (Z.lnot XGC_STATE_FREED) =? 0) = false)
    by (by destruct Hgs as [-> | ->]).
  unfold scm_x_draw_arcs_x, scm_x_draw_lines_x, scm_x_draw_points_x,
    scm_x_draw_segments_x, scm_x_draw_rectangles_x.
  pose proof Hd as (_ & _ & Hbd). pose proof Hx as (_ & _ & Hbx).
  pose proof Hg as (_ & _ & Hbg).
  repeat split; intros;
    rewrite (draw_prefix _ _ _ _ _ _ _ _ _ _ _ _ _ Hx Hd Hs Hg), Hw, Hgc;
    match goal with H : valid_data _ _ _ _ _ = _ |- _ => rewrite H end;
    rewrite ?Hbd, ?Hbx, ?Hbg; reflexivity.
Qed.

(** * The heap invariant *)

Lemma typed_lookup w x t :
  heap_typed w -> typ16_of w x = t ->
  t <> scm_tc16_other ->
  exists p, smob_data_of w x = Some p /\ block_of_type t (blocks w !! p).
Proof.
  intros Hty Ht Hn. destruct x as [| | | | | |a]; try done.
  unfold typ16_of in Ht. unfold smob_data_of.
  destruct (cells w !! a) as [c|] eqn:Hc; [|done].
  exists (cell_data c). split; [done|]. subst t. by apply (Hty a).
Qed.

Lemma typed_display w x :
  wf_heap w -> typ16_of w x = scm_tc16_xdisplay ->
  exists p d, is_xdisplay w x p d /\ legal_block (B_xdisplay d).
Proof.
  intros [Hty Hl] Ht.
  destruct (typed_lookup w x _ Hty Ht) as (p & Hp & d & Hb); [done|].
  exists p, d. split; [done|]. by apply (Hl p).
Qed.




Lemma not_internal_misc f m args :
  m ∉ ["Corrupt display state (~S)"; "Corrupt window state (~S)";
       "Corrupt GC state (~S)"; "Internal X data type error (~S)"] ->
  ~ internal_error (misc_error f m args).
Proof. intros H. exact H. Qed.

Ltac not_internal :=
  first
    [ by intros []
    | let H := fresh in
      intros H; simpl in H; rewrite !elem_of_cons, elem_of_nil in H;
      destruct_or!; (discriminate || contradiction) ].

Lemma dsp_state_error_benign f x e :
  e = XDISPLAY_STATE_OPEN -> ~ internal_error (dsp_state_error f x e).
Proof. intros ->. cbv -[elem_of]. not_internal. Qed.



Lemma valid_dsp_of_display w x pos e f :
  wf_heap w -> typ16_of w x = scm_tc16_xdisplay ->
  e = XDISPLAY_STATE_OPEN \/ e = XDISPLAY_STATE_ANY ->
  (exists p d, valid_dsp x pos e f w = (Ok x, w) /\ is_xdisplay w x p d /\
               Z.land (xdisplay_state d) e <> 0) \/
  (exists er, valid_dsp x pos e f w = (Throw er, w) /\ ~ internal_error er).
Proof.
  intros Hwf Ht He. destruct (typed_display _ _ Hwf Ht) as (p & d & Hd & Hl).
  rewrite (valid_dsp_on_display _ _ _ _ _ _ _ Hd).
  destruct (Z.land (xdisplay_state d) e =? 0) eqn:Hz.
  - right. eexists. split; [reflexivity|].
    destruct He as [-> | ->]; [by apply dsp_state_error_benign|].
    simpl in Hl. by destruct Hl as [Hl | Hl]; rewrite Hl in Hz.
  - left. exists p, d. apply Z.eqb_neq in Hz. done.
Qed.






Lemma scm_to_uint_cases x w :
  (exists n, scm_to_uint x w = (Ok n, w) /\ x = SCM_INUM n) \/
  (exists er, scm_to_uint x w = (Throw er, w) /\ ~ internal_error er).
Proof.
  unfold scm_to_uint. destruct x; try (right; eexists; split;
    [reflexivity|not_internal]).
  destruct (_ && _); [left; by eexists|].
  right; eexists; split; [reflexivity|not_internal].
Qed.





(** * Keeping the heap in order *)




Lemma block_of_type_None t : block_of_type t None -> t <> scm_tc16_xdisplay /\
  t <> scm_tc16_xscreen /\ t <> scm_tc16_xwindow /\ t <> scm_tc16_xgc.
Proof. destruct t; simpl; try done; by intros [? ?]. Qed.

Lemma wf_heap_alloc w w' a p t b :
  wf_heap w -> cells w !! a = None -> blocks w !! p = None ->
  block_of_type t (Some b) -> legal_block b ->
  cells w' = <[a := {| cell_typ16 := t; cell_data := p |}]> (cells w) ->
  blocks w' = <[p := b]> (blocks w) -> wf_heap w'.
Proof.
  intros [Hty Hl] Ha Hp Hk Hlb Hc Hbs. split.
  - intros a' c. rewrite Hc, Hbs. destruct (decide (a = a')) as [<-|Hne].
    + rewrite lookup_insert_eq. intros [= <-]. simpl.
      by rewrite lookup_insert_eq.
    + rewrite lookup_insert_ne by done. intros Ha'.
      specialize (Hty a' c Ha').
      destruct (decide (p = cell_data c)) as [E|Hne'].
      * rewrite <- E, Hp in Hty. apply block_of_type_None in Hty.
        destruct Hty as (? & ? & ? & ?).
        destruct (cell_typ16 c); simpl; done.
      * by rewrite lookup_insert_ne.
  - intros q b0. rewrite Hbs. destruct (decide (p = q)) as [<-|Hne].
    + rewrite lookup_insert_eq. by intros [= <-].
    + rewrite lookup_insert_ne by done. apply Hl.
Qed.

Lemma sound_intro {A} w (r : result A) w' ev :
  wf_heap w' -> trace w' = trace w ++ ev -> calls_on_open w ev ->
  (forall e, r = Throw e -> ~ internal_error e) ->
  sound w (r, w').
Proof. intros. split; [done|]. split; [by exists ev|done]. Qed.

Lemma calls_on_open_nil w : calls_on_open w [].
Proof. intros c h Hin. by apply elem_of_nil in Hin. Qed.









Lemma wf_heap_new w w' t b :
  cells w' =
    <[fresh (dom (cells w)) :=
        {| cell_typ16 := t; cell_data := fresh (dom (blocks w)) |}]>
      (cells w) ->
  blocks w' = <[fresh (dom (blocks w)) := b]> (blocks w) ->
  wf_heap w -> block_of_type t (Some b) -> legal_block b -> wf_heap w'.
Proof.
  intros Hc Hb Hwf Hk Hl.
  eapply wf_heap_alloc; eauto using fresh_cell, fresh_block.
Qed.

Ltac legal_tac :=
  simpl; unfold xwindow_states, xgc_states; rewrite ?elem_of_cons;
  first [exact I | intuition congruence].

Ltac wf_new Hwf :=
  eapply wf_heap_new;
  [simpl; reflexivity
  |simpl; rewrite ?insert_insert_eq; reflexivity
  |exact Hwf
  |simpl; by eexists
  |legal_tac].

















Lemma lookup_window_sound w0 w display id func :
  wf_heap w -> trace w = trace w0 ++ [] \/
               (exists c, trace w = trace w0 ++ [c] /\ call_display c = None) ->
  sound w0 (lookup_window display id func w).
Proof.
  intros Hwf Htr.
  assert (Hev : exists ev, trace w = trace w0 ++ ev /\ calls_on_open w0 ev).
  { destruct Htr as [Htr|(c & Htr & Hc)]; eexists; (split; [exact Htr|]).
    - apply calls_on_open_nil.
    - intros c' h Hin. apply list_elem_of_singleton in Hin as ->. congruence. }
  destruct Hev as (ev & Htr' & Hev).
  rewrite lookup_window_run. destruct (id =? XID_None).
  { by eapply sound_intro. }
  cbv zeta. destruct (_ || _).
  - eapply sound_intro; [|exact Htr'|exact Hev|done]. wf_new Hwf.
  - by eapply sound_intro.
Qed.





Section Encoders.

Variable valid_data : SCM -> nat -> Z -> string -> M (Z * Z).
Variable gc_changes : SCM -> string -> M Z.
Hypothesis valid_data_reads :
  forall data pos type func, reads_only (valid_data data pos type func).
Hypothesis gc_changes_reads :
  forall changes func, reads_only (gc_changes changes func).




End Encoders.

(** * x-copy-area!, the sweep *)

















Lemma open_display_block_frame w w' q h :
  blocks w' = blocks w -> open_display_block w' q h ->
  open_display_block w q h.
Proof. intros Hb (d & Hq & Ho). rewrite Hb in Hq. by exists d. Qed.

Lemma calls_on_open_snoc w ev c :
  calls_on_open w ev ->
  (forall h, call_display c = Some h -> exists p, open_display_block w p h) ->
  calls_on_open w (ev ++ [c]).
Proof.
  intros Hev Hc c' h Hin Hd. apply elem_of_app in Hin as [Hin|Hin].
  - by eapply Hev.
  - apply list_elem_of_singleton in Hin as ->. by apply Hc.
Qed.

Lemma sweep_calls_step w0 w ev w' :
  sweep_calls w0 w ev -> hook_step w w' -> exists ev', sweep_calls w0 w' ev'.
Proof.
  intros (Ht & Hev & Hh & Hsub) Hstep.
  destruct Hstep as [|p d Hb Hs|pd d pw x Hb Ho Hw|pd d pg g Hb Ho Hg].
  - by exists ev.
  - exists (ev ++ [XCloseDisplay (xdisplay_dsp d)]). repeat split.
    + simpl. by rewrite Ht, app_assoc.
    + apply calls_on_open_snoc; [done|]. intros h [= <-]. exists p.
      apply Hsub. exists d. by rewrite Hs.
    + apply Forall_app. split; [done|]. by repeat constructor.
    + intros q h (d' & Hq & Ho' & Hd'). simpl in Hq. apply Hsub.
      destruct (decide (p = q)) as [->|Hne].
      * rewrite lookup_insert_eq in Hq. injection Hq as <-. by destruct Ho'.
      * rewrite lookup_insert_ne in Hq by done. by exists d'.
  - exists (ev ++ [XDestroyWindow (xdisplay_dsp d) (xwindow_win x)]).
    repeat split.
    + simpl. by rewrite Ht, app_assoc.
    + apply calls_on_open_snoc; [done|]. intros h [= <-]. exists pd.
      apply Hsub. by exists d.
    + apply Forall_app. split; [done|]. by repeat constructor.
    + intros q h Hq. apply Hsub.
      by apply (open_display_block_insert w _ pw
                  (B_xwindow (with_xwindow_state XWINDOW_STATE_DESTROYED x))
                  h q) in Hq.
  - exists (ev ++ [XFreeGC (xdisplay_dsp d) (xgc_gc g)]). repeat split.
    + simpl. by rewrite Ht, app_assoc.
    + apply calls_on_open_snoc; [done|]. intros h [= <-]. exists pd.
      apply Hsub. by exists d.
    + apply Forall_app. split; [done|]. by repeat constructor.
    + intros q h Hq. apply Hsub.
      by apply (open_display_block_insert w _ pg
                  (B_xgc (with_xgc_state XGC_STATE_FREED g)) h q) in Hq.
Qed.

Lemma sweep_calls_sweep garbage : forall w0 w ev,
  sweep_calls w0 w ev -> exists ev', sweep_calls w0 (gc_sweep garbage w) ev'.
Proof.
  induction garbage as [|a garbage IH]; intros w0 w ev Hinv.
  - by exists ev.
  - change (gc_sweep (a :: garbage) w)
      with (gc_sweep garbage (sweep_cell w a)).
    destruct (sweep_calls_step _ _ _ _ Hinv
                (smob_free_step w (SCM_CELL a))) as (ev1 & H1).
    apply (IH w0 _ ev1). exact H1.
Qed.

(** X21.  A sweep of the collector, whatever cells it is given and in
    whatever order, calls nothing in Xlib but XCloseDisplay,
    XDestroyWindow and XFreeGC, and each of them on the handle of a
    display structure that was Open when the sweep began. *)
Theorem sweep_calls_hooks_on_open garbage w :
  exists ev,
    trace (gc_sweep garbage w) = trace w ++ ev /\
    Forall is_hook_call ev /\
    calls_on_open w ev.
Proof.
  destruct (sweep_calls_sweep garbage w w []) as (ev & Ht & Hev & Hh & _).
  - repeat split; [by rewrite app_nil_r|apply calls_on_open_nil|done|done].
  - by exists ev.
Qed.

Lemma closes_once_snoc ev c :
  closes_once ev -> (forall h, c = XCloseDisplay h -> c ∉ ev) ->
  closes_once (ev ++ [c]).
Proof.
  intros Hev Hc h i j Hi Hj.
  assert (Hl : forall k, (ev ++ [c]) !! k = Some (XCloseDisplay h) ->
                 (k < length ev)%nat /\ ev !! k = Some (XCloseDisplay h) \/
                 k = length ev /\ c = XCloseDisplay h).
  { intros k Hk. destruct (decide (k < length ev)%nat) as [Hlt|Hge].
    - left. by rewrite lookup_app_l in Hk.
    - right. rewrite lookup_app_r in Hk by lia.
      destruct (k - length ev)%nat as [|n] eqn:E; simpl in Hk; [|done].
      split; [lia|congruence]. }
  destruct (Hl _ Hi) as [[_ Hi']|[-> Hci]], (Hl _ Hj) as [[_ Hj']|[-> Hcj]].
  - by eapply Hev.
  - destruct (Hc h Hcj). subst c. by eapply list_elem_of_lookup_2.
  - destruct (Hc h Hci). subst c. by eapply list_elem_of_lookup_2.
  - done.
Qed.

Lemma closes_once_step t0 w ev w' :
  sweep_inv t0 w ev -> closes_once ev -> hook_step w w' ->
  exists ev', sweep_inv t0 w' ev' /\ closes_once ev'.
Proof.
  intros Hinv Hev Hstep.
  destruct (sweep_inv_step _ _ _ _ Hinv Hstep) as (ev' & Hinv').
  exists ev'. split; [done|].
  destruct Hinv as (Ht & Hdist & Hclosed & _), Hinv' as (Ht' & _).
  destruct Hstep as [|p d Hb Hs|pd d pw x Hb Ho Hw|pd d pg g Hb Ho Hg].
  - rewrite Ht in Ht'. by apply app_inv_head in Ht' as <-.
  - simpl in Ht'. rewrite Ht, <- app_assoc in Ht'.
    apply app_inv_head in Ht' as <-. apply closes_once_snoc; [done|].
    intros h [= <-] Hin. apply (Hclosed _ Hin p). exists d. by rewrite Hs.
  - simpl in Ht'. rewrite Ht, <- app_assoc in Ht'.
    apply app_inv_head in Ht' as <-. by apply closes_once_snoc.
  - simpl in Ht'. rewrite Ht, <- app_assoc in Ht'.
    apply app_inv_head in Ht' as <-. by apply closes_once_snoc.
Qed.

Lemma closes_once_sweep garbage : forall t0 w ev,
  sweep_inv t0 w ev -> closes_once ev ->
  exists ev', sweep_inv t0 (gc_sweep garbage w) ev' /\ closes_once ev'.
Proof.
  induction garbage as [|a garbage IH]; intros t0 w ev Hinv Hev.
  - by exists ev.
  - change (gc_sweep (a :: garbage) w)
      with (gc_sweep garbage (sweep_cell w a)).
    destruct (closes_once_step _ _ _ _ Hinv Hev
                (smob_free_step w (SCM_CELL a))) as (ev1 & H1 & H2).
    apply (IH t0 _ ev1); [|done]. unfold sweep_cell.
    by apply sweep_inv_free_cell.
Qed.

(** X22.  In a world where no two open display structures hold the same
    handle, a sweep of the collector, whatever cells it is given and in
    whatever order (a display smob may come twice), closes no display
    twice. *)
Theorem sweep_closes_once garbage w :
  handles_distinct w ->
  exists ev,
    trace (gc_sweep garbage w) = trace w ++ ev /\ closes_once ev.
Proof.
  intros Hdist.
  destruct (closes_once_sweep garbage (trace w) w [])
    as (ev & (Ht & _) & Hev).
  - repeat split; [by rewrite app_nil_r | done | |].
    + intros h Hin. by apply elem_of_nil in Hin.
    + intros (i & j & h & c & _ & Hi & _). by rewrite lookup_nil in Hi.
  - intros h i j Hi. by rewrite lookup_nil in Hi.
  - by exists ev.
Qed.

(** * The session, checked *)


Lemma demo_is_display :
  is_xdisplay demo_world demo_display 1%positive demo_xdisplay.
Proof. repeat split; vm_compute; reflexivity. Qed.

Lemma demo_is_window :
  is_xwindow demo_world demo_window 2%positive demo_xwindow.
Proof. repeat split; vm_compute; reflexivity. Qed.

Lemma demo_is_pixmap :
  is_xwindow demo_world demo_pixmap 3%positive demo_xpixmap.
Proof. repeat split; vm_compute; reflexivity. Qed.

Lemma demo_is_gc : is_xgc demo_world demo_gc 4%positive demo_xgc.
Proof. repeat split; vm_compute; reflexivity. Qed.

Lemma demo_mapped_is_window :
  is_xwindow demo_world_mapped demo_window 2%positive demo_xwindow_mapped.
Proof. repeat split; vm_compute; reflexivity. Qed.

Lemma demo_mapped_is_display :
  is_xdisplay demo_world_mapped demo_display 1%positive demo_xdisplay.
Proof. repeat split; vm_compute; reflexivity. Qed.

Lemma demo_mapped_is_gc : is_xgc demo_world_mapped demo_gc 4%positive demo_xgc.
Proof. repeat split; vm_compute; reflexivity. Qed.

Lemma demo_is_screen :
  is_xscreen demo_world_screen demo_screen 5%positive demo_xscreen.
Proof. repeat split; vm_compute; reflexivity. Qed.


Lemma create_window_registers_witness :
  is_xdisplay demo_world demo_display 1%positive demo_xdisplay /\
  exists win pw w1,
    scm_x_create_window_x demo_xlib demo_display demo_world = (Ok win, w1) /\
    is_xwindow w1 win pw
      {| xwindow_dsp := demo_display; xwindow_win := 50;
         xwindow_state := XWINDOW_STATE_UNMAPPED |} /\
    lookup_window demo_display 50 "x-next-event!" w1 = (Ok win, w1).
Proof.
  split; [exact demo_is_display|].
  pose proof (create_window_registers demo_xlib demo_world demo_display
                1%positive demo_xdisplay demo_is_display eq_refl) as H.
  cbv zeta in H. destruct H as (win & pw & w1 & H1 & _ & H2 & _ & _ & _ & H3).
  - vm_compute. discriminate.
  - exists win, pw, w1. split; [exact H1|]. split; [exact H2|]. apply H3.
Defined.

Lemma create_window_failure_witness :
  scm_x_create_window_x barren_xlib demo_display demo_world =
    (Throw (misc_error "x-create-window!" "Failed to create X window on ~S"
              [demo_display]),
     {| cells := cells demo_world; blocks := blocks demo_world;
        resource_id_hash := resource_id_hash demo_world;
        trace := trace demo_world ++
                   [XDefaultScreen 1000; XWhitePixel 1000 0;
                    XCreateWindow 1000 1] |}).
Proof.
  apply (create_window_failure barren_xlib demo_world demo_display 1%positive
           demo_xdisplay demo_is_display eq_refl).
  reflexivity.
Defined.


Lemma create_gc_created_witness :
  is_xwindow demo_world demo_window 2%positive demo_xwindow /\
  exists gc pg w1,
    scm_x_create_gc_x demo_xlib demo_gc_changes demo_window SCM_BOOL_F
      demo_world = (Ok gc, w1) /\
    is_xgc w1 gc pg
      {| xgc_dsp := demo_display; xgc_gc := 608;
         xgc_state := XGC_STATE_CREATED |} /\
    trace w1 = trace demo_world ++ [XCreateGC 1000 43 0] /\
    exists w2,
      scm_x_free_gc_x gc w1 = (Ok SCM_UNSPECIFIED, w2) /\
      trace w2 = trace w1 ++ [XFreeGC 1000 608].
Proof.
  split; [exact demo_is_window|].
  destruct (create_gc_created demo_xlib demo_gc_changes demo_world
              demo_window 2%positive demo_xwindow 1%positive demo_xdisplay
              SCM_BOOL_F demo_is_window demo_is_display eq_refl)
    as (_ & H).
  specialize (H 0). cbv zeta in H.
  destruct H as (gc & pg & w1 & H1 & _ & H2 & _ & H3 & H4).
  - vm_compute. discriminate.
  - reflexivity.
  - exists gc, pg, w1. split; [exact H1|]. split; [exact H2|].
    split; [exact H3|exact H4].
Defined.

Lemma destroy_window_once_witness :
  is_xwindow demo_world demo_window 2%positive demo_xwindow /\
  exists w1,
    scm_x_destroy_window_x demo_window demo_world = (Ok SCM_UNSPECIFIED, w1) /\
    trace w1 = trace demo_world ++ [XDestroyWindow 1000 43] /\
    scm_x_destroy_window_x demo_window w1 =
      (Throw (misc_error "x-destroy-window!" "Window ~S has been destroyed"
                [demo_window]), w1) /\
    xwindow_free demo_window w1 = (Ok 0, w1).
Proof.
  split; [exact demo_is_window|].
  destruct (destroy_window_once demo_world demo_window 2%positive
              demo_xwindow 1%positive demo_xdisplay demo_is_window
              demo_is_display eq_refl (or_introl eq_refl))
    as (w1 & H1 & H2 & _ & _ & (H3 & _) & H4).
  exists w1. split; [exact H1|]. split; [exact H2|]. split; [exact H3|exact H4].
Defined.

Lemma map_unmap_round_trip_witness :
  is_xwindow demo_world demo_window 2%positive demo_xwindow /\
  (scm_x_map_window_x demo_window >> scm_x_unmap_window_x demo_window)
    demo_world =
    (Ok SCM_UNSPECIFIED,
     set_trace (fun t => t ++ [XMapWindow 1000 43; XUnmapWindow 1000 43])
       demo_world).
Proof.
  split; [exact demo_is_window|].
  destruct (map_unmap_round_trip demo_world demo_window 2%positive
              demo_xwindow 1%positive demo_xdisplay demo_is_window
              demo_is_display eq_refl) as (H & _).
  exact (H eq_refl).
Defined.

Lemma display_of_owner_witness :
  scm_x_display_of demo_display demo_world = (Ok demo_display, demo_world) /\
  scm_x_display_of demo_window demo_world = (Ok demo_display, demo_world) /\
  scm_x_display_of demo_gc demo_world = (Ok demo_display, demo_world) /\
  scm_x_display_of (SCM_INUM 7) demo_world =
    (Throw (wrong_type_arg "x-display-of" 1 (SCM_INUM 7)), demo_world).
Proof.
  destruct (display_of_owner demo_world demo_display 1%positive demo_xdisplay
              demo_is_display (or_introl eq_refl))
    as (H1 & H2 & H3 & _ & H5).
  split; [exact H1|]. split; [|split].
  - exact (H2 demo_window 2%positive demo_xwindow demo_is_window eq_refl).
  - exact (H3 demo_gc 4%positive demo_xgc demo_is_gc eq_refl).
  - apply H5. left. reflexivity.
Defined.

Lemma valid_scr_accepted_iff_witness :
  valid_scr demo_xlib demo_display (SCM_INUM 1) SCM_ARG2 1%positive
    "x-root-window" demo_world = (Ok 1, demo_world) /\
  ~ screen_accepted demo_xlib 1000 (SCM_INUM 0) 0.
Proof.
  assert (Ht : typ16_of demo_world demo_display <> scm_tc16_xscreen)
    by (vm_compute; discriminate).
  assert (Hb : blocks demo_world !! 1%positive = Some (B_xdisplay demo_xdisplay))
    by (vm_compute; reflexivity).
  split.
  - apply (valid_scr_accepted_iff demo_xlib demo_world demo_display
             1%positive demo_xdisplay (SCM_INUM 1) SCM_ARG2 "x-root-window"
             1 demo_world Ht Hb).
    split; [|reflexivity]. right. repeat split; try reflexivity;
      discriminate.
  - intros Ha.
    pose proof (proj2 (valid_scr_accepted_iff demo_xlib demo_world
                         demo_display 1%positive demo_xdisplay (SCM_INUM 0)
                         SCM_ARG2 "x-root-window" 0 demo_world Ht Hb)
                  (conj Ha eq_refl)) as H.
    vm_compute in H. discriminate.
Defined.

Lemma screen_of_display_number_witness :
  exists s ps w1,
    scm_x_screen_of_display demo_xlib demo_display SCM_UNDEFINED demo_world
      = (Ok s, w1) /\
    is_xscreen w1 s ps demo_xscreen /\
    scm_x_display_of s w1 = (Ok demo_display, w1) /\
    scm_x_screen_number_of_screen demo_xlib s w1 =
      (Ok (SCM_INUM 0),
       set_trace (fun t => t ++ [XScreenNumberOfScreen 9000]) w1) /\
    scm_x_screen_number_of_screen demo_xlib demo_display w1 =
      (Throw (wrong_type_arg "" 0 demo_display), w1).
Proof.
  pose proof (screen_of_display_number demo_xlib demo_world demo_display
                1%positive demo_xdisplay SCM_UNDEFINED 0 demo_is_display
                eq_refl (or_introl (conj eq_refl eq_refl))) as H.
  cbv zeta in H.
  destruct H as (s & ps & w1 & H1 & _ & H2 & _ & _ & _ & H3 & H4 & H5).
  exists s, ps, w1. split; [exact H1|]. split; [exact H2|].
  split; [exact H3|]. split; [exact H4|exact H5].
Defined.

Lemma screen_smob_overrides_number_witness :
  is_xscreen demo_world_screen demo_screen 5%positive demo_xscreen /\
  scm_x_root_window demo_xlib demo_screen (SCM_INUM 7) demo_world_screen =
    scm_x_root_window demo_xlib demo_screen SCM_UNDEFINED demo_world_screen /\
  scm_x_default_gc demo_xlib demo_screen (SCM_STRING "one")
    demo_world_screen =
    scm_x_default_gc demo_xlib demo_screen SCM_UNDEFINED demo_world_screen.
Proof.
  split; [exact demo_is_screen|].
  split.
  - exact (proj1 (screen_smob_overrides_number demo_xlib demo_world_screen
                    demo_screen 5%positive demo_xscreen (SCM_INUM 7)
                    demo_is_screen)).
  - exact (proj1 (proj2 (screen_smob_overrides_number demo_xlib
                           demo_world_screen demo_screen 5%positive
                           demo_xscreen (SCM_STRING "one") demo_is_screen))).
Defined.

Lemma root_window_shared_witness :
  resource_id_hash demo_world !! int_of_XID 1 = None /\
  exists root pr w1,
    scm_x_root_window demo_xlib demo_display SCM_UNDEFINED demo_world
      = (Ok root, w1) /\
    is_xwindow w1 root pr (third_party demo_display 1) /\
    trace w1 = trace demo_world /\
    scm_x_root_window demo_xlib demo_display SCM_UNDEFINED w1
      = (Ok root, w1) /\
    scm_x_destroy_window_x root w1 =
      (Throw (misc_error "x-destroy-window!"
                "Window ~S belongs to a third party" [root]), w1) /\
    xwindow_free root w1 = (Ok 0, w1).
Proof.
  assert (Hh : resource_id_hash demo_world !! int_of_XID 1 = None)
    by (vm_compute; reflexivity).
  split; [exact Hh|].
  pose proof (root_window_shared demo_xlib demo_world demo_display
                1%positive demo_xdisplay SCM_UNDEFINED 0 demo_is_display
                eq_refl (or_introl (conj eq_refl eq_refl))) as H.
  cbv zeta in H.
  destruct H as (root & pr & w1 & H1 & _ & H2 & _ & H3 & H4 & H5 & H6 & _).
  - vm_compute. discriminate.
  - exact Hh.
  - exists root, pr, w1. split; [exact H1|]. split; [exact H2|].
    split; [exact H3|]. split; [exact H4|]. split; [exact H5|exact H6].
Defined.

Lemma copy_area_contract_witness :
  is_xwindow demo_world_mapped demo_window 2%positive demo_xwindow_mapped /\
  scm_x_copy_area_x demo_window demo_window demo_gc (SCM_INUM 0)
    (SCM_INUM 0) (SCM_INUM 4) (SCM_INUM 4) (SCM_INUM 2) (SCM_INUM 2)
    demo_world_mapped =
    (Ok SCM_UNSPECIFIED,
     set_trace (fun tr => tr ++ [XCopyArea 1000 43 43 607 0 0 4 4 2 2])
       demo_world_mapped) /\
  scm_x_copy_area_x demo_window demo_window demo_gc (SCM_INUM 0)
    (SCM_INUM 0) (SCM_INUM 4) (SCM_INUM 4) (SCM_INUM 2) (SCM_INUM 2)
    demo_world =
    (Throw (misc_error "x-copy-area!" "Window ~S is already unmapped"
              [demo_window]), demo_world).
Proof.
  split; [exact demo_mapped_is_window|]. split.
  - pose proof (copy_area_contract demo_world_mapped demo_window demo_window
                  demo_gc 2%positive demo_xwindow_mapped 2%positive
                  demo_xwindow_mapped 4%positive demo_xgc 1%positive
                  demo_xdisplay 0 0 4 4 2 2 demo_mapped_is_window
                  demo_mapped_is_window demo_mapped_is_gc
                  demo_mapped_is_display) as H.
    cbv zeta in H.
    destruct H as (H & _); try (unfold INT_MIN, INT_MAX, UINT_MAX; lia).
    apply H; [by left|by left|by left].
  - pose proof (copy_area_contract demo_world demo_window demo_window
                  demo_gc 2%positive demo_xwindow 2%positive
                  demo_xwindow 4%positive demo_xgc 1%positive
                  demo_xdisplay 0 0 4 4 2 2 demo_is_window
                  demo_is_window demo_is_gc demo_is_display) as H.
    cbv zeta in H.
    destruct H as (_ & H & _); try (unfold INT_MIN, INT_MAX, UINT_MAX; lia).
    apply H. by left.
Defined.

Lemma root_window_of_window_witness :
  exists root pr w1,
    scm_x_root_window demo_xlib demo_window SCM_UNDEFINED demo_world
      = (Ok root, w1) /\
    is_xwindow w1 root pr (third_party demo_window 1) /\
    scm_x_display_of root w1 =
      (Throw (wrong_type_arg "x-display-of" 1 demo_window), w1) /\
    scm_x_clear_window_x root w1 =
      (Throw (wrong_type_arg "x-clear-window!" 1 demo_window), w1).
Proof.
  pose proof (root_window_of_window demo_xlib demo_world demo_window
                2%positive demo_xwindow 1%positive demo_xdisplay
                demo_is_window demo_is_display eq_refl) as H.
  cbv zeta in H. destruct H as (root & pr & w1 & H1 & H2 & H3 & H4 & _).
  - vm_compute. discriminate.
  - vm_compute. reflexivity.
  - exists root, pr, w1. split; [exact H1|]. split; [exact H2|].
    split; [exact H3|exact H4].
Defined.

Lemma xwindow_free_once_witness :
  exists w1,
    xwindow_free demo_window demo_world = (Ok 0, w1) /\
    trace w1 = trace demo_world ++ [XDestroyWindow 1000 43] /\
    xwindow_free demo_window w1 = (Ok 0, w1).
Proof.
  destruct (xwindow_free_once demo_world demo_window 2%positive demo_xwindow
              1%positive demo_xdisplay demo_is_window demo_is_display
              eq_refl (or_introl eq_refl)) as (w1 & H1 & H2 & _ & H3).
  exists w1. split; [exact H1|]. split; [exact H2|exact H3].
Defined.

Lemma xgc_free_once_witness :
  exists w1,
    xgc_free demo_gc demo_world = (Ok 0, w1) /\
    trace w1 = trace demo_world ++ [XFreeGC 1000 607] /\
    xgc_free demo_gc w1 = (Ok 0, w1).
Proof.
  destruct (xgc_free_once demo_world demo_gc 4%positive demo_xgc 1%positive
              demo_xdisplay demo_is_gc demo_is_display eq_refl) as (_ & H).
  destruct (H eq_refl) as (w1 & H1 & _ & H2 & _ & H3).
  exists w1. split; [exact H1|]. split; [exact H2|exact H3].
Defined.

Lemma draw_dispatch_witness :
  scm_x_draw_lines_x demo_valid_data demo_window demo_gc SCM_BOOL_F
    demo_world =
    (Ok SCM_UNSPECIFIED,
     set_trace (fun t => t ++ [XDrawLines 1000 43 607 3]) demo_world) /\
  scm_x_draw_rectangles_x demo_valid_data demo_pixmap demo_gc SCM_BOOL_F
    demo_world =
    (Ok SCM_UNSPECIFIED,
     set_trace (fun t => t ++ [XDrawRectangles 1000 76 607 3]) demo_world).
Proof.
  split.
  - pose proof (draw_dispatch demo_valid_data demo_world demo_window
                  2%positive demo_xwindow 1%positive demo_xdisplay demo_gc
                  4%positive demo_xgc SCM_BOOL_F demo_is_window
                  demo_is_display eq_refl demo_is_gc) as H.
    cbv zeta in H.
    destruct H as (_ & H & _);
      [vm_compute; by left|vm_compute; discriminate|by left|].
    exact (H 0 3 eq_refl).
  - pose proof (draw_dispatch demo_valid_data demo_world demo_pixmap
                  3%positive demo_xpixmap 1%positive demo_xdisplay demo_gc
                  4%positive demo_xgc SCM_BOOL_F demo_is_pixmap
                  demo_is_display eq_refl demo_is_gc) as H.
    cbv zeta in H.
    destruct H as (_ & _ & _ & _ & H & _);
      [vm_compute; do 4 right; by left|vm_compute; discriminate|by left|].
    exact (H 0 3 eq_refl).
Defined.




Lemma sweep_closes_once_witness :
  exists ev,
    trace (gc_sweep [1; 2; 1; 4; 1]%positive demo_world) =
      trace demo_world ++ ev /\
    closes_once ev.
Proof.
  exact (sweep_closes_once [1; 2; 1; 4; 1]%positive demo_world
           demo_handles_distinct).
Defined.

(** * Events *)

Ltac event_types :=
  unfold KeyPress, KeyRelease, ButtonPress, ButtonRelease,
    MotionNotify, EnterNotify, LeaveNotify, FocusIn, FocusOut, KeymapNotify,
    Expose, GraphicsExpose, NoExpose, VisibilityNotify, CreateNotify,
    DestroyNotify, UnmapNotify, MapNotify, MapRequest, ReparentNotify,
    ConfigureNotify, ConfigureRequest, GravityNotify, ResizeRequest, CirculateNotify,
    CirculateRequest, PropertyNotify, SelectionClear, SelectionRequest, SelectionNotify,
    ColormapNotify, ClientMessage, MappingNotify in *.

Lemma event_slots_distinct_aux e :
  NoDup (event_fields e).*1 /\
  Forall (fun p => (p.1 < XEVENT_NUM_SLOTS)%nat) (event_fields e).
Proof.
  split.
  - unfold event_fields. cbv zeta.
    repeat match goal with
      | |- context [if ?c then _ else _] => destruct c
      end;
      apply (bool_decide_unpack _); vm_compute; exact I.
  - unfold event_fields. cbv zeta.
    repeat match goal with
      | |- context [if ?c then _ else _] => destruct c
      end;
      apply (bool_decide_unpack _); vm_compute; exact I.
Qed.

(** X23.  In every case of the switch of [copy_event_fields] the
    assignments go to slots that differ from one another, so that no
    field of an event overwrites another in the vector, and to slots
    below [XEVENT_NUM_SLOTS]; for an event type that is none of the
    thirty-three the switch knows, nothing is assigned, the type
    neither. *)
Theorem event_slots_distinct e :
  NoDup (event_fields e).*1 /\
  Forall (fun p => (p.1 < XEVENT_NUM_SLOTS)%nat) (event_fields e) /\
  (E_type e < KeyPress \/ MappingNotify < E_type e -> event_fields e = []).
Proof.
  destruct (event_slots_distinct_aux e) as [H1 H2].
  split; [exact H1|]. split; [exact H2|].
  intros Ht. unfold event_fields. cbv zeta.
  repeat match goal with
    | |- context [?a =? ?b] =>
        destruct (Z.eqb_spec a b); [exfalso; event_types; lia|]
    end.
  reflexivity.
Qed.

Lemma clear_slots_all v w :
  length v = XEVENT_NUM_SLOTS ->
  clear_slots 0 XEVENT_NUM_SLOTS v w =
    (Ok (replicate XEVENT_NUM_SLOTS SCM_UNSPECIFIED), w).
Proof.
  intros H. do 17 (destruct v as [|? v]; [discriminate|]).
  destruct v; [reflexivity|discriminate].
Qed.

Lemma typ16_of_fresh_cell w c b h t x :
  typ16_of w x <> scm_tc16_other ->
  typ16_of {| cells := <[fresh (dom (cells w)) := c]> (cells w);
              blocks := b; resource_id_hash := h; trace := t |} x
  = typ16_of w x.
Proof.
  intros Hx. destruct x as [| | | | | |a]; try done.
  unfold typ16_of in *. simpl.
  destruct (decide (fresh (dom (cells w)) = a)) as [<-|Hne].
  - by rewrite fresh_cell in Hx.
  - by rewrite lookup_insert_ne.
Qed.

Lemma live_entry_not_false w k x : live_entry w k x -> x <> SCM_BOOL_F.
Proof. intros [_ Ht] ->. by compute in Ht. Qed.

Lemma lookup_window_live display id func w x :
  id <> XID_None -> live_entry w (int_of_XID id) x ->
  lookup_window display id func w = (Ok x, w).
Proof.
  intros Hid [Hh Ht]. rewrite lookup_window_run.
  apply Z.eqb_neq in Hid. rewrite Hid. cbv zeta. rewrite Hh. simpl.
  rewrite Ht, (bool_decide_eq_true_2 _ eq_refl). simpl.
  rewrite bool_decide_eq_false_2; [done|].
  intros ->. by compute in Ht.
Qed.

(** One slot value: it is made without any Xlib call, what the table had
    stays, and a window id comes out as the smob the table has for it
    from then on. *)
Lemma slot_scm_spec display func sv w :
  exists x w',
    slot_scm display func sv w = (Ok x, w') /\
    slot_holds w' display sv x /\
    trace w' = trace w /\
    (wf_heap w -> wf_heap w') /\
    (forall k y, live_entry w k y -> live_entry w' k y).
Proof.
  destruct sv as [n|b| |id|]; try (by eexists _, w).
  simpl. destruct (decide (id = XID_None)) as [->|Hid].
  { by eexists _, w. }
  assert (Hwf : wf_heap w ->
                wf_heap (snd (lookup_window display id func w))).
  { intros Hwf.
    destruct (lookup_window_sound w w display id func Hwf) as [H _];
      [left; by rewrite app_nil_r|done]. }
  revert Hwf. rewrite lookup_window_run.
  pose proof Hid as Hid'. apply Z.eqb_neq in Hid'. rewrite Hid'. cbv zeta.
  destruct (bool_decide _ || negb _) eqn:Hc.
  - intros Hwf. eexists _, _. split; [reflexivity|].
    split; [|split; [reflexivity|split; [exact Hwf|]]].
    + split; simpl; [apply lookup_insert_eq|apply typ16_of_new_cell].
    + intros k y [Hk Hy]. split; simpl.
      * rewrite lookup_insert_ne; [done|]. intros <-.
        rewrite Hk in Hc. simpl in Hc.
        rewrite Hy, (bool_decide_eq_true_2 _ eq_refl) in Hc. simpl in Hc.
        rewrite orb_false_r in Hc. apply bool_decide_eq_true in Hc.
        subst y. by compute in Hy.
      * rewrite typ16_of_fresh_cell; [done|congruence].
  - intros Hwf. apply orb_false_elim in Hc as [Hc1 Hc2].
    apply bool_decide_eq_false in Hc1. apply negb_false_iff in Hc2.
    apply bool_decide_eq_true in Hc2.
    destruct (resource_id_hash w !! int_of_XID id) as [y|] eqn:Hh;
      simpl in *; [|done].
    eexists _, _. split; [reflexivity|].
    split; [|split; [done|split; [done|auto]]].
    by split.
Qed.

Lemma slot_holds_mono w w' display sv x :
  (forall k y, live_entry w k y -> live_entry w' k y) ->
  slot_holds w display sv x -> slot_holds w' display sv x.
Proof.
  intros Hm. destruct sv; simpl; try done. destruct (_ =? _); [done|].
  apply Hm.
Qed.

Lemma fill_slots_spec display func fields : forall v w,
  Forall (fun p => (p.1 < length v)%nat) fields ->
  NoDup fields.*1 ->
  exists v' w',
    fill_slots display func fields v w = (Ok v', w') /\
    length v' = length v /\
    trace w' = trace w /\
    (wf_heap w -> wf_heap w') /\
    (forall k y, live_entry w k y -> live_entry w' k y) /\
    (forall i, i ∉ fields.*1 -> v' !! i = v !! i) /\
    (forall i sv,
       (i, sv) ∈ fields -> exists x, v' !! i = Some x /\
                                     slot_holds w' display sv x).
Proof.
  induction fields as [|[slot sv] fields IH]; intros v w Hlt Hnd.
  - exists v, w. do 6 (split; [done|]). intros i sv Hin.
    by apply elem_of_nil in Hin.
  - apply Forall_cons in Hlt as [Hslot Hlt]. simpl in Hslot.
    apply NoDup_cons in Hnd as [Hnotin Hnd].
    destruct (slot_scm_spec display func sv w)
      as (x & w1 & Hx & Hholds & Htr1 & Hwf1 & Hlive1).
    simpl. unfold bind at 1. rewrite Hx.
    unfold bind at 1, scm_c_vector_set_x.
    destruct (decide (slot < length v)%nat); [|contradiction]. simpl.
    destruct (IH (<[slot := x]> v) w1) as
      (v' & w' & Hrun & Hlen & Htr & Hwf & Hlive & Hout & Hin); [|done|].
    { rewrite length_insert. exact Hlt. }
    exists v', w'. split; [exact Hrun|].
    split; [by rewrite Hlen, length_insert|].
    split; [congruence|]. split; [auto|]. split; [auto|]. split.
    + intros i Hi. apply not_elem_of_cons in Hi as [Hne Hi].
      rewrite (Hout i Hi). by rewrite list_lookup_insert_ne.
    + intros i sv' Hel. apply elem_of_cons in Hel as [[= -> ->]|Hel].
      * exists x. split.
        -- rewrite (Hout slot Hnotin). by apply list_lookup_insert_eq.
        -- by apply (slot_holds_mono w1).
      * by apply Hin.
Qed.

(** X24.  [copy_event_fields], on a new vector or on a vector of
    seventeen slots: it answers a vector of seventeen slots and calls
    nothing in Xlib.  Each slot the case of the event assigns holds the
    value of its field: the integer converted to a C int, the boolean,
    the display, #f, and for a window id the smob the resource-id table
    has for it afterwards (#f for the null id), which is the smob the
    table had before if that was a live one.  Every other slot holds the
    unspecified value, whatever the vector held before.  The heap stays
    in order. *)
Theorem copy_event_fields_slots display e event func w :
  from_option (fun v => length v = XEVENT_NUM_SLOTS) True event ->
  exists v w',
    copy_event_fields display e event func w = (Ok v, w') /\
    length v = XEVENT_NUM_SLOTS /\
    trace w' = trace w /\
    (wf_heap w -> wf_heap w') /\
    (forall i,
       (i < XEVENT_NUM_SLOTS)%nat -> i ∉ (event_fields e).*1 ->
       v !! i = Some SCM_UNSPECIFIED) /\
    (forall i sv,
       (i, sv) ∈ event_fields e ->
       exists x, v !! i = Some x /\ slot_holds w' display sv x) /\
    (forall i id x,
       (i, SV_window id) ∈ event_fields e -> id <> XID_None ->
       live_entry w (int_of_XID id) x -> v !! i = Some x).
Proof.
  intros Hlen. unfold copy_event_fields. cbv zeta. unfold bind at 1.
  rewrite clear_slots_all by (destruct event; [exact Hlen|reflexivity]).
  destruct (event_slots_distinct_aux e) as (Hnd & Hlt).
  destruct (fill_slots_spec display func (event_fields e)
              (replicate XEVENT_NUM_SLOTS SCM_UNSPECIFIED) w)
    as (v & w' & Hrun & Hl & Htr & Hwf & Hlive & Hout & Hin);
    [by rewrite length_replicate|done|].
  exists v, w'. split; [exact Hrun|].
  split; [by rewrite Hl, length_replicate|]. split; [done|].
  split; [done|]. split; [|split; [done|]].
  - intros i Hi Hni. rewrite (Hout i Hni). by apply lookup_replicate_2.
  - intros i id x Hel Hid Hx. destruct (Hin i _ Hel) as (y & Hy & Hh).
    simpl in Hh. apply Z.eqb_neq in Hid. rewrite Hid in Hh.
    apply Hlive in Hx. destruct Hh as [Hh _], Hx as [Hx _]. congruence.
Qed.

Lemma fill_slots_known display func fields : forall v w,
  Forall (fun p => (p.1 < length v)%nat) fields ->
  (forall i id,
     (i, SV_window id) ∈ fields ->
     id = XID_None \/ exists x, live_entry w (int_of_XID id) x) ->
  snd (fill_slots display func fields v w) = w.
Proof.
  induction fields as [|[slot sv] fields IH]; intros v w Hlt Hk; [done|].
  apply Forall_cons in Hlt as [Hslot Hlt]. simpl in Hslot.
  assert (Hsv : exists x, slot_scm display func sv w = (Ok x, w)).
  { destruct sv as [n|b| |id|]; try (by eexists).
    destruct (Hk slot id) as [->|(x & Hx)]; [by left|by eexists|].
    destruct (decide (id = XID_None)) as [->|Hid]; [by eexists|].
    exists x. by apply lookup_window_live. }
  destruct Hsv as (x & Hx). simpl. unfold bind at 1. rewrite Hx.
  unfold bind at 1, scm_c_vector_set_x.
  destruct (decide (slot < length v)%nat); [|contradiction]. simpl.
  apply IH.
  - by rewrite length_insert.
  - intros i id Hin. apply (Hk i id). by right.
Qed.

(** X25.  [copy_event_fields] makes a smob only for a window id it has
    not seen: when every window id of the event is null or has a live
    smob in the resource-id table, the heap, the table and the trace are
    left as they are. *)
Theorem copy_event_fields_known display e event func w :
  from_option (fun v => length v = XEVENT_NUM_SLOTS) True event ->
  (forall i id,
     (i, SV_window id) ∈ event_fields e ->
     id = XID_None \/ exists x, live_entry w (int_of_XID id) x) ->
  snd (copy_event_fields display e event func w) = w.
Proof.
  intros Hlen Hk. unfold copy_event_fields. cbv zeta. unfold bind at 1.
  rewrite clear_slots_all by (destruct event; [exact Hlen|reflexivity]).
  apply fill_slots_known; [|exact Hk].
  rewrite length_replicate.
  by destruct (event_slots_distinct_aux e) as (_ & Hlt).
Qed.

Lemma demo_live_window : live_entry demo_world (int_of_XID 43) demo_window.
Proof. split; vm_compute; reflexivity. Qed.

Lemma copy_event_fields_slots_witness :
  exists v w',
    copy_event_fields demo_display demo_event
      (Some (replicate 17 SCM_BOOL_T)) "x-next-event!" demo_world
      = (Ok v, w') /\
    length v = 17%nat /\
    trace w' = trace demo_world /\
    v !! XEVENT_SLOT_WINDOW = Some demo_window /\
    v !! XEVENT_SLOT_DETAIL = Some SCM_UNSPECIFIED /\
    (exists x, v !! XEVENT_SLOT_TIME = Some x /\ x = SCM_INUM 5) /\
    (exists x, v !! XEVENT_SLOT_ROOT = Some x /\
               live_entry w' (int_of_XID 1) x).
Proof.
  destruct (copy_event_fields_slots demo_display demo_event
              (Some (replicate 17 SCM_BOOL_T)) "x-next-event!" demo_world
              eq_refl)
    as (v & w' & H1 & H2 & H3 & _ & H4 & H5 & H6).
  exists v, w'. split; [exact H1|]. split; [exact H2|]. split; [exact H3|].
  split; [|split; [|split]].
  - apply (H6 XEVENT_SLOT_WINDOW 43 demo_window);
      [vm_compute; do 4 right; left|discriminate|exact demo_live_window].
  - apply H4; [vm_compute; lia|]. vm_compute.
    intros H. by repeat (apply elem_of_cons in H as [H|H]; [discriminate|]);
      apply elem_of_nil in H.
  - apply (H5 XEVENT_SLOT_TIME (SV_int (2 ^ 32 + 5))).
    vm_compute. do 7 right. left.
  - apply (H5 XEVENT_SLOT_ROOT (SV_window 1)).
    vm_compute. do 5 right. left.
Defined.

Lemma copy_event_fields_known_witness :
  snd (copy_event_fields demo_display demo_expose None "x-next-event!"
         demo_world) = demo_world.
Proof.
  apply (copy_event_fields_known demo_display demo_expose None
           "x-next-event!" demo_world I).
  intros i id Hin. right. exists demo_window.
  vm_compute in Hin.
  repeat (apply elem_of_cons in Hin as [Hin|Hin]; [try discriminate|]).
  - injection Hin as -> ->. exact demo_live_window.
  - by apply elem_of_nil in Hin.
Defined.

Lemma event_slots_distinct_witness : event_fields demo_generic_event = [].
Proof.
  apply (proj2 (proj2 (event_slots_distinct demo_generic_event))).
  right. vm_compute. reflexivity.
Defined.

(** * GC attributes *)

Lemma list_pair_ind {A} (P : list A -> Prop) :
  P [] -> (forall x, P [x]) ->
  (forall x y l, P l -> P (x :: y :: l)) ->
  forall l, P l.
Proof.
  intros H0 H1 H2 l.
  assert (H : P l /\ forall x, P (x :: l)); [|by destruct H].
  induction l as [|y l [IH1 IH2]]; [by split|].
  split; [apply IH2|]. intros x. by apply H2.
Qed.

(** What a step of the encoder comes out with: the world as it was, and
    a value or an error that is no internal one. *)
Lemma gc_set_field_reads U C h gcv offset value :
  reads_only (gc_set_field U C h gcv offset value).
Proof.
  intros w. destruct h; unfold gc_set_field, SCM_NUM2ULONG, scm_to_int;
    cbv zeta.
  - destruct value; mrun; try (split; [done|intros ? [= <-]; not_internal]).
    destruct (_ && _); mrun; split; try done; intros ? [= <-]; not_internal.
  - mrun. split; [done|]. intros ? [= <-]. not_internal.
  - mrun. split; [done|]. intros ? [= <-]. not_internal.
  - destruct value; mrun; split; try done; intros ? [= <-]; not_internal.
  - destruct value; mrun; try (split; [done|intros ? [= <-]; not_internal]).
    destruct (_ && _); mrun; split; try done; intros ? [= <-]; not_internal.
Qed.

Lemma reads_only_bind {A B} (c : M A) (k : A -> M B) :
  reads_only c -> (forall a, reads_only (k a)) -> reads_only (bind c k).
Proof.
  intros Hc Hk w. unfold bind. destruct (Hc w) as [Hs He].
  destruct (c w) as [[a|e] w']; simpl in *; subst w'.
  - apply Hk.
  - split; [done|]. intros e' [= <-]. by apply He.
Qed.

Lemma reads_only_ret {A} (a : A) : reads_only (ret a).
Proof. intros w. split; [done|]. by intros e [=]. Qed.

Lemma reads_only_throw {A} e :
  ~ internal_error e -> reads_only (throw (A := A) e).
Proof. intros He w. split; [done|]. by intros e' [= <-]. Qed.

Lemma reads_only_assert c arg pos func :
  reads_only (SCM_ASSERT c arg pos func).
Proof.
  destruct c; [apply reads_only_ret|]. apply reads_only_throw. not_internal.
Qed.

Lemma reads_only_assert_range pos arg c func :
  reads_only (SCM_ASSERT_RANGE pos arg c func).
Proof.
  destruct c; [apply reads_only_ret|]. apply reads_only_throw. not_internal.
Qed.

Lemma reads_only_scm_to_int x : reads_only (scm_to_int x).
Proof.
  unfold scm_to_int. destruct x; try (apply reads_only_throw; not_internal).
  destruct (_ && _); [apply reads_only_ret|].
  apply reads_only_throw; not_internal.
Qed.

Lemma even_length_cddr {A} (x y : A) l :
  Z.land (Z.of_nat (length (x :: y :: l))) 1 = 0 ->
  Z.land (Z.of_nat (length l)) 1 = 0.
Proof.
  intros Hlen. rewrite <- Hlen. simpl length.
  rewrite !Z.land_ones with (n := 1) by lia.
  rewrite !Nat2Z.inj_succ. unfold Z.succ.
  rewrite <- Z.add_assoc. simpl (1 + 1).
  change (2 ^ 1) with 2. rewrite <- (Z.add_mod_idemp_r _ 2) by lia.
  by rewrite Z.add_0_r.
Qed.

Lemma gc_change_loop_reads U C func elements :
  Z.land (Z.of_nat (length elements)) 1 = 0 ->
  forall mask gcv, reads_only (gc_change_loop U C func elements mask gcv).
Proof.
  induction elements as [|x|field value l IH] using list_pair_ind;
    intros Hlen mask gcv.
  - apply reads_only_ret.
  - done.
  - assert (Hl : Z.land (Z.of_nat (length l)) 1 = 0)
      by (by apply even_length_cddr in Hlen).
    simpl. apply reads_only_bind;
      [first [apply reads_only_ret|apply reads_only_assert]|]. intros _.
    apply reads_only_bind; [apply reads_only_scm_to_int|]. intros fld.
    destruct ((0 <=? fld) && (fld <=? 22)) eqn:Hr.
    + apply reads_only_bind; [apply reads_only_ret|]. intros _.
      apply andb_true_iff in Hr as [H0%Z.leb_le H22%Z.leb_le].
      destruct (gc_fields !! Z.to_nat fld) as [h|] eqn:Hh.
      * apply reads_only_bind; [apply reads_only_ret|]. intros h'.
        apply reads_only_bind; [apply gc_set_field_reads|]. intros gcv'.
        by apply IH.
      * apply lookup_ge_None in Hh. simpl in Hh. lia.
    + intros w. unfold bind, SCM_ASSERT_RANGE, throw. simpl.
      split; [done|]. intros ? [= <-]. not_internal.
Qed.

(** The encoder, where it fails, fails x-create-gc!, before anything is
    allocated or asked of Xlib. *)
Lemma create_gc_refused X gc_changes w drawable pw x pd d changes e :
  is_xwindow w drawable pw x ->
  is_xdisplay w (xwindow_dsp x) pd d ->
  xdisplay_state d = XDISPLAY_STATE_OPEN ->
  Z.land (xwindow_state x) (Z.lnot XWINDOW_STATE_DESTROYED) <> 0 ->
  gc_changes changes "x-create-gc!" w = (Throw e, w) ->
  scm_x_create_gc_x X gc_changes drawable changes w = (Throw e, w).
Proof.
  intros Hx Hd Hs Hst Hch.
  pose proof Hd as (Ht' & Hp' & Hb').
  unfold scm_x_create_gc_x. cbv zeta. unfold bind at 1.
  rewrite (valid_dsp_on_window _ _ _ _ _ _ _ _ _ Hx Hd), Hs.
  change (Z.land XDISPLAY_STATE_OPEN XDISPLAY_STATE_OPEN =? 0) with false.
  cbv beta iota. unfold XDISPLAY, bind at 1.
  unfold SCM_SMOB_DATA at 1. rewrite Hp'.
  unfold bind at 1. rewrite (valid_win_run _ _ _ _ _ _ _ Hx).
  apply Z.eqb_neq in Hst. rewrite Hst.
  unfold bind at 1. change s_scm_x_create_gc_x with "x-create-gc!".
  by rewrite Hch.
Qed.

Lemma testbit_one_shiftl fld k :
  0 <= fld -> Z.testbit (1 ≪ fld) k = true <-> k = fld.
Proof.
  intros Hf. destruct (Z.neg_nonneg_cases k) as [Hk|Hk].
  - rewrite Z.testbit_neg_r by done. split; [done|lia].
  - rewrite Z.shiftl_spec by done.
    destruct (Z.lt_trichotomy k fld) as [Hlt|[->|Hgt]].
    + rewrite Z.testbit_neg_r by lia. split; [done|lia].
    + by rewrite Z.sub_diag.
    + rewrite Z.bits_above_log2; [split; [done|lia]|lia|simpl; lia].
Qed.

(** A handler that returns has written at its offset, and is none of
    those of pixmaps and fonts. *)
Lemma gc_set_field_ok U C h gcv offset value w gcv' w' :
  gc_set_field U C h gcv offset value w = (Ok gcv', w') ->
  (exists v, gcv' = <[offset := Some v]> gcv) /\
  h <> gc_set_pixmap_field /\ h <> gc_set_font_field.
Proof.
  destruct h; unfold gc_set_field, SCM_NUM2ULONG, scm_to_int; cbv zeta.
  - destruct value; mrun; try done.
    destruct (_ && _); mrun; [|done]. intros [= <- _]. eauto.
  - mrun. done.
  - mrun. done.
  - destruct value; mrun; try done; intros [= <- _]; eauto.
  - destruct value; mrun; try done.
    destruct (_ && _); mrun; [|done]. intros [= <- _]. eauto.
Qed.

Lemma gc_change_loop_cons U C func field value l mask gcv :
  gc_change_loop U C func (field :: value :: l) mask gcv =
    (SCM_ASSERT true field SCM_ARGn func >>
     let* fld := scm_to_int field in
     SCM_ASSERT_RANGE SCM_ARG2 field ((0 <=? fld) && (fld <=? 22)) func >>
     let* h := (match gc_fields !! Z.to_nat fld with
                | Some h => ret h
                | None => throw undefined_behaviour
                end) in
     let* gcv' := gc_set_field U C h gcv (Z.to_nat fld) value in
     gc_change_loop U C func l (Z.lor mask (1 ≪ fld)) gcv').
Proof. reflexivity. Qed.

(** One turn of the loop that goes through: the field is a number of the
    table, its handler has written, and the loop goes on with the bit of
    the field set. *)
Lemma gc_change_loop_step U C func field value l mask gcv w r w' :
  gc_change_loop U C func (field :: value :: l) mask gcv w = (Ok r, w') ->
  exists fld v,
    field = SCM_INUM fld /\ 0 <= fld <= 22 /\
    (fld ∉ unsupported_fields) /\
    gc_change_loop U C func l (Z.lor mask (1 ≪ fld))
      (<[Z.to_nat fld := Some v]> gcv) w = (Ok r, w').
Proof.
  rewrite gc_change_loop_cons.
  unfold bind at 1. unfold SCM_ASSERT at 1, ret at 1. cbv beta iota.
  unfold bind at 1.
  pose proof (reads_only_scm_to_int field w) as [Hw _].
  destruct (scm_to_int field w) as [[fld|e] w1] eqn:Hf; simpl in Hw;
    subst w1; [|done].
  assert (field = SCM_INUM fld) as ->.
  { destruct field; try done. unfold scm_to_int in Hf.
    destruct (_ && _); [|done]. by injection Hf as ->. }
  destruct ((0 <=? fld) && (fld <=? 22)) eqn:Hr; [|done].
  apply andb_true_iff in Hr as [H0%Z.leb_le H22%Z.leb_le].
  unfold bind at 1, SCM_ASSERT_RANGE at 1, ret at 1. cbv beta iota.
  destruct (gc_fields !! Z.to_nat fld) as [h|] eqn:Hh; [|done].
  unfold bind at 1, ret at 1. cbv beta iota. unfold bind at 1.
  pose proof (gc_set_field_reads U C h gcv (Z.to_nat fld) value w) as [Hw _].
  destruct (gc_set_field U C h gcv (Z.to_nat fld) value w)
    as [[gcv1|e] w1] eqn:Hs; simpl in Hw; subst w1; [|done].
  apply gc_set_field_ok in Hs as ((v & ->) & Hp & Hfn).
  intros Hl. exists fld, v. split; [done|]. split; [done|].
  split; [|done].
  unfold unsupported_fields. rewrite !elem_of_cons, elem_of_nil.
  intros [->|[->|[->|[->|[]]]]]; simpl in Hh; congruence.
Qed.

Lemma gc_assigned_insert (gcv : XGCValues) i j v :
  (j < length gcv)%nat ->
  gc_assigned (<[j := Some v]> gcv) i <-> gc_assigned gcv i \/ i = j.
Proof.
  intros Hj. unfold gc_assigned, XGCValues in *.
  destruct (decide (i = j)) as [->|Hne].
  - rewrite list_lookup_insert_eq by done. split; eauto.
  - rewrite list_lookup_insert_ne by done. split; [eauto|]. by intros [?|?].
Qed.

(** What the loop hands to XCreateGC: the bits of the mask are those it
    started with and those of the fields named, and the offsets written
    are those written before and those of the fields named. *)
Lemma gc_change_loop_ok U C func elements :
  Z.land (Z.of_nat (length elements)) 1 = 0 ->
  forall mask gcv w mask' gcv' w',
    length gcv = 23%nat ->
    gc_change_loop U C func elements mask gcv w = (Ok (mask', gcv'), w') ->
    (forall k, Z.testbit mask' k = true <->
               Z.testbit mask k = true \/ SCM_INUM k ∈ named_fields elements) /\
    (forall i, (i < length gcv)%nat ->
               (gc_assigned gcv' i <->
                gc_assigned gcv i \/
                SCM_INUM (Z.of_nat i) ∈ named_fields elements)) /\
    length gcv' = length gcv /\
    (forall f, SCM_INUM f ∈ named_fields elements ->
               0 <= f <= 22 /\ f ∉ unsupported_fields).
Proof.
  induction elements as [|x|field value l IH] using list_pair_ind;
    intros Hlen mask gcv w mask' gcv' w' H23 Hrun.
  - injection Hrun as <- <- _. simpl.
    split; [|split; [|split]]; intros; rewrite ?elem_of_nil in *; tauto.
  - done.
  - apply gc_change_loop_step in Hrun
      as (fld & v & -> & Hrange & Hun & Hrun).
    apply IH in Hrun as (Hm & Hg & Hlg & Hn);
      [|by apply even_length_cddr in Hlen
       |unfold XGCValues in *; by rewrite length_insert].
    unfold XGCValues in *. rewrite length_insert in Hlg.
    setoid_rewrite length_insert in Hg. simpl named_fields.
    split; [|split; [|split]].
    + intros k. rewrite Hm, Z.lor_spec, orb_true_iff, elem_of_cons.
      rewrite testbit_one_shiftl by lia.
      split; [intros [[?| ->]|?]|intros [?|[[= ->]|?]]]; auto.
    + intros i Hi. rewrite (Hg i Hi), elem_of_cons.
      rewrite gc_assigned_insert by lia.
      split; [intros [[?|E]|?]|intros [?|[[= E]|?]]]; auto.
      * right. left. f_equal. lia.
      * left. right. lia.
    + done.
    + intros f. rewrite elem_of_cons. intros [[= ->]|Hf]; auto.
Qed.

(** A field of pixmaps or fonts named anywhere stops the loop. *)
Lemma gc_change_loop_unsupported U C func elements f mask gcv w :
  Z.land (Z.of_nat (length elements)) 1 = 0 ->
  length gcv = 23%nat ->
  SCM_INUM f ∈ named_fields elements -> f ∈ unsupported_fields ->
  exists e, gc_change_loop U C func elements mask gcv w = (Throw e, w) /\
            ~ internal_error e.
Proof.
  intros Hlen H23 Hin Hf.
  pose proof (gc_change_loop_reads U C func elements Hlen mask gcv w)
    as [Hw He].
  destruct (gc_change_loop U C func elements mask gcv w) as [[[m g]|e] w']
    eqn:Hrun; simpl in Hw; subst w'.
  - apply gc_change_loop_ok in Hrun as (_ & _ & _ & Hn); [|done..].
    by destruct (Hn f Hin) as [_ []].
  - exists e. split; [done|]. by apply He.
Qed.

Lemma gc_attributes_reads U C elements changes func :
  reads_only (gc_attributes U C elements changes func).
Proof.
  unfold gc_attributes.
  destruct (Z.land (Z.of_nat (length elements)) 1 =? 0) eqn:Hl.
  - apply reads_only_bind; [apply reads_only_ret|]. intros _.
    apply gc_change_loop_reads. by apply Z.eqb_eq.
  - intros w. unfold bind, SCM_ASSERT, throw. simpl.
    split; [done|]. intros ? [= <-]. not_internal.
Qed.

Lemma gc_assigned_replicate n i : ~ gc_assigned (replicate n None) i.
Proof.
  intros [v Hv]. apply lookup_replicate in Hv as [Hv _]. discriminate.
Qed.

Lemma gc_assigned_lt gcv i : gc_assigned gcv i -> (i < length gcv)%nat.
Proof. intros [v Hv]. by apply lookup_lt_Some in Hv. Qed.

(** What an attribute list that is accepted comes to. *)
Lemma gc_attributes_ok U C elements changes func w mask gcv w' :
  gc_attributes U C elements changes func w = (Ok (mask, gcv), w') ->
  (forall k, Z.testbit mask k = true <-> SCM_INUM k ∈ named_fields elements) /\
  (forall i, gc_assigned gcv i <-> Z.testbit mask (Z.of_nat i) = true) /\
  (forall f, SCM_INUM f ∈ named_fields elements ->
             0 <= f <= 22 /\ f ∉ unsupported_fields).
Proof.
  unfold gc_attributes.
  destruct (Z.land (Z.of_nat (length elements)) 1 =? 0) eqn:Hl; [|done].
  apply Z.eqb_eq in Hl. unfold bind at 1, SCM_ASSERT, ret at 1.
  cbv beta iota. intros Hrun.
  apply gc_change_loop_ok in Hrun as (Hm & Hg & Hlg & Hn);
    [|done|apply length_replicate].
  rewrite length_replicate in Hlg, Hg.
  assert (Hmask : forall k, Z.testbit mask k = true <->
                            SCM_INUM k ∈ named_fields elements).
  { intros k. rewrite Hm, Z.bits_0. split; [by intros [?|?]|auto]. }
  split; [done|]. split; [|done].
  intros i. rewrite Hmask. split.
  - intros Hi. pose proof (gc_assigned_lt _ _ Hi) as Hlt.
    rewrite Hlg in Hlt. apply Hg in Hi as [Hi|Hi]; [|done..].
    by apply gc_assigned_replicate in Hi.
  - intros Hi. apply Hg; [|by right].
    apply Hn in Hi as [Hi _]. lia.
Qed.

(** X26.  The attribute list of x-create-gc!, all the way to Xlib.  On a
    drawable that is accepted, whenever x-create-gc! returns, its one
    call is XCreateGC with a value mask whose bits are exactly the field
    numbers the list names; the fields of the values structure that the
    handlers wrote at are exactly those of the mask, so that Xlib is
    never pointed at a field no handler wrote at (a numeric field is
    written through an int pointer, whatever its width); and every field
    named lies in the table and is none of tile, stipple, font and clip
    mask. *)
Theorem create_gc_mask X U C elements w drawable pw x pd d changes gc w' :
  is_xwindow w drawable pw x ->
  is_xdisplay w (xwindow_dsp x) pd d ->
  xdisplay_state d = XDISPLAY_STATE_OPEN ->
  Z.land (xwindow_state x) (Z.lnot XWINDOW_STATE_DESTROYED) <> 0 ->
  scm_x_create_gc_x X (gc_changes_of U C elements) drawable changes w =
    (Ok gc, w') ->
  exists mask gcv,
    gc_attributes U C elements changes "x-create-gc!" w =
      (Ok (mask, gcv), w) /\
    trace w' = trace w ++ [XCreateGC (xdisplay_dsp d) (xwindow_win x) mask] /\
    (forall k, Z.testbit mask k = true <->
               SCM_INUM k ∈ named_fields elements) /\
    (forall i, gc_assigned gcv i <-> Z.testbit mask (Z.of_nat i) = true) /\
    (forall f, SCM_INUM f ∈ named_fields elements ->
               0 <= f <= 22 /\ f ∉ unsupported_fields).
Proof.
  intros Hx Hd Hs Hst Hrun.
  pose proof (gc_attributes_reads U C elements changes "x-create-gc!" w)
    as [Hw _].
  destruct (gc_attributes U C elements changes "x-create-gc!" w)
    as [[[mask gcv]|e] w1] eqn:Ha; simpl in Hw; subst w1.
  - assert (Hch : gc_changes_of U C elements changes "x-create-gc!" w =
                    (Ok mask, w)).
    { unfold gc_changes_of, bind. by rewrite Ha. }
    rewrite (create_gc_run X _ _ _ _ _ _ _ _ _ Hx Hd Hs Hst Hch) in Hrun.
    cbv zeta in Hrun. injection Hrun as _ <-. exists mask, gcv.
    split; [done|]. split; [done|]. by apply gc_attributes_ok in Ha.
  - assert (Hch : gc_changes_of U C elements changes "x-create-gc!" w =
                    (Throw e, w)).
    { unfold gc_changes_of, bind. by rewrite Ha. }
    by rewrite (create_gc_refused X _ _ _ _ _ _ _ _ _ Hx Hd Hs Hst Hch)
      in Hrun.
Qed.

(** X27.  The fields x-create-gc! cannot set.  On a drawable that is
    accepted, an attribute list that names tile, stipple, font or clip
    mask (fields 11, 12, 15, 20) anywhere makes x-create-gc! fail with
    nothing allocated, nothing registered and no call to Xlib, whatever
    the value given; where such a field comes first in a list of even
    length, the error is a wrong-type error on the value, raised under
    the name of x-change-gc!. *)
Theorem create_gc_unsupported_field X U C elements w drawable pw x pd d
    changes f :
  is_xwindow w drawable pw x ->
  is_xdisplay w (xwindow_dsp x) pd d ->
  xdisplay_state d = XDISPLAY_STATE_OPEN ->
  Z.land (xwindow_state x) (Z.lnot XWINDOW_STATE_DESTROYED) <> 0 ->
  SCM_INUM f ∈ named_fields elements ->
  f ∈ unsupported_fields ->
  (exists e,
     scm_x_create_gc_x X (gc_changes_of U C elements) drawable changes w =
       (Throw e, w) /\ ~ internal_error e) /\
  (forall v rest,
     elements = SCM_INUM f :: v :: rest ->
     Z.land (Z.of_nat (length elements)) 1 = 0 ->
     scm_x_create_gc_x X (gc_changes_of U C elements) drawable changes w =
       (Throw (wrong_type_arg "x-change-gc!" SCM_ARGn v), w)).
Proof.
  intros Hx Hd Hs Hst Hin Hf. split.
  - pose proof (gc_attributes_reads U C elements changes "x-create-gc!" w)
      as [Hw He].
    destruct (gc_attributes U C elements changes "x-create-gc!" w)
      as [[[mask gcv]|e] w1] eqn:Ha; simpl in Hw; subst w1.
    + apply gc_attributes_ok in Ha as (_ & _ & Hn).
      by destruct (Hn f Hin) as [_ []].
    + exists e. split; [|by apply He].
      apply (create_gc_refused X _ _ _ _ _ _ _ _ _ Hx Hd Hs Hst).
      unfold gc_changes_of, bind. by rewrite Ha.
  - intros v rest -> Hlen.
    apply (create_gc_refused X _ _ _ _ _ _ _ _ _ Hx Hd Hs Hst).
    unfold gc_changes_of, gc_attributes. apply Z.eqb_eq in Hlen.
    rewrite Hlen. rewrite gc_change_loop_cons.
    unfold unsupported_fields in Hf.
    rewrite !elem_of_cons, elem_of_nil in Hf.
    destruct Hf as [->|[->|[->|[->|[]]]]]; reflexivity.
Qed.


(** ** The attribute lists of the session *)

Lemma create_gc_mask_witness :
  exists w' mask,
    trace w' = trace demo_world ++ [XCreateGC 1000 43 mask] /\
    forall k, Z.testbit mask k = true <->
              SCM_INUM k ∈ named_fields demo_elements.
Proof.
  assert (Hst : Z.land (xwindow_state demo_xwindow)
                  (Z.lnot XWINDOW_STATE_DESTROYED) <> 0)
    by (vm_compute; discriminate).
  pose proof (create_gc_run demo_xlib
                (gc_changes_of demo_ULONG_MAX demo_C_char demo_elements)
                demo_world demo_window 2%positive demo_xwindow 1%positive
                demo_xdisplay SCM_BOOL_F 131076
                demo_is_window demo_is_display eq_refl Hst eq_refl) as Hrun.
  cbv zeta in Hrun.
  destruct (create_gc_mask demo_xlib demo_ULONG_MAX demo_C_char
              demo_elements demo_world demo_window 2%positive demo_xwindow
              1%positive demo_xdisplay SCM_BOOL_F _ _
              demo_is_window demo_is_display eq_refl Hst Hrun)
    as (mask & gcv & _ & Ht & Hb & _).
  eexists _, mask. split; [exact Ht|exact Hb].
Defined.

Lemma create_gc_unsupported_field_witness :
  exists e,
    scm_x_create_gc_x demo_xlib
      (gc_changes_of demo_ULONG_MAX demo_C_char demo_elements_font)
      demo_window SCM_BOOL_F demo_world = (Throw e, demo_world) /\
    ~ internal_error e.
Proof.
  assert (Hst : Z.land (xwindow_state demo_xwindow)
                  (Z.lnot XWINDOW_STATE_DESTROYED) <> 0)
    by (vm_compute; discriminate).
  assert (Hin : SCM_INUM 15 ∈ named_fields demo_elements_font)
    by (vm_compute; repeat constructor).
  assert (Hf : 15 ∈ unsupported_fields) by (vm_compute; repeat constructor).
  exact (proj1 (create_gc_unsupported_field demo_xlib demo_ULONG_MAX
                  demo_C_char demo_elements_font demo_world demo_window
                  2%positive demo_xwindow 1%positive demo_xdisplay
                  SCM_BOOL_F 15 demo_is_window demo_is_display eq_refl Hst
                  Hin Hf)).
Defined.

